(** * Storefront client: pricing, checkout and order tracking

    A shallow embedding of the three React pages that carry the order
    lifecycle of the shop front end:

    - [Cart]          (pages/Cart: running totals and the discount code box),
    - [Checkout]      (pages/Checkout: order summary and [placeOrder]),
    - [OrderTracking] (pages/OrderTracking: status timeline and returns).

    A component is a record of its [useState] cells, a [render] function
    from that record to what is on screen, and one function per event
    handler, returning the next state together with the toasts, route
    changes and HTTP calls the handler issues.  An [async] handler is run
    to completion in one step; what the server answers is an argument.

    Numbers.  JavaScript numbers are taken as exact rationals ([Q]), so
    [subtotal * 0.1] is a tenth of the subtotal; rounding of binary
    floating point and the two-decimal formatting ([toFixed(2)]) applied
    when a value is printed are not part of the model. *)

From Stdlib Require Import QArith ZArith List String Bool Lia Lqa.
From Stdlib Require Import Qminmax Qround.
Import ListNotations.
Open Scope Q_scope.

(** ** Shared vocabulary *)

(** [x > y] on numbers. *)
Definition gt (x y : Q) : bool := negb (Qle_bool x y).

Record Product := {
  name : string;
  brand : string;
  price : Q;
  stock : Q
}.

(** One entry of [cart.items] as the server sends it. *)
Record CartItem := {
  product_id : string;
  product : Product;
  quantity : Q
}.

Record Address := {
  full_name : string;
  phone : string;
  address_line : string;
  city : string;
  state : string;
  pincode : string;
  is_default : bool
}.

(** An address of the profile carries the identifier given by the server. *)
Record SavedAddress := {
  id : string;
  fields : Address
}.

(** Body of [POST /orders/create]. *)
Record OrderLine := {
  line_product_id : string;
  line_quantity : Q
}.

Record OrderRequest := {
  items : list OrderLine;
  shipping_address : SavedAddress;
  payment_method : string;
  discount_code : string
}.

(** The calls made through [api]. *)
Inductive Request :=
| GetCart
| GetProfile
| PutCartUpdate (pid : string) (qty : Q)
| DeleteCartRemove (pid : string)
| PostAddress (a : Address)
| PostOrdersCreate (body : OrderRequest)
| PostPayment (order_id : string)
| GetOrder (order_id : string)
| PostReturnsCreate (order_id : string) (reason : string).

(** What a handler does besides updating state. *)
Inductive Effect :=
| ToastSuccess (msg : string)
| ToastError (msg : string)
| Navigate (path : string)
| Call (r : Request).

(** Settlement of an awaited call: the response data, or a rejection with
    the optional [error.response.data.detail]. *)
Inductive Outcome (A : Type) :=
| Resolved (data : A)
| Rejected (detail : option string).
Arguments Resolved {A} data.
Arguments Rejected {A} detail.

(** [detail || fallback] *)
Definition detail_or (detail : option string) (fallback : string) : string :=
  match detail with
  | Some d => if String.eqb d "" then fallback else d
  | None => fallback
  end.

(** [Array.prototype.findIndex]: position of the first match, [-1] if none. *)
Fixpoint findIndex_from {A : Type} (p : A -> bool) (l : list A) (i : Z) : Z :=
  match l with
  | [] => (-1)%Z
  | x :: l' => if p x then i else findIndex_from p l' (i + 1)%Z
  end.

Definition findIndex {A : Type} (p : A -> bool) (l : list A) : Z :=
  findIndex_from p l 0%Z.

(** [Array.prototype.map] with the index argument. *)
Fixpoint mapi_from {A B : Type} (f : A -> Z -> B) (l : list A) (i : Z) : list B :=
  match l with
  | [] => []
  | x :: l' => f x i :: mapi_from f l' (i + 1)%Z
  end.

Definition mapi {A B : Type} (f : A -> Z -> B) (l : list A) : list B :=
  mapi_from f l 0%Z.

(** The sum the pricing rules speak of: unit price times quantity, added
    up over the items. *)
Definition line_total (item : CartItem) : Q :=
  price (product item) * quantity item.

Fixpoint sum_of_lines (l : list CartItem) : Q :=
  match l with
  | [] => 0
  | item :: l' => line_total item + sum_of_lines l'
  end.

(** ** The cart page *)

Module Cart.

Record State := {
  cart : list CartItem;          (* cart.items *)
  loading : bool;
  discountCode : string;
  discount : Q
}.

Definition initial : State :=
  {| cart := []; loading := true; discountCode := ""; discount := 0 |}.

Definition setCart (data : list CartItem) (st : State) : State :=
  {| cart := data; loading := loading st;
     discountCode := discountCode st; discount := discount st |}.

Definition setLoading (b : bool) (st : State) : State :=
  {| cart := cart st; loading := b;
     discountCode := discountCode st; discount := discount st |}.

Definition setDiscountCode (v : string) (st : State) : State :=
  {| cart := cart st; loading := loading st;
     discountCode := v; discount := discount st |}.

Definition setDiscount (d : Q) (st : State) : State :=
  {| cart := cart st; loading := loading st;
     discountCode := discountCode st; discount := d |}.

(** Values derived in the component body on every render. *)
Definition subtotal (st : State) : Q :=
  fold_left (fun sum item => sum + price (product item) * quantity item)
            (cart st) 0.

Definition shipping (st : State) : Q :=
  if gt (subtotal st) 500 then 0 else 50.

Definition total (st : State) : Q :=
  subtotal st + shipping st - discount st.

(** Handlers. *)
Definition mount : State * list Effect := (initial, [Call GetCart]).

Definition fetchCart_settled (res : Outcome (list CartItem)) (st : State)
  : State * list Effect :=
  match res with
  | Resolved data => (setLoading false (setCart data st), [])
  | Rejected _ => (setLoading false st, [ToastError "Failed to load cart"])
  end.

Definition updateQuantity (productId : string) (qty : Q)
           (res : Outcome unit) (st : State) : State * list Effect :=
  match res with
  | Resolved _ => (st, [Call (PutCartUpdate productId qty); Call GetCart])
  | Rejected _ =>
      (st, [Call (PutCartUpdate productId qty);
            ToastError "Failed to update cart"])
  end.

Definition removeItem (productId : string) (res : Outcome unit) (st : State)
  : State * list Effect :=
  match res with
  | Resolved _ =>
      (st, [Call (DeleteCartRemove productId); Call GetCart;
            ToastSuccess "Item removed from cart"])
  | Rejected _ =>
      (st, [Call (DeleteCartRemove productId);
            ToastError "Failed to remove item"])
  end.

Definition applyDiscount (st : State) : State * list Effect :=
  if String.eqb (discountCode st) "SAVE10"
  then (setDiscount (subtotal st * 0.1) st, [ToastSuccess "Discount applied!"])
  else (st, [ToastError "Invalid discount code"]).

(** What is on screen. *)
Record Summary := {
  shown_subtotal : Q;
  shown_shipping : Q;                (* printed FREE when 0 *)
  shown_discount : option Q;         (* the row exists only when discount > 0 *)
  shown_total : Q;
  free_shipping_hint : option Q      (* 500 - subtotal, when shipping > 0 *)
}.

Inductive View :=
| Spinner
| EmptyCart
| Page (rows : list CartItem) (summary : Summary).

Definition render (st : State) : View :=
  if loading st then Spinner
  else match cart st with
       | [] => EmptyCart
       | _ :: _ =>
           Page (cart st)
                {| shown_subtotal := subtotal st;
                   shown_shipping := shipping st;
                   shown_discount :=
                     if gt (discount st) 0 then Some (discount st) else None;
                   shown_total := total st;
                   free_shipping_hint :=
                     if gt (shipping st) 0 then Some (500 - subtotal st)
                     else None |}
       end.

(** Events: settlements of the calls in flight and the controls of the
    page.  A row is addressed by its position in [cart.items]. *)
Inductive Event :=
| CartFetched (res : Outcome (list CartItem))
| ClickDecrease (row : nat) (res : Outcome unit)
| ClickIncrease (row : nat) (res : Outcome unit)
| ClickRemove (row : nat) (res : Outcome unit)
| TypeDiscountCode (v : string)
| ClickApply
| ClickCheckout.

Definition on_page (st : State) : bool :=
  match render st with
  | Page _ _ => true
  | _ => false
  end.

(** A control can be used when it is rendered and not [disabled]. *)
Definition step (st : State) (ev : Event) : option (State * list Effect) :=
  match ev with
  | CartFetched res => Some (fetchCart_settled res st)
  | ClickDecrease row res =>
      match nth_error (cart st) row with
      | Some item =>
          if on_page st && negb (Qle_bool (quantity item) 1)
          then Some (updateQuantity (product_id item) (quantity item - 1) res st)
          else None
      | None => None
      end
  | ClickIncrease row res =>
      match nth_error (cart st) row with
      | Some item =>
          if on_page st && negb (Qle_bool (stock (product item)) (quantity item))
          then Some (updateQuantity (product_id item) (quantity item + 1) res st)
          else None
      | None => None
      end
  | ClickRemove row res =>
      match nth_error (cart st) row with
      | Some item =>
          if on_page st then Some (removeItem (product_id item) res st)
          else None
      | None => None
      end
  | TypeDiscountCode v =>
      if on_page st then Some (setDiscountCode v st, []) else None
  | ClickApply =>
      if on_page st then Some (applyDiscount st) else None
  | ClickCheckout =>
      if on_page st then Some (st, [Navigate "/checkout"]) else None
  end.

(** The state after a sequence of events, when each was possible. *)
Fixpoint run (st : State) (evs : list Event) : option State :=
  match evs with
  | [] => Some st
  | ev :: evs' =>
      match step st ev with
      | Some (st', _) => run st' evs'
      | None => None
      end
  end.

Definition reachable (st : State) : Prop :=
  exists evs, run initial evs = Some st.

End Cart.

(** ** The checkout page *)

Module Checkout.

Definition blank_address : Address :=
  {| full_name := ""; phone := ""; address_line := ""; city := "";
     state := ""; pincode := ""; is_default := false |}.

Record State := {
  cart : list CartItem;                    (* cart.items *)
  addresses : list SavedAddress;
  selectedAddress : option SavedAddress;   (* null or undefined is [None] *)
  paymentMethod : string;
  loading : bool;
  showAddressDialog : bool;
  newAddress : Address
}.

Definition initial : State :=
  {| cart := []; addresses := []; selectedAddress := None;
     paymentMethod := "upi"; loading := false;
     showAddressDialog := false; newAddress := blank_address |}.

Definition setCart (data : list CartItem) (st : State) : State :=
  {| cart := data; addresses := addresses st;
     selectedAddress := selectedAddress st;
     paymentMethod := paymentMethod st; loading := loading st;
     showAddressDialog := showAddressDialog st;
     newAddress := newAddress st |}.

Definition setAddresses (l : list SavedAddress) (st : State) : State :=
  {| cart := cart st; addresses := l;
     selectedAddress := selectedAddress st;
     paymentMethod := paymentMethod st; loading := loading st;
     showAddressDialog := showAddressDialog st;
     newAddress := newAddress st |}.

Definition setSelectedAddress (a : option SavedAddress) (st : State) : State :=
  {| cart := cart st; addresses := addresses st;
     selectedAddress := a;
     paymentMethod := paymentMethod st; loading := loading st;
     showAddressDialog := showAddressDialog st;
     newAddress := newAddress st |}.

Definition setPaymentMethod (v : string) (st : State) : State :=
  {| cart := cart st; addresses := addresses st;
     selectedAddress := selectedAddress st;
     paymentMethod := v; loading := loading st;
     showAddressDialog := showAddressDialog st;
     newAddress := newAddress st |}.

Definition setLoading (b : bool) (st : State) : State :=
  {| cart := cart st; addresses := addresses st;
     selectedAddress := selectedAddress st;
     paymentMethod := paymentMethod st; loading := b;
     showAddressDialog := showAddressDialog st;
     newAddress := newAddress st |}.

Definition setShowAddressDialog (b : bool) (st : State) : State :=
  {| cart := cart st; addresses := addresses st;
     selectedAddress := selectedAddress st;
     paymentMethod := paymentMethod st; loading := loading st;
     showAddressDialog := b;
     newAddress := newAddress st |}.

Definition setNewAddress (a : Address) (st : State) : State :=
  {| cart := cart st; addresses := addresses st;
     selectedAddress := selectedAddress st;
     paymentMethod := paymentMethod st; loading := loading st;
     showAddressDialog := showAddressDialog st;
     newAddress := a |}.

(** Values derived in the component body on every render. *)
Definition subtotal (st : State) : Q :=
  fold_left (fun sum item => sum + price (product item) * quantity item)
            (cart st) 0.

Definition shipping (st : State) : Q :=
  if gt (subtotal st) 500 then 0 else 50.

Definition discount (st : State) : Q :=
  subtotal st * 0.1.

Definition total (st : State) : Q :=
  subtotal st + shipping st - discount st.

(** Handlers. *)
Definition fetchData : list Effect := [Call GetCart; Call GetProfile].

Definition mount : State * list Effect := (initial, fetchData).

(** Both responses of [Promise.all]; [profile.addresses] may be absent. *)
Definition fetchData_settled
           (res : Outcome (list CartItem * option (list SavedAddress)))
           (st : State) : State * list Effect :=
  match res with
  | Resolved (cartData, profileAddresses) =>
      let st1 := setCart cartData st in
      let st2 :=
        setAddresses (match profileAddresses with
                      | Some l => l
                      | None => []
                      end) st1 in
      match profileAddresses with
      | Some (first :: _) => (setSelectedAddress (Some first) st2, [])
      | _ => (st2, [])
      end
  | Rejected _ => (st, [])
  end.

Definition addAddress (res : Outcome unit) (st : State)
  : State * list Effect :=
  match res with
  | Resolved _ =>
      (setNewAddress blank_address (setShowAddressDialog false st),
       [Call (PostAddress (newAddress st)); ToastSuccess "Address added!"]
         ++ fetchData)
  | Rejected _ =>
      (st, [Call (PostAddress (newAddress st));
            ToastError "Failed to add address"])
  end.

Definition order_request (st : State) (a : SavedAddress) : OrderRequest :=
  {| items := map (fun item =>
                     {| line_product_id := product_id item;
                        line_quantity := quantity item |}) (cart st);
     shipping_address := a;
     payment_method := paymentMethod st;
     discount_code := "SAVE10" |}.

(** [create] answers the order creation with the new order's id,
    [payment] answers the payment call made for that id. *)
Definition placeOrder (create : Outcome string) (payment : Outcome unit)
           (st : State) : State * list Effect :=
  match selectedAddress st with
  | None => (st, [ToastError "Please select a delivery address"])
  | Some a =>
      (setLoading false (setLoading true st),
       Call (PostOrdersCreate (order_request st a)) ::
       match create with
       | Rejected detail =>
           [ToastError (detail_or detail "Failed to place order")]
       | Resolved order_id =>
           Call (PostPayment order_id) ::
           match payment with
           | Rejected detail =>
               [ToastError (detail_or detail "Failed to place order")]
           | Resolved _ =>
               [ToastSuccess "Order placed successfully!";
                Navigate ("/orders/" ++ order_id)]
           end
       end)
  end.

(** What is on screen. *)
Record Summary := {
  shown_subtotal : Q;
  shown_shipping : Q;               (* printed FREE when 0 *)
  shown_discount : Q;               (* the row labelled Discount (SAVE10) *)
  shown_total : Q;
  place_order_disabled : bool
}.

(** With no items the component asks the router for the cart route and
    renders nothing. *)
Inductive View :=
| Redirect (path : string)
| Page (rows : list CartItem) (summary : Summary).

Definition render (st : State) : View :=
  match cart st with
  | [] => Redirect "/cart"
  | _ :: _ =>
      Page (cart st)
           {| shown_subtotal := subtotal st;
              shown_shipping := shipping st;
              shown_discount := discount st;
              shown_total := total st;
              place_order_disabled :=
                loading st || match selectedAddress st with
                              | Some _ => false
                              | None => true
                              end |}
  end.

Inductive Event :=
| DataFetched (res : Outcome (list CartItem * option (list SavedAddress)))
| OpenAddressDialog (open : bool)
| EditNewAddress (a : Address)
| SubmitAddress (res : Outcome unit)
| ClickAddress (row : nat)
| PickAddressRadio (row : nat)
| PickPayment (v : string)
| ClickPlaceOrder (create : Outcome string) (payment : Outcome unit).

Definition on_page (st : State) : bool :=
  match render st with
  | Page _ _ => true
  | Redirect _ => false
  end.

Definition place_order_enabled (st : State) : bool :=
  match render st with
  | Page _ summary => negb (place_order_disabled summary)
  | Redirect _ => false
  end.

(** Every input of the address form is [required]. *)
Definition address_complete (a : Address) : bool :=
  negb (String.eqb (full_name a) "") && negb (String.eqb (phone a) "")
  && negb (String.eqb (address_line a) "") && negb (String.eqb (city a) "")
  && negb (String.eqb (state a) "") && negb (String.eqb (pincode a) "").

Definition payment_options : list string :=
  ["upi"; "card"; "netbanking"; "cod"]%string.

Definition step (st : State) (ev : Event) : option (State * list Effect) :=
  match ev with
  | DataFetched res => Some (fetchData_settled res st)
  | OpenAddressDialog open =>
      if on_page st then Some (setShowAddressDialog open st, []) else None
  | EditNewAddress a =>
      if on_page st && showAddressDialog st
      then Some (setNewAddress a st, []) else None
  | SubmitAddress res =>
      if on_page st && showAddressDialog st && address_complete (newAddress st)
      then Some (addAddress res st) else None
  | ClickAddress row =>
      match nth_error (addresses st) row with
      | Some addr =>
          if on_page st then Some (setSelectedAddress (Some addr) st, [])
          else None
      | None => None
      end
  | PickAddressRadio row =>
      (* onValueChange of the radio group: looks the address up by id *)
      match nth_error (addresses st) row with
      | Some addr =>
          if on_page st
          then Some (setSelectedAddress
                       (find (fun a => String.eqb (id a) (id addr))
                             (addresses st)) st, [])
          else None
      | None => None
      end
  | PickPayment v =>
      if on_page st && existsb (String.eqb v) payment_options
      then Some (setPaymentMethod v st, []) else None
  | ClickPlaceOrder create payment =>
      if place_order_enabled st then Some (placeOrder create payment st)
      else None
  end.

Fixpoint run (st : State) (evs : list Event) : option State :=
  match evs with
  | [] => Some st
  | ev :: evs' =>
      match step st ev with
      | Some (st', _) => run st' evs'
      | None => None
      end
  end.

Definition creates_order (e : Effect) : bool :=
  match e with
  | Call (PostOrdersCreate _) => true
  | _ => false
  end.

Definition is_call (e : Effect) : bool :=
  match e with
  | Call _ => true
  | _ => false
  end.

End Checkout.

(** ** The order tracking page *)

Module OrderTracking.

(** The order as [GET /orders/:id] returns it; [status] is whatever
    string the server stored. *)
Record Order := {
  order_id : string;
  status : string;
  tracking_id : option string;
  order_subtotal : Q;
  order_shipping : Q;
  order_discount : Q;
  order_total : Q
}.

Record State := {
  route_id : string;               (* the :id of the route *)
  order : option Order;
  loading : bool;
  returnReason : string;
  showReturnDialog : bool
}.

Definition initial (rid : string) : State :=
  {| route_id := rid; order := None; loading := true;
     returnReason := ""; showReturnDialog := false |}.

Definition setOrder (o : option Order) (st : State) : State :=
  {| route_id := route_id st; order := o; loading := loading st;
     returnReason := returnReason st;
     showReturnDialog := showReturnDialog st |}.

Definition setLoading (b : bool) (st : State) : State :=
  {| route_id := route_id st; order := order st; loading := b;
     returnReason := returnReason st;
     showReturnDialog := showReturnDialog st |}.

Definition setReturnReason (v : string) (st : State) : State :=
  {| route_id := route_id st; order := order st; loading := loading st;
     returnReason := v;
     showReturnDialog := showReturnDialog st |}.

Definition setShowReturnDialog (b : bool) (st : State) : State :=
  {| route_id := route_id st; order := order st; loading := loading st;
     returnReason := returnReason st;
     showReturnDialog := b |}.

Inductive Icon := Package | Check | Truck | Home.

Record StatusEntry := {
  key : string;
  label : string;
  icon : Icon
}.

Definition orderStatuses : list StatusEntry :=
  [ {| key := "ordered"; label := "Ordered"; icon := Package |};
    {| key := "processed"; label := "Processed"; icon := Check |};
    {| key := "shipped"; label := "Shipped"; icon := Truck |};
    {| key := "out_for_delivery"; label := "Out for Delivery"; icon := Truck |};
    {| key := "delivered"; label := "Delivered"; icon := Home |} ].

Definition getStatusIndex (status : string) : Z :=
  findIndex (fun s => String.eqb (key s) status) orderStatuses.

(** One circle of the timeline with the two flags computed for it and
    the style classes chosen from them. *)
Record Stage := {
  stage_key : string;
  stage_label : string;
  isCompleted : bool;
  isCurrent : bool;
  circle_class : string;
  ring_class : string;
  label_class : string
}.

Definition timeline (currentStatusIndex : Z) : list Stage :=
  mapi (fun s index =>
          let completed := (index <=? currentStatusIndex)%Z in
          let current := (index =? currentStatusIndex)%Z in
          {| stage_key := key s;
             stage_label := label s;
             isCompleted := completed;
             isCurrent := current;
             circle_class :=
               if completed
               then "bg-gradient-to-br from-blue-500 to-green-500 text-white"
               else "bg-gray-200 text-gray-500";
             ring_class := if current then "ring-4 ring-blue-300" else "";
             label_class :=
               if completed then "text-gray-900" else "text-gray-500" |})
       orderStatuses.

(** Width of the progress line, in percent. *)
Definition progress_width (currentStatusIndex : Z) : Q :=
  (inject_Z currentStatusIndex
     / inject_Z (Z.of_nat (List.length orderStatuses) - 1)) * 100.

Definition fetchOrder_settled (res : Outcome Order) (st : State)
  : State * list Effect :=
  match res with
  | Resolved data => (setLoading false (setOrder (Some data) st), [])
  | Rejected _ => (setLoading false st, [ToastError "Order not found"])
  end.

Definition mount (rid : string) : State * list Effect :=
  (initial rid, [Call (GetOrder rid)]).

Definition requestReturn (res : Outcome unit) (st : State)
  : State * list Effect :=
  match res with
  | Resolved _ =>
      (setShowReturnDialog false st,
       [Call (PostReturnsCreate (route_id st) (returnReason st));
        ToastSuccess "Return request submitted!";
        Call (GetOrder (route_id st))])
  | Rejected detail =>
      (st, [Call (PostReturnsCreate (route_id st) (returnReason st));
            ToastError (detail_or detail "Failed to request return")])
  end.

(** What is on screen. *)
Record Tracking := {
  stages : list Stage;
  width : Q;
  return_option : bool;           (* the Request Return button *)
  return_form : bool;             (* the dialog with the reason form *)
  return_notice : bool            (* the "Return request submitted" box *)
}.

Inductive View :=
| Spinner
| Nothing
| Page (o : Order) (t : Tracking).

Definition render (st : State) : View :=
  if loading st then Spinner
  else match order st with
       | None => Nothing
       | Some o =>
           let currentStatusIndex := getStatusIndex (status o) in
           let offered :=
             String.eqb (status o) "delivered"
             && negb (String.eqb (status o) "return_requested") in
           Page o
                {| stages := timeline currentStatusIndex;
                   width := progress_width currentStatusIndex;
                   return_option := offered;
                   return_form := offered && showReturnDialog st;
                   return_notice := String.eqb (status o) "return_requested" |}
       end.

Inductive Event :=
| OrderFetched (res : Outcome Order)
| OpenReturnDialog (open : bool)
| TypeReason (v : string)
| SubmitReturn (res : Outcome unit).

Definition return_option_shown (st : State) : bool :=
  match render st with
  | Page _ t => return_option t
  | _ => false
  end.

Definition return_form_shown (st : State) : bool :=
  match render st with
  | Page _ t => return_form t
  | _ => false
  end.

(** The reason box is [required]: the browser does not run the submit
    handler of the form while it is empty. *)
Definition step (st : State) (ev : Event) : option (State * list Effect) :=
  match ev with
  | OrderFetched res => Some (fetchOrder_settled res st)
  | OpenReturnDialog open =>
      if return_option_shown st then Some (setShowReturnDialog open st, [])
      else None
  | TypeReason v =>
      if return_form_shown st then Some (setReturnReason v st, []) else None
  | SubmitReturn res =>
      if return_form_shown st && negb (String.eqb (returnReason st) "")
      then Some (requestReturn res st) else None
  end.

Fixpoint run (st : State) (evs : list Event) : option State :=
  match evs with
  | [] => Some st
  | ev :: evs' =>
      match step st ev with
      | Some (st', _) => run st' evs'
      | None => None
      end
  end.

Definition requests_return (e : Effect) : bool :=
  match e with
  | Call (PostReturnsCreate _ _) => true
  | _ => false
  end.

End OrderTracking.

(** ** Sample data and sessions *)

Definition lamp (unit_price : Q) : Product :=
  {| name := "Desk lamp"; brand := "Lumen"; price := unit_price; stock := 10 |}.

Definition lamps (unit_price qty : Q) : CartItem :=
  {| product_id := "p-lamp"; product := lamp unit_price; quantity := qty |}.

Definition home_address : SavedAddress :=
  {| id := "a1";
     fields := {| full_name := "Asha Rao"; phone := "9000000000";
                  address_line := "12 Lake Road"; city := "Pune";
                  state := "MH"; pincode := "411001"; is_default := true |} |}.

(** Two lamps at 300 are loaded, SAVE10 is applied, then another string is
    typed into the code box. *)
Definition session_wrong_code_after_valid : list Cart.Event :=
  [ Cart.CartFetched (Resolved [lamps 300 2]);
    Cart.TypeDiscountCode "SAVE10";
    Cart.ClickApply;
    Cart.TypeDiscountCode "SAVE20" ].

Definition cart_with_wrong_code_typed : Cart.State :=
  {| Cart.cart := [lamps 300 2]; Cart.loading := false;
     Cart.discountCode := "SAVE20"; Cart.discount := (0 + 300 * 2) * 0.1 |}.

(** Two lamps at 300 are loaded, SAVE10 is applied, the quantity is raised
    and the cart comes back from the server with three lamps. *)
Definition session_quantity_after_code : list Cart.Event :=
  [ Cart.CartFetched (Resolved [lamps 300 2]);
    Cart.TypeDiscountCode "SAVE10";
    Cart.ClickApply;
    Cart.ClickIncrease 0 (Resolved tt);
    Cart.CartFetched (Resolved [lamps 300 3]) ].

Definition cart_after_quantity_change : Cart.State :=
  {| Cart.cart := [lamps 300 3]; Cart.loading := false;
     Cart.discountCode := "SAVE10"; Cart.discount := (0 + 300 * 2) * 0.1 |}.

(** Whether, along a session started in [st], Apply was ever pressed
    while the code box held the recognised code. *)
Fixpoint valid_code_applied (st : Cart.State) (evs : list Cart.Event) : bool :=
  match evs with
  | [] => false
  | ev :: evs' =>
      match Cart.step st ev with
      | Some (st', _) =>
          match ev with
          | Cart.ClickApply =>
              String.eqb (Cart.discountCode st) "SAVE10"
              || valid_code_applied st' evs'
          | _ => valid_code_applied st' evs'
          end
      | None => false
      end
  end.

Definition checkout_with (l : list CartItem) (a : option SavedAddress)
  : Checkout.State :=
  {| Checkout.cart := l; Checkout.addresses := [home_address];
     Checkout.selectedAddress := a; Checkout.paymentMethod := "upi";
     Checkout.loading := false; Checkout.showAddressDialog := false;
     Checkout.newAddress := Checkout.blank_address |}.

Definition tracking_of (st : string) (reason : string) (dialog : bool)
  : OrderTracking.State :=
  {| OrderTracking.route_id := "o-17";
     OrderTracking.order :=
       Some {| OrderTracking.order_id := "o-17";
               OrderTracking.status := st;
               OrderTracking.tracking_id := None;
               OrderTracking.order_subtotal := 600;
               OrderTracking.order_shipping := 0;
               OrderTracking.order_discount := 60;
               OrderTracking.order_total := 540 |};
     OrderTracking.loading := false;
     OrderTracking.returnReason := reason;
     OrderTracking.showReturnDialog := dialog |}.


(** ** Observations on sessions *)

(** The items of the latest cart the server delivered during a session,
    [seed] when none arrived. *)
Fixpoint last_cart_data (evs : list Cart.Event) (seed : list CartItem)
  : list CartItem :=
  match evs with
  | [] => seed
  | Cart.CartFetched (Resolved data) :: evs' => last_cart_data evs' data
  | _ :: evs' => last_cart_data evs' seed
  end.

(** Prices and quantities as a shop has them: none below zero. *)
Definition nonneg_lines (l : list CartItem) : Prop :=
  Forall (fun item => 0 <= price (product item) /\ 0 <= quantity item) l.

Definition is_toast (e : Effect) : bool :=
  match e with
  | ToastSuccess _ | ToastError _ => true
  | _ => false
  end.

Definition is_navigation (e : Effect) : bool :=
  match e with
  | Navigate _ => true
  | _ => false
  end.

Definition two_address_book : list SavedAddress :=
  [ home_address;
    {| id := "a2";
       fields := {| full_name := "Asha Rao"; phone := "9000000000";
                    address_line := "4 Mill Lane"; city := "Nashik";
                    state := "MH"; pincode := "422001";
                    is_default := false |} |} ].

(** ** Further pages

    The pages below issue calls of their own; [Fx] is [Effect] over the
    calls of one page. *)

Inductive Fx (R : Type) :=
| Toast_success (msg : string)
| Toast_error (msg : string)
| Go (path : string)
| Send (r : R).
Arguments Toast_success {R} msg.
Arguments Toast_error {R} msg.
Arguments Go {R} path.
Arguments Send {R} r.

Definition sends {R : Type} (e : Fx R) : bool :=
  match e with
  | Send _ => true
  | _ => false
  end.

(** [Math.round]: the nearest integer, halves going up. *)
Definition Math_round (x : Q) : Z := Qfloor (x + (1 # 2)).

(** [Math.floor] *)
Definition Math_floor (x : Q) : Z := Qfloor x.

(** [Math.max] and [Math.min] of two numbers. *)
Definition Math_max (x y : Q) : Q := Qmax x y.
Definition Math_min (x y : Q) : Q := Qmin x y.

(** Truth value of a number in a condition: everything but zero. *)
Definition truthy_number (x : Q) : bool := negb (Qeq_bool x 0).

(** Truth value of a string in a condition: everything but the empty
    string. *)
Definition truthy_text (s : string) : bool := negb (String.eqb s "").

(** The signed-in user as [/auth/profile] describes them. *)
Module Account.

Record User := {
  name : string;
  email : string;
  phone : string;
  is_admin : bool;
  addresses : option (list SavedAddress)
}.

End Account.

(** *** Products as the catalogue serves them *)

Module Catalog.

Record Product := {
  id : string;
  name : string;
  description : string;
  price : Q;
  original_price : option Q;     (* null when the product has none *)
  category : string;
  brand : string;
  images : list string;
  stock : Q;
  rating : Q;
  reviews_count : Q
}.

(** What [{product.original_price && (...)}] puts after the price: the
    struck-out original price with the percentage saved; nothing when
    the field is null; and the number 0 itself when the field is 0,
    since a falsy number is rendered as text. *)
Inductive PriceCut :=
| NoCut
| StrayZero
| Cut (original : Q) (percent_off : Z).

Definition price_cut (product : Product) : PriceCut :=
  match original_price product with
  | None => NoCut
  | Some original =>
      if truthy_number original
      then Cut original
               (Math_round (((original - price product) / original) * 100))
      else StrayZero
  end.

(** The five stars next to a rating: star [i] (from 0) is filled when
    [i < Math.floor(rating)]. *)
Definition rating_stars (r : Q) : list bool :=
  map (fun i => (i <? Math_floor r)%Z) [0; 1; 2; 3; 4]%Z.

End Catalog.

(** *** The product page *)

Module ProductDetail.

Record Props := {
  user : option Account.User;
  id : string                      (* the :id of the route *)
}.

Record Review := {
  review_id : string;
  user_name : string;
  review_rating : Q;
  review_comment : string
}.

(** The review being written. *)
Record Draft := {
  rating : Z;
  comment : string
}.

Record State := {
  product : option Catalog.Product;
  reviews : list Review;
  quantity : Q;
  loading : bool;
  review : Draft
}.

Inductive Request :=
| GetProduct (pid : string)
| GetReviews (pid : string)
| PostCartAdd (pid : string) (qty : Q)
| PostWishlistAdd (pid : string)
| PostReview (pid : string) (body : Draft).

Definition fresh_draft : Draft := {| rating := 5; comment := "" |}.

Definition initial : State :=
  {| product := None; reviews := []; quantity := 1; loading := true;
     review := fresh_draft |}.

Definition setProduct (p : option Catalog.Product) (st : State) : State :=
  {| product := p; reviews := reviews st; quantity := quantity st;
     loading := loading st; review := review st |}.

Definition setReviews (l : list Review) (st : State) : State :=
  {| product := product st; reviews := l; quantity := quantity st;
     loading := loading st; review := review st |}.

Definition setQuantity (q : Q) (st : State) : State :=
  {| product := product st; reviews := reviews st; quantity := q;
     loading := loading st; review := review st |}.

Definition setLoading (b : bool) (st : State) : State :=
  {| product := product st; reviews := reviews st; quantity := quantity st;
     loading := b; review := review st |}.

Definition setReview (d : Draft) (st : State) : State :=
  {| product := product st; reviews := reviews st; quantity := quantity st;
     loading := loading st; review := d |}.

Definition mount (props : Props) : State * list (Fx Request) :=
  (initial, [Send (GetProduct (id props)); Send (GetReviews (id props))]).

Definition fetchProduct_settled (res : Outcome Catalog.Product) (st : State)
  : State * list (Fx Request) :=
  match res with
  | Resolved data => (setLoading false (setProduct (Some data) st), [])
  | Rejected _ =>
      (setLoading false st, [Toast_error "Product not found"; Go "/products"])
  end.

Definition fetchReviews_settled (res : Outcome (list Review)) (st : State)
  : State * list (Fx Request) :=
  match res with
  | Resolved data => (setReviews data st, [])
  | Rejected _ => (st, [])
  end.

Definition addToCart (props : Props) (res : Outcome unit) (st : State)
  : State * list (Fx Request) :=
  match user props with
  | None =>
      (st, [Toast_error "Please login to add items to cart"; Go "/auth"])
  | Some _ =>
      match res with
      | Resolved _ =>
          (st, [Send (PostCartAdd (id props) (quantity st));
                Toast_success "Added to cart!"])
      | Rejected detail =>
          (st, [Send (PostCartAdd (id props) (quantity st));
                Toast_error (detail_or detail "Failed to add to cart")])
      end
  end.

Definition addToWishlist (props : Props) (res : Outcome unit) (st : State)
  : State * list (Fx Request) :=
  match user props with
  | None =>
      (st, [Toast_error "Please login to add items to wishlist"; Go "/auth"])
  | Some _ =>
      match res with
      | Resolved _ =>
          (st, [Send (PostWishlistAdd (id props));
                Toast_success "Added to wishlist!"])
      | Rejected _ =>
          (st, [Send (PostWishlistAdd (id props));
                Toast_error "Failed to add to wishlist"])
      end
  end.

Definition submitReview (props : Props) (res : Outcome unit) (st : State)
  : State * list (Fx Request) :=
  match user props with
  | None => (st, [Toast_error "Please login to submit a review"])
  | Some _ =>
      match res with
      | Resolved _ =>
          (setReview fresh_draft st,
           [Send (PostReview (id props) (review st));
            Toast_success "Review submitted!";
            Send (GetReviews (id props));
            Send (GetProduct (id props))])
      | Rejected _ =>
          (st, [Send (PostReview (id props) (review st));
                Toast_error "Failed to submit review"])
      end
  end.

(** The two quantity buttons. *)
Definition decrease (st : State) : State :=
  setQuantity (Math_max 1 (quantity st - 1)) st.

Definition increase (p : Catalog.Product) (st : State) : State :=
  setQuantity (Math_min (Catalog.stock p) (quantity st + 1)) st.

(** The five stars of the review form: star [n] is filled when
    [n <= review.rating]. *)
Definition draft_stars (d : Draft) : list bool :=
  map (fun star => (star <=? rating d)%Z) [1; 2; 3; 4; 5]%Z.

(** What is on screen. *)
Record Detail := {
  stars : list bool;
  cut : Catalog.PriceCut;
  buy_controls : bool;             (* otherwise the Out of Stock box *)
  shown_quantity : Q;
  review_form : option (list bool);
  shown_reviews : list Review
}.

Inductive View :=
| Spinner
| Nothing
| Page (p : Catalog.Product) (d : Detail).

Definition render (props : Props) (st : State) : View :=
  if loading st then Spinner
  else match product st with
       | None => Nothing
       | Some p =>
           Page p
                {| stars := Catalog.rating_stars (Catalog.rating p);
                   cut := Catalog.price_cut p;
                   buy_controls := gt (Catalog.stock p) 0;
                   shown_quantity := quantity st;
                   review_form :=
                     match user props with
                     | Some _ => Some (draft_stars (review st))
                     | None => None
                     end;
                   shown_reviews := reviews st |}
       end.

Inductive Event :=
| ProductFetched (res : Outcome Catalog.Product)
| ReviewsFetched (res : Outcome (list Review))
| ClickDecrease
| ClickIncrease
| ClickAddToCart (res : Outcome unit)
| ClickWishlist (res : Outcome unit)
| ClickStar (star : Z)
| TypeComment (v : string)
| SubmitReview (res : Outcome unit).

(** The product on screen when the buying controls are. *)
Definition buyable (props : Props) (st : State) : option Catalog.Product :=
  match render props st with
  | Page p d => if buy_controls d then Some p else None
  | _ => None
  end.

Definition review_form_shown (props : Props) (st : State) : bool :=
  match render props st with
  | Page _ d => match review_form d with
                | Some _ => true
                | None => false
                end
  | _ => false
  end.

(** The comment box is [required]. *)
Definition step (props : Props) (st : State) (ev : Event)
  : option (State * list (Fx Request)) :=
  match ev with
  | ProductFetched res => Some (fetchProduct_settled res st)
  | ReviewsFetched res => Some (fetchReviews_settled res st)
  | ClickDecrease =>
      match buyable props st with
      | Some _ => Some (decrease st, [])
      | None => None
      end
  | ClickIncrease =>
      match buyable props st with
      | Some p => Some (increase p st, [])
      | None => None
      end
  | ClickAddToCart res =>
      match buyable props st with
      | Some _ => Some (addToCart props res st)
      | None => None
      end
  | ClickWishlist res =>
      match buyable props st with
      | Some _ => Some (addToWishlist props res st)
      | None => None
      end
  | ClickStar star =>
      if review_form_shown props st
         && existsb (Z.eqb star) [1; 2; 3; 4; 5]%Z
      then Some (setReview {| rating := star; comment := comment (review st) |}
                           st, [])
      else None
  | TypeComment v =>
      if review_form_shown props st
      then Some (setReview {| rating := rating (review st); comment := v |}
                           st, [])
      else None
  | SubmitReview res =>
      if review_form_shown props st && truthy_text (comment (review st))
      then Some (submitReview props res st)
      else None
  end.

Fixpoint run (props : Props) (st : State) (evs : list Event) : option State :=
  match evs with
  | [] => Some st
  | ev :: evs' =>
      match step props st ev with
      | Some (st', _) => run props st' evs'
      | None => None
      end
  end.

(** Every product delivered during the session has stock [s]. *)
Definition stock_stays (s : Q) (evs : list Event) : Prop :=
  Forall (fun ev => match ev with
                    | ProductFetched (Resolved p) => Catalog.stock p == s
                    | _ => True
                    end) evs.

End ProductDetail.

(** What the quantity selector keeps true for a product of stock [s]. *)
Definition quantity_fits (s : Q) (st : ProductDetail.State) : Prop :=
  1 <= ProductDetail.quantity st /\ ProductDetail.quantity st <= s
  /\ forall p, ProductDetail.product st = Some p -> Catalog.stock p == s.

Definition bulb : Catalog.Product :=
  {| Catalog.id := "p-bulb"; Catalog.name := "Bulb";
     Catalog.description := "Warm white"; Catalog.price := 80;
     Catalog.original_price := Some 100; Catalog.category := "Lighting";
     Catalog.brand := "Lumen"; Catalog.images := ["bulb.png"%string];
     Catalog.stock := 3; Catalog.rating := 4.5; Catalog.reviews_count := 12 |}.

Definition shopper : Account.User :=
  {| Account.name := "Asha Rao"; Account.email := "asha@example.com";
     Account.phone := "9000000000"; Account.is_admin := false;
     Account.addresses := Some [home_address] |}.

Definition bulb_page (u : option Account.User) : ProductDetail.Props :=
  {| ProductDetail.user := u; ProductDetail.id := "p-bulb" |}.

(** *** The product list *)

Module ProductList.

Record Category := {
  category_id : string;
  category_name : string
}.

Record Filters := {
  category : string;
  brand : string;
  min_price : Q;
  max_price : Q;
  sort : string;
  search : string
}.

(** A value handed to [URLSearchParams.append]. *)
Inductive ParamValue :=
| Text (s : string)
| Number (q : Q).

Definition Query := list (string * ParamValue).

Inductive Request :=
| GetCategories
| GetProducts (query : Query).

Record State := {
  products : list Catalog.Product;
  categories : list Category;
  loading : bool;
  filters : Filters
}.

(** The query parameters of the page's own address, as
    [searchParams.get] reads them. *)
Record SearchParams := {
  param_category : option string;
  param_brand : option string;
  param_sort : option string;
  param_search : option string
}.

(** [value || ''] *)
Definition or_empty (v : option string) : string :=
  match v with
  | Some s => s
  | None => ""
  end.

Definition initial (searchParams : SearchParams) : State :=
  {| products := []; categories := []; loading := true;
     filters := {| category := or_empty (param_category searchParams);
                   brand := or_empty (param_brand searchParams);
                   min_price := 0;
                   max_price := 10000;
                   sort := or_empty (param_sort searchParams);
                   search := or_empty (param_search searchParams) |} |}.

Definition setProducts (l : list Catalog.Product) (st : State) : State :=
  {| products := l; categories := categories st; loading := loading st;
     filters := filters st |}.

Definition setCategories (l : list Category) (st : State) : State :=
  {| products := products st; categories := l; loading := loading st;
     filters := filters st |}.

Definition setLoading (b : bool) (st : State) : State :=
  {| products := products st; categories := categories st; loading := b;
     filters := filters st |}.

Definition setFilters (f : Filters) (st : State) : State :=
  {| products := products st; categories := categories st;
     loading := loading st; filters := f |}.

(** The parameters [fetchProducts] appends, in its order: a filter takes
    part only when its value is truthy. *)
Definition query_of (f : Filters) : Query :=
  (if truthy_text (category f) then [("category"%string, Text (category f))]
   else [])
  ++ (if truthy_text (brand f) then [("brand"%string, Text (brand f))] else [])
  ++ (if truthy_number (min_price f)
      then [("min_price"%string, Number (min_price f))] else [])
  ++ (if truthy_number (max_price f)
      then [("max_price"%string, Number (max_price f))] else [])
  ++ (if truthy_text (sort f) then [("sort"%string, Text (sort f))] else [])
  ++ (if truthy_text (search f) then [("search"%string, Text (search f))]
      else []).

(** The effect hook on [filters]: each new filter object starts a fetch,
    which first turns the spinner on. *)
Definition fetchProducts (st : State) : State * list (Fx Request) :=
  (setLoading true st, [Send (GetProducts (query_of (filters st)))]).

Definition mount (searchParams : SearchParams) : State * list (Fx Request) :=
  let (st, fx) := fetchProducts (initial searchParams) in
  (st, Send GetCategories :: fx).

Definition fetchCategories_settled (res : Outcome (list Category)) (st : State)
  : State * list (Fx Request) :=
  match res with
  | Resolved data => (setCategories data st, [])
  | Rejected _ => (st, [])
  end.

Definition fetchProducts_settled (res : Outcome (list Catalog.Product))
           (st : State) : State * list (Fx Request) :=
  match res with
  | Resolved data => (setLoading false (setProducts data st), [])
  | Rejected _ => (setLoading false st, [Toast_error "Failed to load products"])
  end.

(** The text-valued filters [updateFilter] is called for. *)
Inductive FilterKey := KCategory | KBrand | KSort | KSearch.

Definition updateFilter (key : FilterKey) (value : string) (st : State)
  : State * list (Fx Request) :=
  let f := filters st in
  fetchProducts
    (setFilters
       match key with
       | KCategory =>
           {| category := value; brand := brand f; min_price := min_price f;
              max_price := max_price f; sort := sort f; search := search f |}
       | KBrand =>
           {| category := category f; brand := value; min_price := min_price f;
              max_price := max_price f; sort := sort f; search := search f |}
       | KSort =>
           {| category := category f; brand := brand f; min_price := min_price f;
              max_price := max_price f; sort := value; search := search f |}
       | KSearch =>
           {| category := category f; brand := brand f; min_price := min_price f;
              max_price := max_price f; sort := sort f; search := value |}
       end st).

Definition slidePrice (lo hi : Q) (st : State) : State * list (Fx Request) :=
  let f := filters st in
  fetchProducts
    (setFilters {| category := category f; brand := brand f; min_price := lo;
                   max_price := hi; sort := sort f; search := search f |} st).

Definition cleared : Filters :=
  {| category := ""; brand := ""; min_price := 0; max_price := 10000;
     sort := ""; search := "" |}.

(** Besides resetting the filters, [setSearchParams({})] drops the query
    from the page's address, which is the product list route. *)
Definition clearFilters (st : State) : State * list (Fx Request) :=
  let (st', fx) := fetchProducts (setFilters cleared st) in
  (st', Go "/products" :: fx).

(** One card of the grid. *)
Record Card := {
  card_product : Catalog.Product;
  card_cut : Catalog.PriceCut;
  only_left : option Q;            (* "Only n left!" *)
  out_of_stock : bool              (* "Out of Stock" *)
}.

Definition card (product : Catalog.Product) : Card :=
  {| card_product := product;
     card_cut := Catalog.price_cut product;
     only_left :=
       if negb (Qle_bool 10 (Catalog.stock product))
          && gt (Catalog.stock product) 0
       then Some (Catalog.stock product) else None;
     out_of_stock := Qeq_bool (Catalog.stock product) 0 |}.

Inductive Grid :=
| Spinner
| NoProducts
| Cards (l : list Card).

Definition render (st : State) : Grid :=
  if loading st then Spinner
  else match products st with
       | [] => NoProducts
       | _ :: _ => Cards (map card (products st))
       end.

Definition sort_options : list string :=
  ["default"; "price_low"; "price_high"; "rating"]%string.

Definition category_options (st : State) : list string :=
  "all"%string :: map category_name (categories st).

(** The price slider runs from 0 to 10000 in steps of 100. *)
Definition on_slider (q : Q) : bool :=
  Qle_bool 0 q && Qle_bool q 10000
  && Qeq_bool (inject_Z (Qfloor (q / 100)) * 100) q.

Inductive Event :=
| CategoriesFetched (res : Outcome (list Category))
| ProductsFetched (res : Outcome (list Catalog.Product))
| PickCategory (value : string)
| PickSort (value : string)
| SlidePrice (lo hi : Q)
| ClickClear.

Definition step (st : State) (ev : Event)
  : option (State * list (Fx Request)) :=
  match ev with
  | CategoriesFetched res => Some (fetchCategories_settled res st)
  | ProductsFetched res => Some (fetchProducts_settled res st)
  | PickCategory value =>
      if existsb (String.eqb value) (category_options st)
      then Some (updateFilter KCategory
                              (if String.eqb value "all" then "" else value) st)
      else None
  | PickSort value =>
      if existsb (String.eqb value) sort_options
      then Some (updateFilter KSort
                              (if String.eqb value "default" then "" else value)
                              st)
      else None
  | SlidePrice lo hi =>
      if on_slider lo && on_slider hi && Qle_bool lo hi
      then Some (slidePrice lo hi st) else None
  | ClickClear => Some (clearFilters st)
  end.

Fixpoint run (st : State) (evs : list Event) : option State :=
  match evs with
  | [] => Some st
  | ev :: evs' =>
      match step st ev with
      | Some (st', _) => run st' evs'
      | None => None
      end
  end.

(** [URLSearchParams.get]: the first value stored under a name. *)
Fixpoint get (key : string) (query : Query) : option ParamValue :=
  match query with
  | [] => None
  | (k, v) :: query' => if String.eqb k key then Some v else get key query'
  end.

End ProductList.

(** *** The navigation bar *)

Module Navbar.

(** The cells of the bar; the search box is kept as a cell only, its
    submit handler is not part of what follows. *)
Record State := {
  cartCount : Q;
  searchQuery : string
}.

Definition initial : State := {| cartCount := 0; searchQuery := "" |}.

(** [items?.reduce((sum, item) => sum + item.quantity, 0) || 0], for a
    cart whose [items] may be missing. *)
Definition count_of (cart_items : option (list CartItem)) : Q :=
  match cart_items with
  | None => 0
  | Some l =>
      let count := fold_left (fun sum item => sum + quantity item) l 0 in
      if truthy_number count then count else 0
  end.

Definition fetchCartCount_settled (res : Outcome (option (list CartItem)))
           (st : State) : State :=
  match res with
  | Resolved cart_items =>
      {| cartCount := count_of cart_items; searchQuery := searchQuery st |}
  | Rejected _ => st
  end.

(** The effect hook on [user]: the cart is asked for when there is one. *)
Definition on_user (user : option Account.User) : list (Fx Request) :=
  match user with
  | Some _ => [Send GetCart]
  | None => []
  end.

(** The number in the red badge on the cart icon, when there is one. *)
Definition badge (user : option Account.User) (st : State) : option Q :=
  match user with
  | Some _ => if gt (cartCount st) 0 then Some (cartCount st) else None
  | None => None
  end.

End Navbar.

(** The price bounds of the product list lie on its slider. *)
Definition price_range_kept (st : ProductList.State) : Prop :=
  0 <= ProductList.min_price (ProductList.filters st)
  /\ ProductList.min_price (ProductList.filters st)
     <= ProductList.max_price (ProductList.filters st)
  /\ ProductList.max_price (ProductList.filters st) <= 10000.

(** The number of pieces in a cart: its quantities added up. *)
Fixpoint pieces (l : list CartItem) : Q :=
  match l with
  | [] => 0
  | item :: l' => quantity item + pieces l'
  end.

Definition everything : ProductList.SearchParams :=
  {| ProductList.param_category := None; ProductList.param_brand := None;
     ProductList.param_sort := None; ProductList.param_search := None |}.

(** *** The admin dashboard *)

Module AdminDashboard.

Record ProductForm := {
  name : string;
  description : string;
  price : Q;
  original_price : Q;
  category : string;
  brand : string;
  images : list string;
  stock : Q
}.

Record OrderRow := {
  order_id : string;
  status : string;
  total : Q
}.

Record Analytics := {
  total_revenue : Q;
  total_orders : Q;
  total_products : Q;
  total_users : Q
}.

Record State := {
  analytics : option Analytics;
  products : list Catalog.Product;
  orders : list OrderRow;
  showProductDialog : bool;
  editingProduct : option string;       (* the id being edited, or null *)
  productForm : ProductForm
}.

Inductive Request :=
| GetAnalytics
| GetProducts
| GetOrders
| PutProduct (pid : string) (body : ProductForm)
| PostProduct (body : ProductForm)
| DeleteProduct (pid : string)
| PutOrderStatus (oid : string) (new_status : string).

Definition blank_form : ProductForm :=
  {| name := ""; description := ""; price := 0; original_price := 0;
     category := ""; brand := ""; images := [""%string]; stock := 0 |}.

Definition initial : State :=
  {| analytics := None; products := []; orders := [];
     showProductDialog := false; editingProduct := None;
     productForm := blank_form |}.

Definition mount : State * list (Fx Request) :=
  (initial, [Send GetAnalytics; Send GetProducts; Send GetOrders]).

Definition setAnalytics (a : option Analytics) (st : State) : State :=
  {| analytics := a; products := products st; orders := orders st;
     showProductDialog := showProductDialog st;
     editingProduct := editingProduct st; productForm := productForm st |}.

Definition setProducts (l : list Catalog.Product) (st : State) : State :=
  {| analytics := analytics st; products := l; orders := orders st;
     showProductDialog := showProductDialog st;
     editingProduct := editingProduct st; productForm := productForm st |}.

Definition setOrders (l : list OrderRow) (st : State) : State :=
  {| analytics := analytics st; products := products st; orders := l;
     showProductDialog := showProductDialog st;
     editingProduct := editingProduct st; productForm := productForm st |}.

Definition setShowProductDialog (b : bool) (st : State) : State :=
  {| analytics := analytics st; products := products st; orders := orders st;
     showProductDialog := b;
     editingProduct := editingProduct st; productForm := productForm st |}.

Definition setEditingProduct (e : option string) (st : State) : State :=
  {| analytics := analytics st; products := products st; orders := orders st;
     showProductDialog := showProductDialog st;
     editingProduct := e; productForm := productForm st |}.

Definition setProductForm (f : ProductForm) (st : State) : State :=
  {| analytics := analytics st; products := products st; orders := orders st;
     showProductDialog := showProductDialog st;
     editingProduct := editingProduct st; productForm := f |}.

Definition fetchAnalytics_settled (res : Outcome Analytics) (st : State)
  : State * list (Fx Request) :=
  match res with
  | Resolved data => (setAnalytics (Some data) st, [])
  | Rejected _ => (st, [])
  end.

Definition fetchProducts_settled (res : Outcome (list Catalog.Product))
           (st : State) : State * list (Fx Request) :=
  match res with
  | Resolved data => (setProducts data st, [])
  | Rejected _ => (st, [])
  end.

Definition fetchOrders_settled (res : Outcome (list OrderRow)) (st : State)
  : State * list (Fx Request) :=
  match res with
  | Resolved data => (setOrders data st, [])
  | Rejected _ => (st, [])
  end.

Definition resetProductForm (st : State) : State :=
  setProductForm blank_form st.

(** [if (editingProduct)]: an id that is neither null nor empty. *)
Definition editing (st : State) : option string :=
  match editingProduct st with
  | Some pid => if truthy_text pid then Some pid else None
  | None => None
  end.

Definition saveProduct (res : Outcome unit) (st : State)
  : State * list (Fx Request) :=
  let call :=
    match editing st with
    | Some pid => PutProduct pid (productForm st)
    | None => PostProduct (productForm st)
    end in
  match res with
  | Resolved _ =>
      (resetProductForm (setEditingProduct None (setShowProductDialog false st)),
       [Send call;
        Toast_success match editing st with
                      | Some _ => "Product updated!"
                      | None => "Product created!"
                      end;
        Send GetProducts])
  | Rejected _ => (st, [Send call; Toast_error "Failed to save product"])
  end.

(** [confirmed] is the answer to [window.confirm]. *)
Definition deleteProduct (pid : string) (confirmed : bool) (res : Outcome unit)
           (st : State) : State * list (Fx Request) :=
  if negb confirmed then (st, [])
  else match res with
       | Resolved _ =>
           (st, [Send (DeleteProduct pid); Toast_success "Product deleted!";
                 Send GetProducts])
       | Rejected _ =>
           (st, [Send (DeleteProduct pid);
                 Toast_error "Failed to delete product"])
       end.

Definition updateOrderStatus (orderId new_status : string) (res : Outcome unit)
           (st : State) : State * list (Fx Request) :=
  match res with
  | Resolved _ =>
      (st, [Send (PutOrderStatus orderId new_status);
            Toast_success "Order status updated!"; Send GetOrders])
  | Rejected _ =>
      (st, [Send (PutOrderStatus orderId new_status);
            Toast_error "Failed to update order status"])
  end.

(** [product.original_price || 0] *)
Definition or_zero (v : option Q) : Q :=
  match v with
  | Some q => if truthy_number q then q else 0
  | None => 0
  end.

Definition openEditDialog (product : Catalog.Product) (st : State) : State :=
  setShowProductDialog
    true
    (setProductForm
       {| name := Catalog.name product;
          description := Catalog.description product;
          price := Catalog.price product;
          original_price := or_zero (Catalog.original_price product);
          category := Catalog.category product;
          brand := Catalog.brand product;
          images := Catalog.images product;
          stock := Catalog.stock product |}
       (setEditingProduct (Some (Catalog.id product)) st)).

(** [onOpenChange] of the product dialog. *)
Definition dialogOpenChange (open : bool) (st : State) : State :=
  let st1 := setShowProductDialog open st in
  if negb open then resetProductForm (setEditingProduct None st1) else st1.

(** The inputs of the product form; a number box delivers the number
    read from it. *)
Inductive Field :=
| FName (v : string)
| FDescription (v : string)
| FPrice (v : Q)
| FOriginalPrice (v : Q)
| FCategory (v : string)
| FBrand (v : string)
| FStock (v : Q)
| FImage (v : string).

Definition editField (fld : Field) (st : State) : State :=
  let f := productForm st in
  setProductForm
    match fld with
    | FName v =>
        {| name := v; description := description f; price := price f;
           original_price := original_price f; category := category f;
           brand := brand f; images := images f; stock := stock f |}
    | FDescription v =>
        {| name := name f; description := v; price := price f;
           original_price := original_price f; category := category f;
           brand := brand f; images := images f; stock := stock f |}
    | FPrice v =>
        {| name := name f; description := description f; price := v;
           original_price := original_price f; category := category f;
           brand := brand f; images := images f; stock := stock f |}
    | FOriginalPrice v =>
        {| name := name f; description := description f; price := price f;
           original_price := v; category := category f;
           brand := brand f; images := images f; stock := stock f |}
    | FCategory v =>
        {| name := name f; description := description f; price := price f;
           original_price := original_price f; category := v;
           brand := brand f; images := images f; stock := stock f |}
    | FBrand v =>
        {| name := name f; description := description f; price := price f;
           original_price := original_price f; category := category f;
           brand := v; images := images f; stock := stock f |}
    | FStock v =>
        {| name := name f; description := description f; price := price f;
           original_price := original_price f; category := category f;
           brand := brand f; images := images f; stock := v |}
    | FImage v =>
        {| name := name f; description := description f; price := price f;
           original_price := original_price f; category := category f;
           brand := brand f; images := [v]; stock := stock f |}
    end st.

(** The text inputs marked [required]; the image box shows [images[0]]. *)
Definition form_complete (f : ProductForm) : bool :=
  truthy_text (name f) && truthy_text (description f)
  && truthy_text (category f) && truthy_text (brand f)
  && truthy_text (nth 0 (images f) ""%string).

(** The entries of the status menu of an order row. *)
Definition status_options : list string :=
  ["ordered"; "processed"; "shipped"; "out_for_delivery"; "delivered";
   "cancelled"]%string.

Inductive Event :=
| AnalyticsFetched (res : Outcome Analytics)
| ProductsFetched (res : Outcome (list Catalog.Product))
| OrdersFetched (res : Outcome (list OrderRow))
| DialogOpenChange (open : bool)
| Edit (fld : Field)
| SubmitProduct (res : Outcome unit)
| ClickEdit (row : nat)
| ClickDelete (row : nat) (confirmed : bool) (res : Outcome unit)
| PickStatus (row : nat) (new_status : string) (res : Outcome unit).

(** The status menu reports a choice only when it differs from the value
    it shows. *)
Definition step (st : State) (ev : Event)
  : option (State * list (Fx Request)) :=
  match ev with
  | AnalyticsFetched res => Some (fetchAnalytics_settled res st)
  | ProductsFetched res => Some (fetchProducts_settled res st)
  | OrdersFetched res => Some (fetchOrders_settled res st)
  | DialogOpenChange open => Some (dialogOpenChange open st, [])
  | Edit fld =>
      if showProductDialog st then Some (editField fld st, []) else None
  | SubmitProduct res =>
      if showProductDialog st && form_complete (productForm st)
      then Some (saveProduct res st) else None
  | ClickEdit row =>
      match nth_error (products st) row with
      | Some product => Some (openEditDialog product st, [])
      | None => None
      end
  | ClickDelete row confirmed res =>
      match nth_error (products st) row with
      | Some product =>
          Some (deleteProduct (Catalog.id product) confirmed res st)
      | None => None
      end
  | PickStatus row new_status res =>
      match nth_error (orders st) row with
      | Some o =>
          if existsb (String.eqb new_status) status_options
             && negb (String.eqb new_status (status o))
          then Some (updateOrderStatus (order_id o) new_status res st)
          else None
      | None => None
      end
  end.

Fixpoint run (st : State) (evs : list Event) : option State :=
  match evs with
  | [] => Some st
  | ev :: evs' =>
      match step st ev with
      | Some (st', _) => run st' evs'
      | None => None
      end
  end.

Definition is_edit (ev : Event) : bool :=
  match ev with
  | Edit _ => true
  | _ => false
  end.

End AdminDashboard.

(** *** The application shell and the sign-in page *)

Module App.

(** [token] is the entry of the browser's local storage. *)
Record State := {
  user : option Account.User;
  loading : bool;
  token : option string
}.

Record Credentials := {
  login_email : string;
  login_password : string
}.

Record Registration := {
  register_email : string;
  register_password : string;
  register_name : string;
  register_phone : string
}.

Inductive Request :=
| GetProfile
| PostLogin (body : Credentials)
| PostRegister (body : Registration).


(** First render and its effect, given what local storage holds. *)
Definition mount (stored : option string) : State * list (Fx Request) :=
  match stored with
  | Some t =>
      if truthy_text t
      then ({| user := None; loading := true; token := stored |},
            [Send GetProfile])
      else ({| user := None; loading := false; token := stored |}, [])
  | None => ({| user := None; loading := false; token := None |}, [])
  end.

Definition fetchProfile_settled (res : Outcome Account.User) (st : State)
  : State * list (Fx Request) :=
  match res with
  | Resolved data =>
      ({| user := Some data; loading := false; token := token st |}, [])
  | Rejected _ =>
      ({| user := user st; loading := false; token := None |}, [])
  end.

Definition logout (st : State) : State :=
  {| user := None; loading := loading st; token := None |}.

(** The sign-in page answers with the token and the user. *)
Definition handleLogin (body : Credentials)
           (res : Outcome (string * Account.User)) (st : State)
  : State * list (Fx Request) :=
  match res with
  | Resolved (t, u) =>
      ({| user := Some u; loading := loading st; token := Some t |},
       [Send (PostLogin body); Toast_success "Login successful!"; Go "/"])
  | Rejected detail =>
      (st, [Send (PostLogin body);
            Toast_error (detail_or detail "Login failed")])
  end.

Definition handleRegister (body : Registration)
           (res : Outcome (string * Account.User)) (st : State)
  : State * list (Fx Request) :=
  match res with
  | Resolved (t, u) =>
      ({| user := Some u; loading := loading st; token := Some t |},
       [Send (PostRegister body); Toast_success "Registration successful!";
        Go "/"])
  | Rejected detail =>
      (st, [Send (PostRegister body);
            Toast_error (detail_or detail "Registration failed")])
  end.

(** The routes of the router and what each shows. *)
Inductive Route :=
| RHome
| RProducts
| RProduct (pid : string)
| RCart
| RCheckout
| ROrders
| ROrder (oid : string)
| RProfile
| RAuth
| RAdmin.

Inductive PageName :=
| HomePage
| ProductListPage
| ProductDetailPage
| CartPage
| CheckoutPage
| OrdersPage
| OrderTrackingPage
| ProfilePage
| AuthPage
| AdminDashboardPage.

Inductive Element :=
| Spinner
| Show (page : PageName)
| NavigateTo (path : string).

Definition guarded (st : State) (page : PageName) : Element :=
  match user st with
  | Some _ => Show page
  | None => NavigateTo "/auth"
  end.

Definition element (st : State) (r : Route) : Element :=
  if loading st then Spinner
  else match r with
       | RHome => Show HomePage
       | RProducts => Show ProductListPage
       | RProduct _ => Show ProductDetailPage
       | RCart => guarded st CartPage
       | RCheckout => guarded st CheckoutPage
       | ROrders => guarded st OrdersPage
       | ROrder _ => guarded st OrderTrackingPage
       | RProfile => guarded st ProfilePage
       | RAuth =>
           match user st with
           | None => Show AuthPage
           | Some _ => NavigateTo "/"
           end
       | RAdmin =>
           match user st with
           | Some u =>
               if Account.is_admin u then Show AdminDashboardPage
               else NavigateTo "/"
           | None => NavigateTo "/"
           end
       end.

(** Pages that need a signed-in user. *)
Definition personal (page : PageName) : bool :=
  match page with
  | CartPage | CheckoutPage | OrdersPage | OrderTrackingPage | ProfilePage
  | AdminDashboardPage => true
  | _ => false
  end.

(** [ProfileSaved] is the profile page handing a user to [setUser]. *)
Inductive Event :=
| ProfileFetched (res : Outcome Account.User)
| Login (body : Credentials) (res : Outcome (string * Account.User))
| Register (body : Registration) (res : Outcome (string * Account.User))
| ProfileSaved (u : Account.User)
| Logout.

(** The answer to the profile request arrives while the spinner is up;
    the sign-in page exists only without a user, the profile page and
    the logout entry only with one. *)
Definition step (st : State) (ev : Event)
  : option (State * list (Fx Request)) :=
  match ev with
  | ProfileFetched res =>
      if loading st then Some (fetchProfile_settled res st) else None
  | Login body res =>
      match element st RAuth with
      | Show AuthPage =>
          if truthy_text (login_email body) && truthy_text (login_password body)
          then Some (handleLogin body res st) else None
      | _ => None
      end
  | Register body res =>
      match element st RAuth with
      | Show AuthPage =>
          if truthy_text (register_email body)
             && truthy_text (register_password body)
             && truthy_text (register_name body)
             && truthy_text (register_phone body)
          then Some (handleRegister body res st) else None
      | _ => None
      end
  | ProfileSaved u =>
      match element st RProfile with
      | Show ProfilePage =>
          Some ({| user := Some u; loading := loading st; token := token st |},
                [])
      | _ => None
      end
  | Logout =>
      if loading st then None
      else match user st with
           | Some _ => Some (logout st, [])
           | None => None
           end
  end.

Fixpoint run (st : State) (evs : list Event) : option State :=
  match evs with
  | [] => Some st
  | ev :: evs' =>
      match step st ev with
      | Some (st', _) => run st' evs'
      | None => None
      end
  end.


End App.

(** With the product dialog closed, the dashboard is not editing any
    product and its form is blank. *)
Definition dialog_at_rest (st : AdminDashboard.State) : Prop :=
  AdminDashboard.showProductDialog st = false ->
  AdminDashboard.editingProduct st = None
  /\ AdminDashboard.productForm st = AdminDashboard.blank_form.

Definition shelf (l : list Catalog.Product) : AdminDashboard.State :=
  AdminDashboard.setProducts l AdminDashboard.initial.

Definition order_desk (l : list AdminDashboard.OrderRow)
  : AdminDashboard.State :=
  AdminDashboard.setOrders l AdminDashboard.initial.

Definition delivered_row : AdminDashboard.OrderRow :=
  {| AdminDashboard.order_id := "o-17"; AdminDashboard.status := "delivered";
     AdminDashboard.total := 540 |}.


Definition keeper : Account.User :=
  {| Account.name := "Ravi Shah"; Account.email := "admin@shop.com";
     Account.phone := "9111111111"; Account.is_admin := true;
     Account.addresses := None |}.

(** * Properties *)

(** ** Arithmetic of the summary *)

Lemma gt_true_iff (x y : Q) : gt x y = true <-> y < x.
Proof.
  unfold gt. rewrite negb_true_iff. split.
  - intros H. apply Qnot_le_lt. intros Hle.
    apply Qle_bool_iff in Hle. congruence.
  - intros H. destruct (Qle_bool x y) eqn:E; [|reflexivity].
    apply Qle_bool_iff in E. exfalso. apply (Qlt_not_le _ _ H E).
Qed.

Lemma gt_false_iff (x y : Q) : gt x y = false <-> x <= y.
Proof.
  unfold gt. rewrite negb_false_iff. apply Qle_bool_iff.
Qed.

(** The accumulator loop of [reduce] adds the line totals to its start
    value. *)
Lemma reduce_sum (l : list CartItem) (acc : Q) :
  fold_left (fun sum item => sum + price (product item) * quantity item) l acc
  == acc + sum_of_lines l.
Proof.
  revert acc. induction l as [|item l IH]; intros acc; simpl.
  - lra.
  - rewrite IH. unfold line_total. lra.
Qed.

Lemma cart_subtotal_sum (st : Cart.State) :
  Cart.subtotal st == sum_of_lines (Cart.cart st).
Proof. unfold Cart.subtotal. rewrite reduce_sum. lra. Qed.

Lemma checkout_subtotal_sum (st : Checkout.State) :
  Checkout.subtotal st == sum_of_lines (Checkout.cart st).
Proof. unfold Checkout.subtotal. rewrite reduce_sum. lra. Qed.

Lemma sum_of_lines_app (l1 l2 : list CartItem) :
  sum_of_lines (l1 ++ l2) == sum_of_lines l1 + sum_of_lines l2.
Proof.
  induction l1 as [|item l1 IH]; simpl; [lra | rewrite IH; lra].
Qed.

(** The subtotal of two item lists put together is the sum of the two
    subtotals. *)
Lemma cart_subtotal_additive (l1 l2 : list CartItem) (st : Cart.State) :
  Cart.subtotal (Cart.setCart (l1 ++ l2) st)
  == Cart.subtotal (Cart.setCart l1 st) + Cart.subtotal (Cart.setCart l2 st).
Proof.
  rewrite !cart_subtotal_sum. simpl. apply sum_of_lines_app.
Qed.

Lemma cart_page_summary (st : Cart.State) rows s :
  Cart.render st = Cart.Page rows s ->
  rows = Cart.cart st /\ rows <> [] /\ Cart.loading st = false
  /\ Cart.shown_subtotal s = Cart.subtotal st
  /\ Cart.shown_shipping s = Cart.shipping st
  /\ Cart.shown_total s = Cart.total st
  /\ Cart.shown_discount s
     = (if gt (Cart.discount st) 0 then Some (Cart.discount st) else None).
Proof.
  unfold Cart.render. destruct (Cart.loading st); [discriminate|].
  destruct (Cart.cart st) as [|item l] eqn:E; [discriminate|].
  intros H. injection H as <- <-. simpl. repeat split; congruence.
Qed.

Lemma checkout_page_summary (st : Checkout.State) rows s :
  Checkout.render st = Checkout.Page rows s ->
  rows = Checkout.cart st /\ rows <> []
  /\ Checkout.shown_subtotal s = Checkout.subtotal st
  /\ Checkout.shown_shipping s = Checkout.shipping st
  /\ Checkout.shown_discount s = Checkout.discount st
  /\ Checkout.shown_total s = Checkout.total st.
Proof.
  unfold Checkout.render.
  destruct (Checkout.cart st) as [|item l] eqn:E; [discriminate|].
  intros H. injection H as <- <-. simpl. repeat split; congruence.
Qed.

(** C1. On the cart page and on the checkout page the total on screen is
    the subtotal on screen plus the shipping fee on screen minus the
    discount (the [discount] cell on the cart page, shown in its own row
    whenever that row exists; the discount row on the checkout page), and
    the subtotal on screen is the sum over the items of unit price times
    quantity. *)
Theorem displayed_total_formula :
  (forall st rows s,
      Cart.render st = Cart.Page rows s ->
      Cart.shown_total s
      = Cart.shown_subtotal s + Cart.shown_shipping s - Cart.discount st
      /\ (forall d, Cart.shown_discount s = Some d -> d = Cart.discount st)
      /\ Cart.shown_subtotal s == sum_of_lines (Cart.cart st))
  /\ (forall st rows s,
      Checkout.render st = Checkout.Page rows s ->
      Checkout.shown_total s
      = Checkout.shown_subtotal s + Checkout.shown_shipping s
        - Checkout.shown_discount s
      /\ Checkout.shown_subtotal s == sum_of_lines (Checkout.cart st)).
Proof.
  split; intros st rows s H.
  - apply cart_page_summary in H.
    destruct H as (_ & _ & _ & Hsub & Hship & Htot & Hdisc).
    rewrite Htot, Hsub, Hship. split; [reflexivity|]. split.
    + intros d. rewrite Hdisc.
      destruct (gt (Cart.discount st) 0); congruence.
    + apply cart_subtotal_sum.
  - apply checkout_page_summary in H.
    destruct H as (_ & _ & Hsub & Hship & Hdisc & Htot).
    rewrite Htot, Hsub, Hship, Hdisc. split; [reflexivity|].
    apply checkout_subtotal_sum.
Qed.

Lemma displayed_total_formula_witness :
  (Cart.shown_total
     {| Cart.shown_subtotal := 0 + 300 * 3; Cart.shown_shipping := 0;
        Cart.shown_discount := Some ((0 + 300 * 2) * 0.1);
        Cart.shown_total := 0 + 300 * 3 + 0 - ((0 + 300 * 2) * 0.1);
        Cart.free_shipping_hint := None |}
   = (0 + 300 * 3) + 0 - Cart.discount cart_after_quantity_change)
  /\ (Checkout.shown_total
        {| Checkout.shown_subtotal := 0 + 100 * 2;
           Checkout.shown_shipping := 50;
           Checkout.shown_discount := (0 + 100 * 2) * 0.1;
           Checkout.shown_total := 0 + 100 * 2 + 50 - (0 + 100 * 2) * 0.1;
           Checkout.place_order_disabled := false |}
      = (0 + 100 * 2) + 50 - (0 + 100 * 2) * 0.1).
Proof.
  split.
  - apply (proj1 displayed_total_formula cart_after_quantity_change
                 [lamps 300 3]).
    reflexivity.
  - apply (proj2 displayed_total_formula
                 (checkout_with [lamps 100 2] (Some home_address))
                 [lamps 100 2]).
    reflexivity.
Defined.

(** C2. On both pages the shipping fee is 0 when the subtotal is above
    500 and 50 in every other case; a subtotal of exactly 500 gives 50. *)
Theorem shipping_fee_threshold :
  (forall st,
      (500 < Cart.subtotal st -> Cart.shipping st = 0)
      /\ (~ 500 < Cart.subtotal st -> Cart.shipping st = 50)
      /\ (Cart.subtotal st == 500 -> Cart.shipping st = 50))
  /\ (forall st,
      (500 < Checkout.subtotal st -> Checkout.shipping st = 0)
      /\ (~ 500 < Checkout.subtotal st -> Checkout.shipping st = 50)
      /\ (Checkout.subtotal st == 500 -> Checkout.shipping st = 50)).
Proof.
  split; intros st.
  - unfold Cart.shipping.
    destruct (gt (Cart.subtotal st) 500) eqn:E.
    + apply gt_true_iff in E. split; [|split]; intros H;
        [reflexivity | contradiction | rewrite H in E; lra].
    + apply gt_false_iff in E. split; [|split]; intros H;
        [lra | reflexivity | reflexivity].
  - unfold Checkout.shipping.
    destruct (gt (Checkout.subtotal st) 500) eqn:E.
    + apply gt_true_iff in E. split; [|split]; intros H;
        [reflexivity | contradiction | rewrite H in E; lra].
    + apply gt_false_iff in E. split; [|split]; intros H;
        [lra | reflexivity | reflexivity].
Qed.

Lemma shipping_fee_threshold_witness :
  Cart.shipping (Cart.setCart [lamps 300 2] Cart.initial) = 0
  /\ Cart.shipping (Cart.setCart [lamps 100 2] Cart.initial) = 50
  /\ Checkout.shipping (checkout_with [lamps 100 5] None) = 50.
Proof.
  split; [|split].
  - apply (proj1 (proj1 shipping_fee_threshold _)). reflexivity.
  - apply (proj1 (proj2 (proj1 shipping_fee_threshold _))).
    intros H. discriminate H.
  - apply (proj2 (proj2 (proj2 shipping_fee_threshold _))). reflexivity.
Defined.

(** C3, as the pages compute it.  With no items the subtotal is 0 and
    the checkout discount is 0, but 0 is not above the free-shipping
    threshold: the fee is 50, and so is the total when no discount is
    held.  Neither page puts these numbers on screen: the cart page shows
    its empty view and the checkout page leaves for the cart route. *)
Theorem empty_cart_pricing :
  (forall st,
      Cart.cart st = [] ->
      Cart.subtotal st = 0 /\ Cart.shipping st = 50
      /\ (Cart.discount st == 0 -> Cart.total st == 50)
      /\ (Cart.loading st = false -> Cart.render st = Cart.EmptyCart))
  /\ (forall st,
      Checkout.cart st = [] ->
      Checkout.subtotal st = 0 /\ Checkout.shipping st = 50
      /\ Checkout.discount st == 0 /\ Checkout.total st == 50
      /\ Checkout.render st = Checkout.Redirect "/cart").
Proof.
  split; intros st H.
  - unfold Cart.total, Cart.render, Cart.shipping, Cart.subtotal.
    rewrite H. simpl. repeat split.
    + intros ->. reflexivity.
    + intros ->. reflexivity.
  - unfold Checkout.total, Checkout.discount, Checkout.render,
      Checkout.shipping, Checkout.subtotal.
    rewrite H. simpl. repeat split.
Qed.

Lemma empty_cart_pricing_witness :
  Cart.shipping Cart.initial = 50
  /\ Checkout.total Checkout.initial == 50.
Proof.
  split.
  - apply (proj1 empty_cart_pricing). reflexivity.
  - apply (proj2 empty_cart_pricing). reflexivity.
Defined.

(** C3 as claimed does not hold: for the empty item sequence neither
    page computes four zeros. *)
Lemma empty_cart_not_all_zero :
  Cart.cart Cart.initial = [] /\ Checkout.cart Checkout.initial = []
  /\ ~ (Cart.subtotal Cart.initial == 0 /\ Cart.shipping Cart.initial == 0
        /\ Cart.discount Cart.initial == 0 /\ Cart.total Cart.initial == 0)
  /\ ~ (Checkout.subtotal Checkout.initial == 0
        /\ Checkout.shipping Checkout.initial == 0
        /\ Checkout.discount Checkout.initial == 0
        /\ Checkout.total Checkout.initial == 0).
Proof.
  repeat split.
  - intros (_ & H & _). discriminate H.
  - intros (_ & H & _). discriminate H.
Qed.

(** ** The discount code box *)

Lemma applyDiscount_valid (st : Cart.State) :
  Cart.discountCode st = "SAVE10"%string ->
  Cart.applyDiscount st
  = (Cart.setDiscount (Cart.subtotal st * 0.1) st,
     [ToastSuccess "Discount applied!"]).
Proof.
  intros H. unfold Cart.applyDiscount. rewrite H. reflexivity.
Qed.

Lemma applyDiscount_invalid (st : Cart.State) :
  Cart.discountCode st <> "SAVE10"%string ->
  Cart.applyDiscount st = (st, [ToastError "Invalid discount code"]).
Proof.
  intros H. unfold Cart.applyDiscount.
  destruct (String.eqb_spec (Cart.discountCode st) "SAVE10");
    [contradiction | reflexivity].
Qed.

(** No handler but a valid Apply writes the [discount] cell. *)
Lemma step_keeps_discount (st st' : Cart.State) ev fx :
  Cart.step st ev = Some (st', fx) ->
  (ev = Cart.ClickApply -> Cart.discountCode st <> "SAVE10"%string) ->
  Cart.discount st' = Cart.discount st.
Proof.
  intros Hstep Hev. destruct ev; simpl in Hstep.
  - destruct res; injection Hstep as <- _; reflexivity.
  - destruct (nth_error (Cart.cart st) row); [|discriminate].
    destruct (_ && _); [|discriminate].
    destruct res; injection Hstep as <- _; reflexivity.
  - destruct (nth_error (Cart.cart st) row); [|discriminate].
    destruct (_ && _); [|discriminate].
    destruct res; injection Hstep as <- _; reflexivity.
  - destruct (nth_error (Cart.cart st) row); [|discriminate].
    destruct (Cart.on_page st); [|discriminate].
    destruct res; injection Hstep as <- _; reflexivity.
  - destruct (Cart.on_page st); [|discriminate].
    injection Hstep as <- _; reflexivity.
  - destruct (Cart.on_page st); [|discriminate].
    rewrite (applyDiscount_invalid st (Hev eq_refl)) in Hstep.
    injection Hstep as <- _; reflexivity.
  - destruct (Cart.on_page st); [|discriminate].
    injection Hstep as <- _; reflexivity.
Qed.

Lemma no_valid_apply_keeps_discount (evs : list Cart.Event) :
  forall st st',
    Cart.run st evs = Some st' ->
    valid_code_applied st evs = false ->
    Cart.discount st' = Cart.discount st.
Proof.
  induction evs as [|ev evs IH]; intros st st' Hrun Hnone; simpl in *.
  - injection Hrun as <-. reflexivity.
  - destruct (Cart.step st ev) as [[st1 fx]|] eqn:Hstep; [|discriminate].
    assert (Hrest : valid_code_applied st1 evs = false).
    { destruct ev; try exact Hnone.
      apply orb_false_iff in Hnone. apply Hnone. }
    rewrite (IH _ _ Hrun Hrest).
    apply (step_keeps_discount _ _ _ _ Hstep).
    intros ->. apply orb_false_iff in Hnone. destruct Hnone as [Hcode _].
    intros Heq. rewrite Heq in Hcode. discriminate Hcode.
Qed.

(** C4, as the cart page behaves.  Pressing Apply with exactly SAVE10 in
    the box sets the discount to a tenth of the current subtotal; with any
    other string it signals an invalid code and leaves the discount as it
    was.  So in a session where SAVE10 was never applied the discount is
    still 0. *)
Theorem discount_only_from_valid_code (evs : list Cart.Event) (st : Cart.State) :
  Cart.run Cart.initial evs = Some st ->
  (Cart.discountCode st = "SAVE10"%string ->
   Cart.applyDiscount st
   = (Cart.setDiscount (Cart.subtotal st * 0.1) st,
      [ToastSuccess "Discount applied!"]))
  /\ (Cart.discountCode st <> "SAVE10"%string ->
      Cart.applyDiscount st = (st, [ToastError "Invalid discount code"]))
  /\ (valid_code_applied Cart.initial evs = false -> Cart.discount st = 0).
Proof.
  intros Hrun. split; [|split].
  - apply applyDiscount_valid.
  - apply applyDiscount_invalid.
  - intros Hnone.
    apply (no_valid_apply_keeps_discount evs _ _ Hrun Hnone).
Qed.

Lemma discount_only_from_valid_code_witness :
  Cart.applyDiscount cart_with_wrong_code_typed
  = (cart_with_wrong_code_typed, [ToastError "Invalid discount code"]).
Proof.
  apply (discount_only_from_valid_code session_wrong_code_after_valid).
  - reflexivity.
  - intros H. discriminate H.
Defined.

(** C4 as claimed does not hold: in the session
    [session_wrong_code_after_valid] the box holds a string other than
    SAVE10, Apply signals an invalid code, and the discount is 60, not 0. *)
Lemma wrong_code_leaves_nonzero_discount :
  Cart.run Cart.initial session_wrong_code_after_valid
  = Some cart_with_wrong_code_typed
  /\ Cart.discountCode cart_with_wrong_code_typed <> "SAVE10"%string
  /\ snd (Cart.applyDiscount cart_with_wrong_code_typed)
     = [ToastError "Invalid discount code"]
  /\ Cart.discount (fst (Cart.applyDiscount cart_with_wrong_code_typed)) == 60
  /\ ~ Cart.discount (fst (Cart.applyDiscount cart_with_wrong_code_typed)) == 0.
Proof.
  repeat split.
  - intros H. discriminate H.
  - intros H. discriminate H.
Qed.

(** C5 fails on the cart page.  After SAVE10 is applied to two lamps at
    300 and the cart is reloaded with three, the subtotal on screen is 900
    while the discount row still shows the 60 computed for the earlier
    items, not a tenth of the new subtotal; the total on screen is 840. *)
Theorem discount_stale_after_quantity_change :
  Cart.run Cart.initial session_quantity_after_code
  = Some cart_after_quantity_change
  /\ Cart.subtotal cart_after_quantity_change == 900
  /\ Cart.discount cart_after_quantity_change == 60
  /\ ~ Cart.discount cart_after_quantity_change
       == Cart.subtotal cart_after_quantity_change * 0.1
  /\ Cart.total cart_after_quantity_change == 840
  /\ (exists s, Cart.render cart_after_quantity_change
               = Cart.Page [lamps 300 3] s
               /\ Cart.shown_discount s
                  = Some (Cart.discount cart_after_quantity_change)).
Proof.
  repeat split.
  - intros H. discriminate H.
  - eexists. split; reflexivity.
Qed.

(** ** The status timeline *)

Lemma findIndex_from_absent {A : Type} (p : A -> bool) (l : list A) (i : Z) :
  forallb (fun x => negb (p x)) l = true ->
  findIndex_from p l i = (-1)%Z.
Proof.
  revert i. induction l as [|x l IH]; intros i H; simpl in *.
  - reflexivity.
  - apply andb_true_iff in H. destruct H as [Hx Hl].
    apply negb_true_iff in Hx. rewrite Hx. apply IH, Hl.
Qed.

(** A status that is none of the five keys has index -1. *)
Lemma getStatusIndex_unlisted (s : string) :
  ~ In s (map OrderTracking.key OrderTracking.orderStatuses) ->
  OrderTracking.getStatusIndex s = (-1)%Z.
Proof.
  intros H. unfold OrderTracking.getStatusIndex, findIndex.
  apply findIndex_from_absent. apply forallb_forall.
  intros e He. apply negb_true_iff.
  destruct (String.eqb_spec (OrderTracking.key e) s) as [Heq|]; [|reflexivity].
  exfalso. apply H. rewrite <- Heq. apply in_map, He.
Qed.

Lemma mapi_from_length {A B : Type} (f : A -> Z -> B) (l : list A) (i : Z) :
  List.length (mapi_from f l i) = List.length l.
Proof.
  revert i. induction l as [|x l IH]; intros i; simpl; [|rewrite IH];
    reflexivity.
Qed.

Lemma timeline_length (c : Z) :
  List.length (OrderTracking.timeline c) = 5%nat.
Proof.
  unfold OrderTracking.timeline, mapi. rewrite mapi_from_length. reflexivity.
Qed.

(** The [i]-th circle is built from the [i]-th entry and the comparison of
    [i] with the current index. *)
Lemma timeline_nth (c : Z) (i : nat) (stage : OrderTracking.Stage) :
  nth_error (OrderTracking.timeline c) i = Some stage ->
  (i < 5)%nat
  /\ nth_error (map OrderTracking.key OrderTracking.orderStatuses) i
     = Some (OrderTracking.stage_key stage)
  /\ OrderTracking.isCompleted stage = (Z.of_nat i <=? c)%Z
  /\ OrderTracking.isCurrent stage = (Z.of_nat i =? c)%Z
  /\ OrderTracking.circle_class stage
     = (if OrderTracking.isCompleted stage
        then "bg-gradient-to-br from-blue-500 to-green-500 text-white"
        else "bg-gray-200 text-gray-500")%string
  /\ OrderTracking.ring_class stage
     = (if OrderTracking.isCurrent stage then "ring-4 ring-blue-300" else "")%string.
Proof.
  intros H.
  do 5 (destruct i as [|i];
        [injection H as <-; cbn; repeat split; lia |]).
  destruct i; discriminate H.
Qed.

(** C6. For each of the five linear statuses, sitting at position [k] of
    the stage list, the lookup returns [k]; the timeline has five circles;
    circle [i] is drawn completed exactly when [i <= k], carries the
    in-progress ring exactly when [i = k], and is drawn pending (grey)
    exactly when [k < i]. *)
Theorem timeline_of_linear_status (k : nat) (s : string) :
  nth_error (map OrderTracking.key OrderTracking.orderStatuses) k = Some s ->
  OrderTracking.getStatusIndex s = Z.of_nat k
  /\ List.length (OrderTracking.timeline (OrderTracking.getStatusIndex s)) = 5%nat
  /\ forall i stage,
      nth_error (OrderTracking.timeline (OrderTracking.getStatusIndex s)) i
      = Some stage ->
      (OrderTracking.isCompleted stage = true <-> (i <= k)%nat)
      /\ (OrderTracking.isCurrent stage = true <-> i = k)
      /\ (OrderTracking.isCompleted stage = false <-> (k < i)%nat)
      /\ (OrderTracking.circle_class stage
          = "bg-gradient-to-br from-blue-500 to-green-500 text-white"%string
          <-> (i <= k)%nat)
      /\ (OrderTracking.ring_class stage = "ring-4 ring-blue-300"%string
          <-> i = k)
      /\ (OrderTracking.circle_class stage = "bg-gray-200 text-gray-500"%string
          <-> (k < i)%nat).
Proof.
  intros Hk.
  assert (Hidx : OrderTracking.getStatusIndex s = Z.of_nat k).
  { do 5 (destruct k as [|k]; [injection Hk as <-; reflexivity |]).
    destruct k; discriminate Hk. }
  split; [exact Hidx|]. split; [apply timeline_length|].
  intros i stage Hi. rewrite Hidx in Hi.
  apply timeline_nth in Hi.
  destruct Hi as (_ & _ & Hc & Hcur & Hcc & Hrc).
  rewrite Hcc, Hrc, Hc, Hcur.
  destruct (Z.leb_spec (Z.of_nat i) (Z.of_nat k));
    destruct (Z.eqb_spec (Z.of_nat i) (Z.of_nat k));
    repeat split; intros; try lia; try discriminate; try reflexivity.
Qed.

Lemma timeline_of_linear_status_witness :
  OrderTracking.getStatusIndex "shipped" = 2%Z.
Proof.
  apply (timeline_of_linear_status 2 "shipped"). reflexivity.
Defined.

(** C7. For an order that is cancelled or has a return requested the
    lookup returns -1, and the timeline is still produced: five circles,
    none of them completed and none current. *)
Theorem timeline_of_side_status (s : string) :
  s = "cancelled"%string \/ s = "return_requested"%string ->
  OrderTracking.getStatusIndex s = (-1)%Z
  /\ List.length (OrderTracking.timeline (OrderTracking.getStatusIndex s)) = 5%nat
  /\ Forall (fun stage =>
               OrderTracking.isCompleted stage = false
               /\ OrderTracking.isCurrent stage = false)
            (OrderTracking.timeline (OrderTracking.getStatusIndex s))
  /\ forall st o,
      OrderTracking.order st = Some o ->
      OrderTracking.status o = s ->
      OrderTracking.loading st = false ->
      exists t, OrderTracking.render st = OrderTracking.Page o t
                /\ OrderTracking.stages t = OrderTracking.timeline (-1)
                /\ OrderTracking.return_option t = false.
Proof.
  intros Hs.
  assert (Hidx : OrderTracking.getStatusIndex s = (-1)%Z)
    by (destruct Hs as [-> | ->]; reflexivity).
  rewrite Hidx. split; [reflexivity|]. split; [apply timeline_length|].
  split.
  - cbn. repeat constructor.
  - intros st o Ho Hst Hl. unfold OrderTracking.render.
    rewrite Hl, Ho, Hst, Hidx. eexists. split; [reflexivity|].
    split; [reflexivity|].
    destruct Hs as [-> | ->]; reflexivity.
Qed.

Lemma timeline_of_side_status_witness :
  OrderTracking.getStatusIndex "cancelled" = (-1)%Z.
Proof.
  apply (timeline_of_side_status "cancelled"). left. reflexivity.
Defined.

(** ** Placing an order *)

Lemma placeOrder_without_address create payment (st : Checkout.State) :
  Checkout.selectedAddress st = None ->
  Checkout.placeOrder create payment st
  = (st, [ToastError "Please select a delivery address"]).
Proof.
  intros H. unfold Checkout.placeOrder. rewrite H. reflexivity.
Qed.

Lemma placeOrder_with_address create payment (st : Checkout.State) a :
  Checkout.selectedAddress st = Some a ->
  exists rest,
    snd (Checkout.placeOrder create payment st)
    = Call (PostOrdersCreate (Checkout.order_request st a)) :: rest
    /\ existsb Checkout.creates_order rest = false.
Proof.
  intros H. unfold Checkout.placeOrder. rewrite H.
  destruct create as [oid|d]; [destruct payment as [u|d]|];
    eexists; split; reflexivity.
Qed.

(** Only the Place Order button leads to an order creation call. *)
Lemma order_created_by_placeOrder (st st' : Checkout.State) ev fx :
  Checkout.step st ev = Some (st', fx) ->
  existsb Checkout.creates_order fx = true ->
  exists create payment,
    ev = Checkout.ClickPlaceOrder create payment
    /\ Checkout.place_order_enabled st = true.
Proof.
  intros Hstep Hfx. destruct ev; simpl in Hstep.
  - destruct res as [[c [[|a l]|]]|d]; injection Hstep as <- <-;
      discriminate Hfx.
  - destruct (Checkout.on_page st); [|discriminate].
    injection Hstep as <- <-. discriminate Hfx.
  - destruct (_ && _); [|discriminate].
    injection Hstep as <- <-. discriminate Hfx.
  - destruct (_ && _); [|discriminate].
    destruct res; injection Hstep as <- <-; discriminate Hfx.
  - destruct (nth_error _ _); [|discriminate].
    destruct (Checkout.on_page st); [|discriminate].
    injection Hstep as <- <-. discriminate Hfx.
  - destruct (nth_error _ _); [|discriminate].
    destruct (Checkout.on_page st); [|discriminate].
    injection Hstep as <- <-. discriminate Hfx.
  - destruct (_ && _); [|discriminate].
    injection Hstep as <- <-. discriminate Hfx.
  - destruct (Checkout.place_order_enabled st) eqn:E; [|discriminate].
    exists create, payment. split; reflexivity.
Qed.

Lemma place_order_enabled_inv (st : Checkout.State) :
  Checkout.place_order_enabled st = true ->
  Checkout.cart st <> [] /\ Checkout.selectedAddress st <> None
  /\ Checkout.loading st = false.
Proof.
  unfold Checkout.place_order_enabled, Checkout.render.
  destruct (Checkout.cart st) as [|item l]; [discriminate|]. simpl.
  destruct (Checkout.loading st); [discriminate|].
  destruct (Checkout.selectedAddress st); [|discriminate].
  intros _. repeat split; discriminate.
Qed.

(** C8. With no address selected [placeOrder] only raises the
    please-select-an-address error and makes no call.  With an empty cart
    the page asks for the cart route, and nothing that can happen on it
    creates an order.  An order creation call is only ever issued from a
    state with a non-empty cart and a selected address. *)
Theorem placeOrder_preconditions (st : Checkout.State) :
  (Checkout.selectedAddress st = None ->
   forall create payment,
     Checkout.placeOrder create payment st
     = (st, [ToastError "Please select a delivery address"])
     /\ existsb Checkout.is_call
                (snd (Checkout.placeOrder create payment st)) = false)
  /\ (Checkout.cart st = [] ->
      Checkout.render st = Checkout.Redirect "/cart"
      /\ forall ev st' fx,
          Checkout.step st ev = Some (st', fx) ->
          existsb Checkout.creates_order fx = false)
  /\ (forall ev st' fx,
         Checkout.step st ev = Some (st', fx) ->
         existsb Checkout.creates_order fx = true ->
         Checkout.cart st <> [] /\ Checkout.selectedAddress st <> None).
Proof.
  assert (Hgate : forall ev st' fx,
             Checkout.step st ev = Some (st', fx) ->
             existsb Checkout.creates_order fx = true ->
             Checkout.cart st <> [] /\ Checkout.selectedAddress st <> None).
  { intros ev st' fx Hstep Hfx.
    destruct (order_created_by_placeOrder _ _ _ _ Hstep Hfx)
      as (create & payment & _ & Hen).
    apply place_order_enabled_inv in Hen. tauto. }
  split; [|split].
  - intros Hnone create payment.
    rewrite (placeOrder_without_address _ _ _ Hnone). split; reflexivity.
  - intros Hempty. split.
    + unfold Checkout.render. rewrite Hempty. reflexivity.
    + intros ev st' fx Hstep.
      destruct (existsb Checkout.creates_order fx) eqn:Hfx; [|reflexivity].
      destruct (Hgate _ _ _ Hstep Hfx) as [Hcart _]. contradiction.
  - exact Hgate.
Qed.

Lemma placeOrder_preconditions_witness :
  Checkout.placeOrder (Resolved "o-17"%string) (Resolved tt)
                      (checkout_with [lamps 300 2] None)
  = (checkout_with [lamps 300 2] None,
     [ToastError "Please select a delivery address"])
  /\ Checkout.render (checkout_with [] (Some home_address))
     = Checkout.Redirect "/cart".
Proof.
  split.
  - apply (proj1 (placeOrder_preconditions (checkout_with [lamps 300 2] None))
                 eq_refl (Resolved "o-17"%string) (Resolved tt)).
  - apply (proj1 (proj2 (placeOrder_preconditions
                           (checkout_with [] (Some home_address))))
                 eq_refl).
Defined.

(** C10. On the checkout page with a non-empty cart the discount row
    shows a tenth of the subtotal, and whenever [placeOrder] goes through
    with a selected address its first call is the order creation with
    [discount_code] SAVE10, whatever the server answers.  The page keeps
    no discount code of its own: nothing the user did or did not enter
    takes part. *)
Theorem checkout_discount_always_SAVE10 (st : Checkout.State) :
  Checkout.cart st <> [] ->
  (exists s, Checkout.render st = Checkout.Page (Checkout.cart st) s
             /\ Checkout.shown_discount s = Checkout.subtotal st * 0.1)
  /\ (forall a create payment,
         Checkout.selectedAddress st = Some a ->
         exists body rest,
           snd (Checkout.placeOrder create payment st)
           = Call (PostOrdersCreate body) :: rest
           /\ discount_code body = "SAVE10"%string
           /\ existsb Checkout.creates_order rest = false)
  /\ (forall ev st' fx body,
         Checkout.step st ev = Some (st', fx) ->
         In (Call (PostOrdersCreate body)) fx ->
         discount_code body = "SAVE10"%string).
Proof.
  intros Hcart. split; [|split].
  - unfold Checkout.render.
    destruct (Checkout.cart st) as [|item l]; [contradiction|].
    eexists. split; reflexivity.
  - intros a create payment Ha.
    destruct (placeOrder_with_address create payment st a Ha)
      as (rest & Hfx & Hrest).
    exists (Checkout.order_request st a), rest. repeat split; assumption.
  - intros ev st' fx body Hstep Hin.
    assert (Hfx : existsb Checkout.creates_order fx = true).
    { apply existsb_exists. eexists. split; [exact Hin | reflexivity]. }
    destruct (order_created_by_placeOrder _ _ _ _ Hstep Hfx)
      as (create & payment & Hev & Hen).
    subst ev. simpl in Hstep. rewrite Hen in Hstep.
    injection Hstep as Hpo.
    assert (Hsnd : fx = snd (Checkout.placeOrder create payment st))
      by (rewrite Hpo; reflexivity).
    subst fx. clear Hpo.
    destruct (Checkout.selectedAddress st) as [a|] eqn:Ha.
    + destruct (placeOrder_with_address create payment st a Ha)
        as (rest & Hfx' & Hrest).
      rewrite Hfx' in Hin. destruct Hin as [Heq | Hin].
      * injection Heq as <-. reflexivity.
      * exfalso.
        assert (existsb Checkout.creates_order rest = true).
        { apply existsb_exists. eexists. split; [exact Hin | reflexivity]. }
        congruence.
    + rewrite (placeOrder_without_address _ _ _ Ha) in Hin.
      destruct Hin as [Heq | []]. discriminate Heq.
Qed.

Lemma checkout_discount_always_SAVE10_witness :
  exists s,
    Checkout.render (checkout_with [lamps 300 2] (Some home_address))
    = Checkout.Page [lamps 300 2] s
    /\ Checkout.shown_discount s = (0 + 300 * 2) * 0.1.
Proof.
  apply (proj1 (checkout_discount_always_SAVE10
                  (checkout_with [lamps 300 2] (Some home_address))
                  ltac:(discriminate))).
Defined.

(** ** Return requests *)

Lemma return_form_shown_inv (st : OrderTracking.State) :
  OrderTracking.return_form_shown st = true ->
  exists o, OrderTracking.order st = Some o
            /\ OrderTracking.status o = "delivered"%string
            /\ OrderTracking.showReturnDialog st = true.
Proof.
  unfold OrderTracking.return_form_shown, OrderTracking.render.
  destruct (OrderTracking.loading st); [discriminate|].
  destruct (OrderTracking.order st) as [o|]; [|discriminate]. simpl.
  intros H. apply andb_true_iff in H. destruct H as [H Hd].
  apply andb_true_iff in H. destruct H as [H _].
  apply String.eqb_eq in H. exists o. repeat split; assumption.
Qed.

Lemma return_controls_hidden (st : OrderTracking.State) o :
  OrderTracking.order st = Some o ->
  OrderTracking.status o <> "delivered"%string ->
  OrderTracking.return_option_shown st = false
  /\ OrderTracking.return_form_shown st = false.
Proof.
  intros Ho Hs.
  unfold OrderTracking.return_option_shown, OrderTracking.return_form_shown,
    OrderTracking.render.
  destruct (OrderTracking.loading st); [split; reflexivity|].
  rewrite Ho. simpl.
  destruct (String.eqb_spec (OrderTracking.status o) "delivered");
    [contradiction | split; reflexivity].
Qed.

(** C9. A return request leaves the page only from an order whose status
    is delivered and with a non-empty reason, which is the reason sent.
    For an order in any other status the return controls are not there:
    opening the dialog and submitting the form are both refused, and no
    event issues the request. *)
Theorem return_request_preconditions (st : OrderTracking.State) :
  (forall ev st' fx,
      OrderTracking.step st ev = Some (st', fx) ->
      existsb OrderTracking.requests_return fx = true ->
      (exists o, OrderTracking.order st = Some o
                 /\ OrderTracking.status o = "delivered"%string)
      /\ OrderTracking.returnReason st <> ""%string
      /\ In (Call (PostReturnsCreate (OrderTracking.route_id st)
                                     (OrderTracking.returnReason st))) fx)
  /\ (forall o,
         OrderTracking.order st = Some o ->
         OrderTracking.status o <> "delivered"%string ->
         OrderTracking.step st (OrderTracking.OpenReturnDialog true) = None
         /\ forall res,
             OrderTracking.step st (OrderTracking.SubmitReturn res) = None)
  /\ (OrderTracking.returnReason st = ""%string ->
      forall res, OrderTracking.step st (OrderTracking.SubmitReturn res) = None).
Proof.
  split; [|split].
  - intros ev st' fx Hstep Hfx. destruct ev; simpl in Hstep.
    + destruct res; injection Hstep as <- <-; discriminate Hfx.
    + destruct (OrderTracking.return_option_shown st); [|discriminate].
      injection Hstep as <- <-. discriminate Hfx.
    + destruct (OrderTracking.return_form_shown st); [|discriminate].
      injection Hstep as <- <-. discriminate Hfx.
    + destruct (OrderTracking.return_form_shown st) eqn:Hform;
        [|discriminate].
      destruct (String.eqb_spec (OrderTracking.returnReason st) "")
        as [|Hreason]; [discriminate|].
      apply return_form_shown_inv in Hform.
      destruct Hform as (o & Ho & Hs & _).
      split; [exists o; split; assumption|]. split; [exact Hreason|].
      simpl in Hstep. destruct res; injection Hstep as <- <-; left; reflexivity.
  - intros o Ho Hs.
    destruct (return_controls_hidden st o Ho Hs) as [Hopt Hform].
    simpl. rewrite Hopt, Hform. split; [reflexivity|]. intros res. reflexivity.
  - intros Hreason res. simpl. rewrite Hreason.
    destruct (OrderTracking.return_form_shown st); reflexivity.
Qed.

Lemma return_request_preconditions_witness :
  (OrderTracking.step (tracking_of "shipped" "arrived broken" true)
                      (OrderTracking.SubmitReturn (Resolved tt)) = None)
  /\ In (Call (PostReturnsCreate "o-17" "arrived broken"))
        [Call (PostReturnsCreate "o-17" "arrived broken");
         ToastSuccess "Return request submitted!";
         Call (GetOrder "o-17")].
Proof.
  split.
  - apply (proj1 (proj2 (return_request_preconditions
                           (tracking_of "shipped" "arrived broken" true)))
                 _ eq_refl).
    intros H. discriminate H.
  - apply (proj1 (return_request_preconditions
                    (tracking_of "delivered" "arrived broken" true))
                 (OrderTracking.SubmitReturn (Resolved tt))
                 (OrderTracking.setShowReturnDialog
                    false (tracking_of "delivered" "arrived broken" true))).
    + reflexivity.
    + reflexivity.
Defined.

(** ** The scenarios of the pricing rules *)

Example two_lamps_at_300 :
  let st := Cart.setCart [lamps 300 2] Cart.initial in
  Cart.subtotal st == 600 /\ Cart.shipping st = 0 /\ Cart.total st == 600.
Proof. repeat split. Qed.

Example two_lamps_at_100 :
  let st := Cart.setCart [lamps 100 2] Cart.initial in
  Cart.subtotal st == 200 /\ Cart.shipping st = 50 /\ Cart.total st == 250.
Proof. repeat split. Qed.

Example two_lamps_at_300_with_code :
  let st := fst (Cart.applyDiscount
                   (Cart.setDiscountCode
                      "SAVE10" (Cart.setCart [lamps 300 2] Cart.initial))) in
  Cart.discount st == 60 /\ Cart.total st == 540.
Proof. repeat split. Qed.

(** * Further properties of the three pages *)

(** ** Cart page *)

Lemma cart_step_keeps_items (st st' : Cart.State) ev fx :
  Cart.step st ev = Some (st', fx) ->
  Cart.cart st' = last_cart_data [ev] (Cart.cart st).
Proof.
  intros Hstep. destruct ev; simpl in Hstep.
  - destruct res; injection Hstep as <- _; reflexivity.
  - destruct (nth_error (Cart.cart st) row); [|discriminate].
    destruct (_ && _); [|discriminate].
    destruct res; injection Hstep as <- _; reflexivity.
  - destruct (nth_error (Cart.cart st) row); [|discriminate].
    destruct (_ && _); [|discriminate].
    destruct res; injection Hstep as <- _; reflexivity.
  - destruct (nth_error (Cart.cart st) row); [|discriminate].
    destruct (Cart.on_page st); [|discriminate].
    destruct res; injection Hstep as <- _; reflexivity.
  - destruct (Cart.on_page st); [|discriminate].
    injection Hstep as <- _; reflexivity.
  - destruct (Cart.on_page st); [|discriminate].
    unfold Cart.applyDiscount in Hstep.
    destruct (String.eqb _ _); injection Hstep as <- _; reflexivity.
  - destruct (Cart.on_page st); [|discriminate].
    injection Hstep as <- _; reflexivity.
Qed.

Lemma last_cart_data_cons ev evs seed :
  last_cart_data (ev :: evs) seed
  = last_cart_data evs (last_cart_data [ev] seed).
Proof.
  destruct ev; try reflexivity. destruct res; reflexivity.
Qed.

(** X1. The items the cart page holds are always those of the latest
    cart delivered by the server (none before the first delivery): no
    click on the page edits them locally. *)
Theorem cart_items_only_from_server (evs : list Cart.Event) :
  forall st0 st,
    Cart.run st0 evs = Some st ->
    Cart.cart st = last_cart_data evs (Cart.cart st0).
Proof.
  induction evs as [|ev evs IH]; intros st0 st Hrun.
  - injection Hrun as <-. reflexivity.
  - simpl in Hrun.
    destruct (Cart.step st0 ev) as [[st1 fx]|] eqn:Hstep; [|discriminate].
    rewrite last_cart_data_cons, <- (cart_step_keeps_items _ _ _ _ Hstep).
    apply IH, Hrun.
Qed.

Lemma cart_items_only_from_server_witness :
  Cart.cart cart_after_quantity_change = [lamps 300 3].
Proof.
  apply (cart_items_only_from_server session_quantity_after_code Cart.initial).
  reflexivity.
Defined.

Lemma whole_number_step_down (q : Q) (n : Z) :
  q == inject_Z n -> ~ q <= 1 -> 1 <= q - 1.
Proof.
  intros Hq Hgt. rewrite Hq in *.
  assert (H : (1 < n)%Z).
  { apply Z.nle_gt. intros Hle. apply Hgt.
    change 1 with (inject_Z 1). rewrite <- Zle_Qle. exact Hle. }
  unfold Qle. simpl. lia.
Qed.

Lemma whole_number_step_up (q s : Q) (n m : Z) :
  q == inject_Z n -> s == inject_Z m -> ~ s <= q -> q + 1 <= s.
Proof.
  intros Hq Hs Hlt. rewrite Hq, Hs in *.
  assert (H : (n < m)%Z).
  { apply Z.nle_gt. intros Hle. apply Hlt. rewrite <- Zle_Qle. exact Hle. }
  unfold Qle. simpl. lia.
Qed.

(** X2. For a row whose quantity and stock are whole numbers, the minus
    button can only ask the server for a quantity of at least 1 and the
    plus button only for one of at most the stock; at quantity 1 (or
    less) the minus button does nothing, and at the stock (or more) the
    plus button does nothing. *)
Theorem quantity_buttons_stay_in_range
        (st : Cart.State) (row : nat) (item : CartItem) (n m : Z) :
  nth_error (Cart.cart st) row = Some item ->
  quantity item == inject_Z n ->
  stock (product item) == inject_Z m ->
  (forall res st' fx,
      Cart.step st (Cart.ClickDecrease row res) = Some (st', fx) ->
      1 <= quantity item - 1
      /\ In (Call (PutCartUpdate (product_id item) (quantity item - 1))) fx)
  /\ (forall res st' fx,
         Cart.step st (Cart.ClickIncrease row res) = Some (st', fx) ->
         quantity item + 1 <= stock (product item)
         /\ In (Call (PutCartUpdate (product_id item) (quantity item + 1))) fx)
  /\ (quantity item <= 1 ->
      forall res, Cart.step st (Cart.ClickDecrease row res) = None)
  /\ (stock (product item) <= quantity item ->
      forall res, Cart.step st (Cart.ClickIncrease row res) = None).
Proof.
  intros Hrow Hq Hs. repeat split.
  - simpl in H. rewrite Hrow in H.
    destruct (Cart.on_page st); [|discriminate]. simpl in H.
    destruct (Qle_bool (quantity item) 1) eqn:E; [discriminate|].
    apply (whole_number_step_down _ n Hq).
    intros Hle. apply Qle_bool_iff in Hle. congruence.
  - simpl in H. rewrite Hrow in H.
    destruct (_ && _); [|discriminate].
    destruct res; injection H as _ <-; left; reflexivity.
  - simpl in H. rewrite Hrow in H.
    destruct (Cart.on_page st); [|discriminate]. simpl in H.
    destruct (Qle_bool (stock (product item)) (quantity item)) eqn:E;
      [discriminate|].
    apply (whole_number_step_up _ _ n m Hq Hs).
    intros Hle. apply Qle_bool_iff in Hle. congruence.
  - simpl in H. rewrite Hrow in H.
    destruct (_ && _); [|discriminate].
    destruct res; injection H as _ <-; left; reflexivity.
  - intros Hle res. simpl. rewrite Hrow.
    apply Qle_bool_iff in Hle. rewrite Hle.
    destruct (Cart.on_page st); reflexivity.
  - intros Hle res. simpl. rewrite Hrow.
    apply Qle_bool_iff in Hle. rewrite Hle.
    destruct (Cart.on_page st); reflexivity.
Qed.

Lemma quantity_buttons_stay_in_range_witness :
  1 <= quantity (lamps 300 2) - 1
  /\ In (Call (PutCartUpdate "p-lamp" (2 - 1)))
        [Call (PutCartUpdate "p-lamp" (2 - 1)); Call GetCart].
Proof.
  apply (proj1 (quantity_buttons_stay_in_range
                  (Cart.setLoading false (Cart.setCart [lamps 300 2] Cart.initial))
                  0 (lamps 300 2) 2 10 eq_refl eq_refl eq_refl)
               (Resolved tt)
               (Cart.setLoading false (Cart.setCart [lamps 300 2] Cart.initial))).
  reflexivity.
Defined.

Lemma cart_loaded_stays_loaded (evs : list Cart.Event) :
  forall st0 st,
    Cart.loading st0 = false ->
    Cart.run st0 evs = Some st ->
    Cart.loading st = false.
Proof.
  induction evs as [|ev evs IH]; intros st0 st Hl Hrun; simpl in Hrun.
  - injection Hrun as <-. exact Hl.
  - destruct (Cart.step st0 ev) as [[st1 fx]|] eqn:Hstep; [|discriminate].
    apply (IH st1 st); [|exact Hrun].
    destruct ev; simpl in Hstep.
    + destruct res; injection Hstep as <- _; reflexivity.
    + destruct (nth_error _ _); [|discriminate].
      destruct (_ && _); [|discriminate].
      destruct res; injection Hstep as <- _; exact Hl.
    + destruct (nth_error _ _); [|discriminate].
      destruct (_ && _); [|discriminate].
      destruct res; injection Hstep as <- _; exact Hl.
    + destruct (nth_error _ _); [|discriminate].
      destruct (Cart.on_page st0); [|discriminate].
      destruct res; injection Hstep as <- _; exact Hl.
    + destruct (Cart.on_page st0); [|discriminate].
      injection Hstep as <- _; exact Hl.
    + destruct (Cart.on_page st0); [|discriminate].
      unfold Cart.applyDiscount in Hstep.
      destruct (String.eqb _ _); injection Hstep as <- _; exact Hl.
    + destruct (Cart.on_page st0); [|discriminate].
      injection Hstep as <- _; exact Hl.
Qed.

(** X3. The cart page shows its spinner exactly until the first answer
    to the cart request: while it spins nothing else on the page can be
    used, so every session starts with that answer, and once it has come
    (cart or error) the spinner never returns, whatever is fetched or
    clicked afterwards. *)
Theorem cart_spinner_only_before_first_answer
        (evs : list Cart.Event) (st : Cart.State) :
  Cart.run Cart.initial evs = Some st ->
  evs <> [] ->
  (exists res evs', evs = Cart.CartFetched res :: evs')
  /\ Cart.loading st = false
  /\ Cart.render st <> Cart.Spinner.
Proof.
  intros Hrun Hne. destruct evs as [|ev evs]; [contradiction|].
  assert (Hfirst : exists res, ev = Cart.CartFetched res).
  { simpl in Hrun. destruct ev; try discriminate Hrun.
    - exists res. reflexivity.
    - destruct row; discriminate Hrun.
    - destruct row; discriminate Hrun.
    - destruct row; discriminate Hrun. }
  destruct Hfirst as [res ->].
  assert (Hl : Cart.loading st = false).
  { simpl in Hrun.
    apply (cart_loaded_stays_loaded evs
             (fst (Cart.fetchCart_settled res Cart.initial)) st).
    - destruct res; reflexivity.
    - destruct res; exact Hrun. }
  split; [exists res, evs; reflexivity|]. split; [exact Hl|].
  unfold Cart.render. rewrite Hl.
  destruct (Cart.cart st); discriminate.
Qed.

Lemma cart_spinner_only_before_first_answer_witness :
  Cart.loading cart_after_quantity_change = false.
Proof.
  apply (cart_spinner_only_before_first_answer session_quantity_after_code).
  - reflexivity.
  - discriminate.
Defined.

(** X4. On the cart page the "add more for free shipping" line is there
    exactly when the subtotal is at most 500, which is exactly when a
    shipping fee of 50 is charged; the amount it names is 500 minus the
    subtotal and is never negative.  At a subtotal of exactly 500 the
    line is shown with amount 0. *)
Theorem free_shipping_hint_rule (st : Cart.State) rows s :
  Cart.render st = Cart.Page rows s ->
  (Cart.free_shipping_hint s = None <-> 500 < Cart.subtotal st)
  /\ (Cart.free_shipping_hint s = None <-> Cart.shown_shipping s = 0)
  /\ (forall h, Cart.free_shipping_hint s = Some h ->
                h = 500 - Cart.subtotal st /\ 0 <= h
                /\ Cart.shown_shipping s = 50)
  /\ (Cart.subtotal st == 500 ->
      exists h, Cart.free_shipping_hint s = Some h /\ h == 0).
Proof.
  unfold Cart.render. destruct (Cart.loading st); [discriminate|].
  destruct (Cart.cart st) as [|item l]; [discriminate|].
  intros H. injection H as _ <-. simpl. unfold Cart.shipping.
  destruct (gt (Cart.subtotal st) 500) eqn:E; simpl.
  - apply gt_true_iff in E. split; [tauto|]. split; [tauto|]. split.
    + intros h Hh. discriminate Hh.
    + intros Heq. rewrite Heq in E. exfalso. lra.
  - apply gt_false_iff in E. split; [|split; [|split]].
    + split; [discriminate | intros; exfalso; lra].
    + split; discriminate.
    + intros h Hh. injection Hh as <-. repeat split. lra.
    + intros Heq. eexists. split; [reflexivity|]. rewrite Heq. reflexivity.
Qed.

Lemma free_shipping_hint_rule_witness :
  exists h,
    Cart.free_shipping_hint
      {| Cart.shown_subtotal := 0 + 100 * 5; Cart.shown_shipping := 50;
         Cart.shown_discount := None; Cart.shown_total := 0 + 100 * 5 + 50 - 0;
         Cart.free_shipping_hint := Some (500 - (0 + 100 * 5)) |} = Some h
    /\ h == 0.
Proof.
  apply (proj2 (proj2 (proj2
           (free_shipping_hint_rule
              (Cart.setLoading false (Cart.setCart [lamps 100 5] Cart.initial))
              [lamps 100 5] _ eq_refl)))).
  reflexivity.
Defined.

(** X5. Pressing Apply a second time changes nothing: it gives the same
    state and the same message as the first press.  Right after a press
    with SAVE10 in the box the total is nine tenths of the subtotal plus
    the shipping fee. *)
Theorem applyDiscount_twice (st : Cart.State) :
  Cart.applyDiscount (fst (Cart.applyDiscount st)) = Cart.applyDiscount st
  /\ (Cart.discountCode st = "SAVE10"%string ->
      Cart.total (fst (Cart.applyDiscount st))
      == Cart.subtotal st * 0.9 + Cart.shipping st).
Proof.
  split.
  - unfold Cart.applyDiscount.
    destruct (String.eqb (Cart.discountCode st) "SAVE10") eqn:E; simpl.
    + rewrite E. reflexivity.
    + rewrite E. reflexivity.
  - intros H. rewrite (applyDiscount_valid st H). simpl.
    unfold Cart.total, Cart.shipping, Cart.subtotal. simpl.
    destruct (gt _ 500); lra.
Qed.

Lemma applyDiscount_twice_witness :
  Cart.total
    (fst (Cart.applyDiscount
            (Cart.setDiscountCode
               "SAVE10" (Cart.setCart [lamps 300 2] Cart.initial))))
  == Cart.subtotal (Cart.setDiscountCode
                      "SAVE10" (Cart.setCart [lamps 300 2] Cart.initial)) * 0.9
     + Cart.shipping (Cart.setDiscountCode
                        "SAVE10" (Cart.setCart [lamps 300 2] Cart.initial)).
Proof.
  apply (proj2 (applyDiscount_twice
                  (Cart.setDiscountCode
                     "SAVE10" (Cart.setCart [lamps 300 2] Cart.initial)))).
  reflexivity.
Defined.

(** ** Checkout page *)

Lemma order_request_lines (st : Checkout.State) a :
  map line_product_id (items (Checkout.order_request st a))
  = map product_id (Checkout.cart st)
  /\ map line_quantity (items (Checkout.order_request st a))
     = map quantity (Checkout.cart st).
Proof.
  unfold Checkout.order_request. simpl. rewrite !map_map. split; reflexivity.
Qed.

(** X6. When [placeOrder] runs with an address selected: the creation
    request lists the cart's product ids and quantities in cart order,
    with the selected address and payment method; the payment call is
    made exactly when the creation succeeded, and for the id it
    returned; the page moves on to the order's tracking route exactly
    when both calls succeeded; every run ends with exactly one toast and
    with the loading flag off and nothing else changed. *)
Theorem placeOrder_protocol (st : Checkout.State) a create payment :
  Checkout.selectedAddress st = Some a ->
  fst (Checkout.placeOrder create payment st) = Checkout.setLoading false st
  /\ (exists body rest,
         snd (Checkout.placeOrder create payment st)
         = Call (PostOrdersCreate body) :: rest
         /\ map line_product_id (items body) = map product_id (Checkout.cart st)
         /\ map line_quantity (items body) = map quantity (Checkout.cart st)
         /\ shipping_address body = a
         /\ payment_method body = Checkout.paymentMethod st)
  /\ (forall oid,
         In (Call (PostPayment oid)) (snd (Checkout.placeOrder create payment st))
         <-> create = Resolved oid)
  /\ (forall path,
         In (Navigate path) (snd (Checkout.placeOrder create payment st))
         <-> exists oid, create = Resolved oid /\ payment = Resolved tt
                         /\ path = ("/orders/" ++ oid)%string)
  /\ List.length (filter is_toast (snd (Checkout.placeOrder create payment st)))
     = 1%nat.
Proof.
  intros Ha. unfold Checkout.placeOrder. rewrite Ha. simpl.
  split; [reflexivity|]. split.
  - eexists. eexists. split; [reflexivity|].
    destruct (order_request_lines st a) as [H1 H2].
    repeat split; assumption.
  - destruct create as [oid|d]; [destruct payment as [[]|d]|]; simpl;
      (split; [|split]; [| |reflexivity]).
    + intros o. split.
      * intros [H|[H|[H|[H|[]]]]]; try discriminate H.
        injection H as ->. reflexivity.
      * intros H. injection H as ->. right. left. reflexivity.
    + intros path. split.
      * intros [H|[H|[H|[H|[]]]]]; try discriminate H.
        injection H as <-. exists oid. repeat split.
      * intros (o & H & _ & ->). injection H as ->.
        right. right. right. left. reflexivity.
    + intros o. split.
      * intros [H|[H|[H|[]]]]; try discriminate H.
        injection H as ->. reflexivity.
      * intros H. injection H as ->. right. left. reflexivity.
    + intros path. split.
      * intros [H|[H|[H|[]]]]; discriminate H.
      * intros (o & _ & H & _). discriminate H.
    + intros o. split.
      * intros [H|[H|[]]]; discriminate H.
      * intros H. discriminate H.
    + intros path. split.
      * intros [H|[H|[]]]; discriminate H.
      * intros (o & H & _). discriminate H.
Qed.

Lemma placeOrder_protocol_witness :
  fst (Checkout.placeOrder (Resolved "o-17"%string) (Rejected None)
                           (checkout_with [lamps 300 2] (Some home_address)))
  = Checkout.setLoading false
      (checkout_with [lamps 300 2] (Some home_address)).
Proof.
  apply (placeOrder_protocol
           (checkout_with [lamps 300 2] (Some home_address)) home_address).
  reflexivity.
Defined.

Lemma sum_of_lines_nonneg (l : list CartItem) :
  nonneg_lines l -> 0 <= sum_of_lines l.
Proof.
  induction 1 as [|item l [Hp Hq] _ IH]; simpl.
  - lra.
  - unfold line_total.
    assert (0 <= price (product item) * quantity item)
      by (apply Qmult_le_0_compat; assumption).
    lra.
Qed.

(** X7. If no price and no quantity in the cart is negative, then on the
    checkout page the subtotal is not negative, the discount lies
    between 0 and the subtotal, and the total is at least 50 and at most
    the subtotal plus 50. *)
Theorem checkout_total_bounds (st : Checkout.State) :
  nonneg_lines (Checkout.cart st) ->
  0 <= Checkout.subtotal st
  /\ 0 <= Checkout.discount st
  /\ Checkout.discount st <= Checkout.subtotal st
  /\ 50 <= Checkout.total st
  /\ Checkout.total st <= Checkout.subtotal st + 50.
Proof.
  intros Hl. apply sum_of_lines_nonneg in Hl.
  rewrite <- checkout_subtotal_sum in Hl.
  unfold Checkout.total, Checkout.discount, Checkout.shipping.
  destruct (gt (Checkout.subtotal st) 500) eqn:E.
  - apply gt_true_iff in E. repeat split; lra.
  - repeat split; lra.
Qed.

Lemma checkout_total_bounds_witness :
  50 <= Checkout.total (checkout_with [lamps 300 2] (Some home_address)).
Proof.
  apply (checkout_total_bounds
           (checkout_with [lamps 300 2] (Some home_address))).
  repeat constructor; discriminate.
Defined.

Lemma find_by_unique_id (l : list SavedAddress) (row : nat) addr :
  NoDup (map id l) ->
  nth_error l row = Some addr ->
  find (fun a => String.eqb (id a) (id addr)) l = Some addr.
Proof.
  revert row. induction l as [|x l IH]; intros row Hnd Hrow.
  - destruct row; discriminate Hrow.
  - simpl in Hnd. inversion Hnd as [|? ? Hnotin Hnd']; subst.
    destruct row as [|row]; simpl in *.
    + injection Hrow as ->. rewrite String.eqb_refl. reflexivity.
    + destruct (String.eqb_spec (id x) (id addr)) as [Heq|Hne].
      * exfalso. apply Hnotin. rewrite Heq.
        apply in_map, (nth_error_In _ _ Hrow).
      * apply (IH row Hnd' Hrow).
Qed.

(** X8. When the saved addresses have pairwise different ids, choosing
    an address through its radio button (which looks the address up by
    id) and clicking its row (which takes the row's address) do the
    same. *)
Theorem radio_agrees_with_row_click (st : Checkout.State) (row : nat) :
  NoDup (map id (Checkout.addresses st)) ->
  Checkout.step st (Checkout.PickAddressRadio row)
  = Checkout.step st (Checkout.ClickAddress row).
Proof.
  intros Hnd. simpl.
  destruct (nth_error (Checkout.addresses st) row) as [addr|] eqn:Hrow;
    [|reflexivity].
  rewrite (find_by_unique_id _ _ _ Hnd Hrow). reflexivity.
Qed.

Lemma radio_agrees_with_row_click_witness :
  Checkout.step
    (Checkout.setAddresses two_address_book
                           (checkout_with [lamps 300 2] None))
    (Checkout.PickAddressRadio 1)
  = Checkout.step
      (Checkout.setAddresses two_address_book
                             (checkout_with [lamps 300 2] None))
      (Checkout.ClickAddress 1).
Proof.
  apply radio_agrees_with_row_click.
  repeat constructor; simpl; intuition discriminate.
Defined.

Lemma address_complete_fields (a : Address) :
  Checkout.address_complete a = true ->
  full_name a <> ""%string /\ phone a <> ""%string
  /\ address_line a <> ""%string /\ city a <> ""%string
  /\ state a <> ""%string /\ pincode a <> ""%string.
Proof.
  unfold Checkout.address_complete. rewrite !andb_true_iff, !negb_true_iff.
  intros (((((H1 & H2) & H3) & H4) & H5) & H6).
  repeat split; apply String.eqb_neq; assumption.
Qed.

(** X9. Whatever happens on the checkout page, an address is only ever
    posted from the open address dialog, it is the address typed into
    the form, and none of its six text fields is empty. *)
Theorem posted_address_is_complete (st st' : Checkout.State) ev fx a :
  Checkout.step st ev = Some (st', fx) ->
  In (Call (PostAddress a)) fx ->
  a = Checkout.newAddress st
  /\ Checkout.showAddressDialog st = true
  /\ full_name a <> ""%string /\ phone a <> ""%string
  /\ address_line a <> ""%string /\ city a <> ""%string
  /\ state a <> ""%string /\ pincode a <> ""%string.
Proof.
  intros Hstep Hin. destruct ev; simpl in Hstep.
  - destruct res as [[c [[|x l]|]]|d]; injection Hstep as _ <-; destruct Hin.
  - destruct (Checkout.on_page st); [|discriminate].
    injection Hstep as _ <-. destruct Hin.
  - destruct (_ && _); [|discriminate].
    injection Hstep as _ <-. destruct Hin.
  - destruct (Checkout.on_page st); [|discriminate]. simpl in Hstep.
    destruct (Checkout.showAddressDialog st) eqn:Hd; [|discriminate].
    simpl in Hstep.
    destruct (Checkout.address_complete (Checkout.newAddress st)) eqn:Hc;
      [|discriminate].
    assert (Ha : a = Checkout.newAddress st).
    { destruct res; injection Hstep as _ <-; simpl in Hin.
      - destruct Hin as [H|[H|[H|[H|[]]]]]; try discriminate H.
        injection H as <-. reflexivity.
      - destruct Hin as [H|[H|[]]]; try discriminate H.
        injection H as <-. reflexivity. }
    subst a. split; [reflexivity|]. split; [reflexivity|].
    apply address_complete_fields, Hc.
  - destruct (nth_error _ _); [|discriminate].
    destruct (Checkout.on_page st); [|discriminate].
    injection Hstep as _ <-. destruct Hin.
  - destruct (nth_error _ _); [|discriminate].
    destruct (Checkout.on_page st); [|discriminate].
    injection Hstep as _ <-. destruct Hin.
  - destruct (_ && _); [|discriminate].
    injection Hstep as _ <-. destruct Hin.
  - destruct (Checkout.place_order_enabled st); [|discriminate].
    injection Hstep as Hpo.
    assert (Hfx : fx = snd (Checkout.placeOrder create payment st))
      by (rewrite Hpo; reflexivity).
    subst fx. clear Hpo. unfold Checkout.placeOrder in Hin.
    destruct (Checkout.selectedAddress st).
    + destruct create; [destruct payment|]; simpl in Hin;
        repeat (destruct Hin as [Hin|Hin]; [discriminate Hin|]);
        destruct Hin.
    + destruct Hin as [H|[]]. discriminate H.
Qed.

Lemma posted_address_is_complete_witness :
  fields home_address
  = Checkout.newAddress
      (Checkout.setNewAddress
         (fields home_address)
         (Checkout.setShowAddressDialog
            true (checkout_with [lamps 300 2] None))).
Proof.
  apply (posted_address_is_complete
           (Checkout.setNewAddress
              (fields home_address)
              (Checkout.setShowAddressDialog
                 true (checkout_with [lamps 300 2] None)))
           (Checkout.setNewAddress
              (fields home_address)
              (Checkout.setShowAddressDialog
                 true (checkout_with [lamps 300 2] None)))
           (Checkout.SubmitAddress (Rejected None))
           [Call (PostAddress (fields home_address));
            ToastError "Failed to add address"]).
  - reflexivity.
  - left. reflexivity.
Defined.

Lemma detail_or_has_text (detail : option string) (fallback : string) :
  fallback <> ""%string -> detail_or detail fallback <> ""%string.
Proof.
  intros Hf. unfold detail_or. destruct detail as [d|]; [|exact Hf].
  destruct (String.eqb_spec d ""); assumption.
Qed.

(** X10. The error toasts of [placeOrder] and of [requestReturn] never
    come up empty: a rejection that carries a non-empty detail shows that
    detail, any other rejection shows the fixed fallback text. *)
Theorem error_toasts_have_text :
  (forall st create payment msg,
      In (ToastError msg) (snd (Checkout.placeOrder create payment st)) ->
      msg <> ""%string)
  /\ (forall st res msg,
         In (ToastError msg) (snd (OrderTracking.requestReturn res st)) ->
         msg <> ""%string)
  /\ (forall st a payment d,
         Checkout.selectedAddress st = Some a -> d <> ""%string ->
         In (ToastError d)
            (snd (Checkout.placeOrder (Rejected (Some d)) payment st)))
  /\ (forall st d,
         d <> ""%string ->
         In (ToastError d)
            (snd (OrderTracking.requestReturn (Rejected (Some d)) st))).
Proof.
  split; [|split; [|split]].
  - intros st create payment msg. unfold Checkout.placeOrder.
    destruct (Checkout.selectedAddress st).
    + destruct create; [destruct payment|]; simpl; intros Hin;
        repeat (destruct Hin as [Hin|Hin];
                [try discriminate Hin; injection Hin as <-;
                 apply detail_or_has_text; discriminate|]);
        destruct Hin.
    + simpl. intros [H|[]]. injection H as <-. discriminate.
  - intros st res msg. destruct res; simpl; intros Hin;
      repeat (destruct Hin as [Hin|Hin];
              [try discriminate Hin; injection Hin as <-;
               apply detail_or_has_text; discriminate|]);
      destruct Hin.
  - intros st a payment d Ha Hd. unfold Checkout.placeOrder. rewrite Ha.
    simpl. right. left. f_equal.
    destruct (String.eqb_spec d ""); [contradiction|reflexivity].
  - intros st d Hd. simpl. right. left. f_equal.
    destruct (String.eqb_spec d ""); [contradiction|reflexivity].
Qed.

Lemma error_toasts_have_text_witness :
  In (ToastError "Out of stock")
     (snd (Checkout.placeOrder
             (Rejected (Some "Out of stock"%string)) (Resolved tt)
             (checkout_with [lamps 300 2] (Some home_address)))).
Proof.
  apply (proj1 (proj2 (proj2 error_toasts_have_text))
               (checkout_with [lamps 300 2] (Some home_address))
               home_address).
  - reflexivity.
  - discriminate.
Defined.

(** ** Order tracking page *)

(** The lookup either misses all five keys, or hits the first position
    that holds the status. *)
Lemma getStatusIndex_cases (s : string) :
  (OrderTracking.getStatusIndex s = (-1)%Z
   /\ ~ In s (map OrderTracking.key OrderTracking.orderStatuses))
  \/ (exists k, (k < 5)%nat
                /\ OrderTracking.getStatusIndex s = Z.of_nat k
                /\ nth_error (map OrderTracking.key OrderTracking.orderStatuses) k
                   = Some s).
Proof.
  unfold OrderTracking.getStatusIndex, findIndex.
  cbv beta iota delta [findIndex_from OrderTracking.orderStatuses
                       OrderTracking.key map].
  destruct (String.eqb_spec "ordered" s) as [<-|H0];
    [right; exists 0%nat; repeat split; lia|].
  destruct (String.eqb_spec "processed" s) as [<-|H1];
    [right; exists 1%nat; repeat split; lia|].
  destruct (String.eqb_spec "shipped" s) as [<-|H2];
    [right; exists 2%nat; repeat split; lia|].
  destruct (String.eqb_spec "out_for_delivery" s) as [<-|H3];
    [right; exists 3%nat; repeat split; lia|].
  destruct (String.eqb_spec "delivered" s) as [<-|H4];
    [right; exists 4%nat; repeat split; lia|].
  left. split; [reflexivity|]. intros [H|[H|[H|[H|[H|[]]]]]]; congruence.
Qed.

Lemma status_keys_distinct :
  NoDup (map OrderTracking.key OrderTracking.orderStatuses).
Proof.
  simpl. repeat constructor; simpl; intuition discriminate.
Qed.

(** X11. Looking a status up and reading the stage list back agree: the
    lookup answers [k] exactly when position [k] of the five-stage list
    holds that status, and answers -1 exactly when the status is none of
    the five; no other answer occurs. *)
Theorem status_index_round_trip (s : string) :
  (forall k : nat,
      OrderTracking.getStatusIndex s = Z.of_nat k
      <-> nth_error (map OrderTracking.key OrderTracking.orderStatuses) k
          = Some s)
  /\ (OrderTracking.getStatusIndex s = (-1)%Z
      <-> ~ In s (map OrderTracking.key OrderTracking.orderStatuses))
  /\ (-1 <= OrderTracking.getStatusIndex s <= 4)%Z.
Proof.
  destruct (getStatusIndex_cases s) as [[Hidx Hnot]|(k & Hk & Hidx & Hnth)].
  - split; [|split].
    + intros j. split.
      * intros H. rewrite Hidx in H. lia.
      * intros H. exfalso. apply Hnot. apply (nth_error_In _ _ H).
    + tauto.
    + lia.
  - split; [|split].
    + intros j. split.
      * intros H. rewrite Hidx in H. apply Nat2Z.inj in H. subst j. exact Hnth.
      * intros H. rewrite Hidx. f_equal.
        pose proof status_keys_distinct as Hnd.
        rewrite NoDup_nth_error in Hnd. apply Hnd.
        -- apply nth_error_Some. rewrite Hnth. discriminate.
        -- congruence.
    + split.
      * intros H. rewrite Hidx in H. lia.
      * intros H. exfalso. apply H. apply (nth_error_In _ _ Hnth).
    + lia.
Qed.

Lemma status_index_round_trip_witness :
  OrderTracking.getStatusIndex "out_for_delivery" = 3%Z
  /\ OrderTracking.getStatusIndex "refunded" = (-1)%Z.
Proof.
  split.
  - apply (proj1 (status_index_round_trip "out_for_delivery") 3%nat).
    reflexivity.
  - apply (proj1 (proj2 (status_index_round_trip "refunded"))).
    simpl. intuition discriminate.
Defined.

(** X12. For every status string, listed or not, the completed circles
    of the timeline are the first [index + 1] of the five and the rest
    are pending; exactly one circle carries the in-progress ring when
    the status is one of the five, and none does otherwise. *)
Theorem timeline_completed_prefix (s : string) :
  let idx := OrderTracking.getStatusIndex s in
  map OrderTracking.isCompleted (OrderTracking.timeline idx)
  = repeat true (Z.to_nat (idx + 1)) ++ repeat false (5 - Z.to_nat (idx + 1))
  /\ List.length (filter OrderTracking.isCompleted (OrderTracking.timeline idx))
     = Z.to_nat (idx + 1)
  /\ List.length (filter OrderTracking.isCurrent (OrderTracking.timeline idx))
     = (if (idx =? -1)%Z then 0 else 1)%nat.
Proof.
  simpl.
  destruct (getStatusIndex_cases s) as [[Hidx _]|(k & Hk & Hidx & _)];
    rewrite Hidx.
  - repeat split.
  - do 5 (destruct k as [|k]; [repeat split|]). lia.
Qed.

(** X13. The progress line of the timeline is 25 percent wide per stage
    reached: 0, 25, 50, 75 or 100 for the five listed statuses.  For any
    other status, cancelled and return_requested included, the computed
    width is -25 percent. *)
Theorem progress_width_values (s : string) :
  (forall k : nat,
      nth_error (map OrderTracking.key OrderTracking.orderStatuses) k = Some s ->
      OrderTracking.progress_width (OrderTracking.getStatusIndex s)
      == 25 * inject_Z (Z.of_nat k)
      /\ 0 <= OrderTracking.progress_width (OrderTracking.getStatusIndex s)
      /\ OrderTracking.progress_width (OrderTracking.getStatusIndex s) <= 100)
  /\ (~ In s (map OrderTracking.key OrderTracking.orderStatuses) ->
      OrderTracking.progress_width (OrderTracking.getStatusIndex s) == -25).
Proof.
  split.
  - intros k Hk.
    assert (Hidx : OrderTracking.getStatusIndex s = Z.of_nat k).
    { do 5 (destruct k as [|k]; [injection Hk as <-; reflexivity |]).
      destruct k; discriminate Hk. }
    rewrite Hidx.
    do 5 (destruct k as [|k];
          [repeat split; intros H; discriminate H|]).
    destruct k; discriminate Hk.
  - intros Hnot. rewrite (getStatusIndex_unlisted s Hnot). reflexivity.
Qed.

Lemma progress_width_values_witness :
  OrderTracking.progress_width (OrderTracking.getStatusIndex "shipped") == 50
  /\ OrderTracking.progress_width (OrderTracking.getStatusIndex "cancelled")
     == -25.
Proof.
  split.
  - apply (proj1 (progress_width_values "shipped") 2%nat). reflexivity.
  - apply (proj2 (progress_width_values "cancelled")).
    simpl. intuition discriminate.
Defined.

(** X14. On the tracking page the Request Return button is there
    exactly for a delivered order and the "return request submitted"
    notice exactly for an order whose status is return_requested; the
    two never appear together, and the reason form is only ever open
    when the button is there. *)
Theorem return_controls_rule (st : OrderTracking.State) o t :
  OrderTracking.render st = OrderTracking.Page o t ->
  (OrderTracking.return_option t = true
   <-> OrderTracking.status o = "delivered"%string)
  /\ (OrderTracking.return_notice t = true
      <-> OrderTracking.status o = "return_requested"%string)
  /\ OrderTracking.return_option t && OrderTracking.return_notice t = false
  /\ (OrderTracking.return_form t = true ->
      OrderTracking.return_option t = true
      /\ OrderTracking.showReturnDialog st = true).
Proof.
  unfold OrderTracking.render.
  destruct (OrderTracking.loading st); [discriminate|].
  destruct (OrderTracking.order st) as [o'|]; [|discriminate].
  intros H. injection H as <- <-. simpl.
  destruct (String.eqb_spec (OrderTracking.status o') "delivered") as [Hd|Hd];
    destruct (String.eqb_spec (OrderTracking.status o') "return_requested")
    as [Hr|Hr]; simpl.
  - rewrite Hd in Hr. discriminate Hr.
  - repeat split; try tauto; try discriminate.
  - repeat split; try tauto; try discriminate.
  - repeat split; try tauto; try discriminate.
Qed.

Lemma return_controls_rule_witness :
  OrderTracking.return_option
    {| OrderTracking.stages := OrderTracking.timeline 4;
       OrderTracking.width := OrderTracking.progress_width 4;
       OrderTracking.return_option := true;
       OrderTracking.return_form := false;
       OrderTracking.return_notice := false |} = true
  <-> "delivered"%string = "delivered"%string.
Proof.
  apply (proj1 (return_controls_rule
                  (tracking_of "delivered" "" false) _ _ eq_refl)).
Defined.

(** X15. One opening of the return dialog sends at most one accepted
    request: after a submission the server accepted, the dialog is
    closed, the order is fetched again, and submitting or typing is
    refused until the dialog is opened anew; once the fetched order is
    no longer delivered the dialog cannot be opened either.  After a
    rejected submission the page state is exactly as before, so the same
    request can be sent again. *)
Theorem return_submitted_once (st st' : OrderTracking.State) res fx :
  OrderTracking.step st (OrderTracking.SubmitReturn res) = Some (st', fx) ->
  match res with
  | Resolved _ =>
      OrderTracking.showReturnDialog st' = false
      /\ In (Call (GetOrder (OrderTracking.route_id st))) fx
      /\ (forall res', OrderTracking.step st' (OrderTracking.SubmitReturn res')
                       = None)
      /\ (forall v, OrderTracking.step st' (OrderTracking.TypeReason v) = None)
      /\ (forall o',
             OrderTracking.status o' <> "delivered"%string ->
             let st'' :=
               fst (OrderTracking.fetchOrder_settled (Resolved o') st') in
             (forall open,
                 OrderTracking.step st'' (OrderTracking.OpenReturnDialog open)
                 = None)
             /\ (forall v,
                    OrderTracking.step st'' (OrderTracking.TypeReason v) = None)
             /\ (forall r,
                    OrderTracking.step st'' (OrderTracking.SubmitReturn r)
                    = None))
  | Rejected _ =>
      st' = st
      /\ OrderTracking.step st' (OrderTracking.SubmitReturn res) = Some (st', fx)
  end.
Proof.
  intros Hstep. pose proof Hstep as Hcopy. simpl in Hstep.
  destruct (OrderTracking.return_form_shown st) eqn:Hform; [|discriminate].
  destruct (negb _); [|discriminate]. simpl in Hstep.
  destruct res as [u|d]; injection Hstep as <- <-.
  - assert (Hclosed : forall st1,
               OrderTracking.showReturnDialog st1 = false ->
               OrderTracking.return_form_shown st1 = false).
    { intros st1 H1. unfold OrderTracking.return_form_shown,
                       OrderTracking.render.
      destruct (OrderTracking.loading st1); [reflexivity|].
      destruct (OrderTracking.order st1); [|reflexivity].
      simpl. rewrite H1. apply andb_false_r. }
    split; [reflexivity|]. split; [right; right; left; reflexivity|].
    split; [|split].
    + intros res'. simpl OrderTracking.step.
      rewrite (Hclosed (OrderTracking.setShowReturnDialog false st) eq_refl).
      reflexivity.
    + intros v. simpl OrderTracking.step.
      rewrite (Hclosed (OrderTracking.setShowReturnDialog false st) eq_refl).
      reflexivity.
    + intros o' Hs. simpl fst.
      destruct (return_controls_hidden
                  (OrderTracking.setLoading
                     false
                     (OrderTracking.setOrder
                        (Some o') (OrderTracking.setShowReturnDialog false st)))
                  o' eq_refl Hs) as [Hopt Hfrm].
      split; [|split]; intros x; simpl OrderTracking.step.
      * rewrite Hopt. reflexivity.
      * rewrite Hfrm. reflexivity.
      * rewrite Hfrm. reflexivity.
  - split; [reflexivity|]. exact Hcopy.
Qed.

Lemma return_submitted_once_witness :
  OrderTracking.setShowReturnDialog
    false (tracking_of "delivered" "arrived broken" true)
  <> tracking_of "delivered" "arrived broken" true
  /\ OrderTracking.showReturnDialog
       (OrderTracking.setShowReturnDialog
          false (tracking_of "delivered" "arrived broken" true)) = false.
Proof.
  split; [discriminate|].
  apply (return_submitted_once
           (tracking_of "delivered" "arrived broken" true)
           (OrderTracking.setShowReturnDialog
              false (tracking_of "delivered" "arrived broken" true))
           (Resolved tt)
           [Call (PostReturnsCreate "o-17" "arrived broken");
            ToastSuccess "Return request submitted!";
            Call (GetOrder "o-17")]).
  reflexivity.
Defined.

(** * Properties of the further pages *)

(** ** Product page *)

Lemma Math_max_bounds (q : Q) :
  1 <= Math_max 1 (q - 1) /\ (1 <= q -> Math_max 1 (q - 1) <= q).
Proof.
  unfold Math_max.
  destruct (Q.max_spec 1 (q - 1)) as [[Hlt Heq]|[Hle Heq]]; rewrite Heq;
    split; intros; lra.
Qed.

Lemma Math_min_bounds (s q : Q) :
  Math_min s (q + 1) <= s /\ (1 <= s -> 1 <= q -> 1 <= Math_min s (q + 1)).
Proof.
  unfold Math_min.
  destruct (Q.min_spec s (q + 1)) as [[Hlt Heq]|[Hle Heq]]; rewrite Heq;
    split; intros; lra.
Qed.

Lemma buyable_product props st p :
  ProductDetail.buyable props st = Some p ->
  ProductDetail.product st = Some p /\ 0 < Catalog.stock p.
Proof.
  unfold ProductDetail.buyable, ProductDetail.render.
  destruct (ProductDetail.loading st); [discriminate|].
  destruct (ProductDetail.product st) as [p'|]; [|discriminate]. simpl.
  destruct (gt (Catalog.stock p') 0) eqn:E; [|discriminate].
  intros H. injection H as <-. split; [reflexivity|].
  apply gt_true_iff, E.
Qed.

Lemma quantity_fits_step props s st st' ev fx :
  1 <= s ->
  ProductDetail.stock_stays s [ev] ->
  quantity_fits s st ->
  ProductDetail.step props st ev = Some (st', fx) ->
  quantity_fits s st'.
Proof.
  intros Hs Hev (Hlo & Hhi & Hp) Hstep.
  apply Forall_inv in Hev.
  destruct ev; simpl in Hstep.
  - destruct res as [p|d]; injection Hstep as <- _; repeat split;
      simpl; try assumption.
    intros p' Heq. injection Heq as <-. exact Hev.
  - destruct res; injection Hstep as <- _; repeat split; assumption.
  - destruct (ProductDetail.buyable props st); [|discriminate].
    injection Hstep as <- _.
    destruct (Math_max_bounds (ProductDetail.quantity st)) as [H1 H2].
    repeat split; simpl; [exact H1 | specialize (H2 Hlo); lra | exact Hp].
  - destruct (ProductDetail.buyable props st) as [p|] eqn:Hb; [|discriminate].
    injection Hstep as <- _.
    apply buyable_product in Hb. destruct Hb as [Hprod _].
    specialize (Hp p Hprod) as Hstock.
    destruct (Math_min_bounds (Catalog.stock p) (ProductDetail.quantity st))
      as [H1 H2].
    repeat split; simpl.
    + apply H2; [rewrite Hstock; exact Hs | exact Hlo].
    + rewrite <- Hstock. exact H1.
    + exact Hp.
  - destruct (ProductDetail.buyable props st); [|discriminate].
    unfold ProductDetail.addToCart in Hstep.
    destruct (ProductDetail.user props); [destruct res|];
      injection Hstep as <- _; repeat split; assumption.
  - destruct (ProductDetail.buyable props st); [|discriminate].
    unfold ProductDetail.addToWishlist in Hstep.
    destruct (ProductDetail.user props); [destruct res|];
      injection Hstep as <- _; repeat split; assumption.
  - destruct (_ && _); [|discriminate].
    injection Hstep as <- _; repeat split; assumption.
  - destruct (ProductDetail.review_form_shown props st); [|discriminate].
    injection Hstep as <- _; repeat split; assumption.
  - destruct (_ && _); [|discriminate].
    unfold ProductDetail.submitReview in Hstep.
    destruct (ProductDetail.user props); [destruct res|];
      injection Hstep as <- _; repeat split; assumption.
Qed.

Lemma quantity_fits_run props s evs :
  1 <= s ->
  forall st st',
    ProductDetail.stock_stays s evs ->
    quantity_fits s st ->
    ProductDetail.run props st evs = Some st' ->
    quantity_fits s st'.
Proof.
  intros Hs. induction evs as [|ev evs IH]; intros st st' Hevs Hfit Hrun.
  - injection Hrun as <-. exact Hfit.
  - simpl in Hrun.
    destruct (ProductDetail.step props st ev) as [[st1 fx]|] eqn:Hstep;
      [|discriminate].
    inversion Hevs as [|? ? Hev Hrest]; subst.
    apply (IH st1 st' Hrest); [|exact Hrun].
    apply (quantity_fits_step props s st st1 ev fx Hs); auto.
    constructor; [exact Hev | constructor].
Qed.

(** X16. On the product page, while the product's stock stays at a
    value [s] of at least 1, the selected quantity stays between 1 and
    [s] through every sequence of clicks and refreshes, and a request to
    add to the cart names the page's product and a quantity between 1
    and [s]. *)
Theorem selected_quantity_in_range
        (props : ProductDetail.Props) (s : Q)
        (evs : list ProductDetail.Event) (st : ProductDetail.State) :
  1 <= s ->
  ProductDetail.stock_stays s evs ->
  ProductDetail.run props ProductDetail.initial evs = Some st ->
  1 <= ProductDetail.quantity st
  /\ ProductDetail.quantity st <= s
  /\ forall ev st' fx pid q,
      ProductDetail.step props st ev = Some (st', fx) ->
      In (Send (ProductDetail.PostCartAdd pid q)) fx ->
      pid = ProductDetail.id props /\ 1 <= q /\ q <= s.
Proof.
  intros Hs Hevs Hrun.
  assert (Hfit : quantity_fits s st).
  { apply (quantity_fits_run props s evs Hs ProductDetail.initial st Hevs);
      [|exact Hrun].
    repeat split; simpl; [lra | exact Hs | discriminate]. }
  destruct Hfit as (Hlo & Hhi & _).
  split; [exact Hlo|]. split; [exact Hhi|].
  intros ev st' fx pid q Hstep Hin.
  assert (Hq : pid = ProductDetail.id props /\ q = ProductDetail.quantity st).
  { destruct ev; simpl in Hstep.
    - destruct res; injection Hstep as _ <-;
        repeat (destruct Hin as [Hin|Hin]; [discriminate Hin|]); destruct Hin.
    - destruct res; injection Hstep as _ <-; destruct Hin.
    - destruct (ProductDetail.buyable props st); [|discriminate].
      injection Hstep as _ <-; destruct Hin.
    - destruct (ProductDetail.buyable props st); [|discriminate].
      injection Hstep as _ <-; destruct Hin.
    - destruct (ProductDetail.buyable props st); [|discriminate].
      unfold ProductDetail.addToCart in Hstep.
      destruct (ProductDetail.user props); [destruct res|];
        injection Hstep as _ <-;
        repeat (destruct Hin as [Hin|Hin];
                [try discriminate Hin; injection Hin as <- <-;
                 split; reflexivity|]);
        destruct Hin.
    - destruct (ProductDetail.buyable props st); [|discriminate].
      unfold ProductDetail.addToWishlist in Hstep.
      destruct (ProductDetail.user props); [destruct res|];
        injection Hstep as _ <-;
        repeat (destruct Hin as [Hin|Hin]; [discriminate Hin|]); destruct Hin.
    - destruct (_ && _); [|discriminate].
      injection Hstep as _ <-; destruct Hin.
    - destruct (ProductDetail.review_form_shown props st); [|discriminate].
      injection Hstep as _ <-; destruct Hin.
    - destruct (_ && _); [|discriminate].
      unfold ProductDetail.submitReview in Hstep.
      destruct (ProductDetail.user props); [destruct res|];
        injection Hstep as _ <-;
        repeat (destruct Hin as [Hin|Hin]; [discriminate Hin|]); destruct Hin. }
  destruct Hq as [-> ->]. repeat split; assumption.
Qed.

Lemma selected_quantity_in_range_witness :
  1 <= Math_min 3 (Math_min 3 (Math_min 3 (1 + 1) + 1) + 1)
  /\ Math_min 3 (Math_min 3 (Math_min 3 (1 + 1) + 1) + 1) <= 3.
Proof.
  pose proof (selected_quantity_in_range
                (bulb_page (Some shopper)) 3
                [ProductDetail.ProductFetched (Resolved bulb);
                 ProductDetail.ClickIncrease; ProductDetail.ClickIncrease;
                 ProductDetail.ClickIncrease]
                (ProductDetail.setQuantity
                   (Math_min 3 (Math_min 3 (Math_min 3 (1 + 1) + 1) + 1))
                   (ProductDetail.setLoading
                      false
                      (ProductDetail.setProduct
                         (Some bulb) ProductDetail.initial)))) as H.
  assert (H1 : 1 <= 3) by (intros E; discriminate E).
  assert (H2 : ProductDetail.stock_stays
                 3 [ProductDetail.ProductFetched (Resolved bulb);
                    ProductDetail.ClickIncrease; ProductDetail.ClickIncrease;
                    ProductDetail.ClickIncrease]).
  { repeat constructor. }
  destruct (H H1 H2 eq_refl) as (Hlo & Hhi & _).
  split; [exact Hlo | exact Hhi].
Defined.

(** X17. Without a signed-in user the product page sends nothing to
    the server, whatever is clicked: Add to Cart and the wishlist button
    leave the page as it is and lead to the sign-in route, and the
    review form is not there to be submitted ([submitReview] itself would
    only show its please-login message). *)
Theorem guest_sends_nothing (props : ProductDetail.Props)
        (st : ProductDetail.State) :
  ProductDetail.user props = None ->
  (forall ev st' fx,
      ProductDetail.step props st ev = Some (st', fx) ->
      existsb sends fx = false)
  /\ (forall ev st' fx,
         ProductDetail.step props st ev = Some (st', fx) ->
         (exists res, ev = ProductDetail.ClickAddToCart res
                      \/ ev = ProductDetail.ClickWishlist res) ->
         st' = st /\ In (Go "/auth") fx)
  /\ (forall res star v,
         ProductDetail.step props st (ProductDetail.SubmitReview res) = None
         /\ ProductDetail.step props st (ProductDetail.ClickStar star) = None
         /\ ProductDetail.step props st (ProductDetail.TypeComment v) = None)
  /\ (forall res,
         ProductDetail.submitReview props res st
         = (st, [Toast_error "Please login to submit a review"])).
Proof.
  intros Hu.
  assert (Hform : ProductDetail.review_form_shown props st = false).
  { unfold ProductDetail.review_form_shown, ProductDetail.render.
    destruct (ProductDetail.loading st); [reflexivity|].
    destruct (ProductDetail.product st); [|reflexivity].
    simpl. rewrite Hu. reflexivity. }
  split; [|split; [|split]].
  - intros ev st' fx Hstep. destruct ev; simpl in Hstep.
    + destruct res; injection Hstep as _ <-; reflexivity.
    + destruct res; injection Hstep as _ <-; reflexivity.
    + destruct (ProductDetail.buyable props st); [|discriminate].
      injection Hstep as _ <-; reflexivity.
    + destruct (ProductDetail.buyable props st); [|discriminate].
      injection Hstep as _ <-; reflexivity.
    + destruct (ProductDetail.buyable props st); [|discriminate].
      unfold ProductDetail.addToCart in Hstep. rewrite Hu in Hstep.
      injection Hstep as _ <-; reflexivity.
    + destruct (ProductDetail.buyable props st); [|discriminate].
      unfold ProductDetail.addToWishlist in Hstep. rewrite Hu in Hstep.
      injection Hstep as _ <-; reflexivity.
    + rewrite Hform in Hstep. discriminate Hstep.
    + rewrite Hform in Hstep. discriminate Hstep.
    + rewrite Hform in Hstep. discriminate Hstep.
  - intros ev st' fx Hstep [res [-> | ->]]; simpl in Hstep;
      (destruct (ProductDetail.buyable props st); [|discriminate]).
    + unfold ProductDetail.addToCart in Hstep. rewrite Hu in Hstep.
      injection Hstep as <- <-. split; [reflexivity|]. right. left. reflexivity.
    + unfold ProductDetail.addToWishlist in Hstep. rewrite Hu in Hstep.
      injection Hstep as <- <-. split; [reflexivity|]. right. left. reflexivity.
  - intros res star v. simpl. rewrite Hform. repeat split.
  - intros res. unfold ProductDetail.submitReview. rewrite Hu. reflexivity.
Qed.

Lemma guest_sends_nothing_witness :
  ProductDetail.step
    (bulb_page None)
    (ProductDetail.setLoading
       false (ProductDetail.setProduct (Some bulb) ProductDetail.initial))
    (ProductDetail.SubmitReview (Resolved tt)) = None.
Proof.
  apply (proj1 (proj2 (proj2 (guest_sends_nothing
                                (bulb_page None)
                                (ProductDetail.setLoading
                                   false
                                   (ProductDetail.setProduct
                                      (Some bulb) ProductDetail.initial))
                                eq_refl)))
               (Resolved tt) 1%Z ""%string).
Defined.

(** The rating of the draft is one of the five stars. *)
Lemma draft_rating_step props st st' ev fx :
  (1 <= ProductDetail.rating (ProductDetail.review st) <= 5)%Z ->
  ProductDetail.step props st ev = Some (st', fx) ->
  (1 <= ProductDetail.rating (ProductDetail.review st') <= 5)%Z.
Proof.
  intros Hr Hstep. destruct ev; simpl in Hstep.
  - destruct res; injection Hstep as <- _; exact Hr.
  - destruct res; injection Hstep as <- _; exact Hr.
  - destruct (ProductDetail.buyable props st); [|discriminate].
    injection Hstep as <- _; exact Hr.
  - destruct (ProductDetail.buyable props st); [|discriminate].
    injection Hstep as <- _; exact Hr.
  - destruct (ProductDetail.buyable props st); [|discriminate].
    unfold ProductDetail.addToCart in Hstep.
    destruct (ProductDetail.user props); [destruct res|];
      injection Hstep as <- _; exact Hr.
  - destruct (ProductDetail.buyable props st); [|discriminate].
    unfold ProductDetail.addToWishlist in Hstep.
    destruct (ProductDetail.user props); [destruct res|];
      injection Hstep as <- _; exact Hr.
  - destruct (ProductDetail.review_form_shown props st); [|discriminate].
    cbn [andb] in Hstep.
    destruct (_ || _) eqn:E; [|discriminate].
    injection Hstep as <- _. simpl.
    rewrite !orb_true_iff, !Z.eqb_eq in E. lia.
  - destruct (ProductDetail.review_form_shown props st); [|discriminate].
    injection Hstep as <- _; exact Hr.
  - destruct (_ && _); [|discriminate].
    unfold ProductDetail.submitReview in Hstep.
    destruct (ProductDetail.user props); [destruct res|];
      injection Hstep as <- _; simpl; solve [exact Hr | lia].
Qed.

Lemma draft_rating_run props evs :
  forall st st',
    (1 <= ProductDetail.rating (ProductDetail.review st) <= 5)%Z ->
    ProductDetail.run props st evs = Some st' ->
    (1 <= ProductDetail.rating (ProductDetail.review st') <= 5)%Z.
Proof.
  induction evs as [|ev evs IH]; intros st st' Hr Hrun; simpl in Hrun.
  - injection Hrun as <-. exact Hr.
  - destruct (ProductDetail.step props st ev) as [[st1 fx]|] eqn:Hstep;
      [|discriminate].
    apply (IH st1 st'); [|exact Hrun].
    apply (draft_rating_step props st st1 ev fx Hr Hstep).
Qed.

(** X18. The rating of the review being written is always one of 1 to
    5, and the review form shows exactly that many filled stars.  A
    review is only ever sent by a signed-in user, for the page's product,
    with such a rating and a non-empty comment. *)
Theorem review_rating_one_to_five
        (props : ProductDetail.Props)
        (evs : list ProductDetail.Event) (st : ProductDetail.State) :
  ProductDetail.run props ProductDetail.initial evs = Some st ->
  (1 <= ProductDetail.rating (ProductDetail.review st) <= 5)%Z
  /\ ProductDetail.draft_stars (ProductDetail.review st)
     = repeat true (Z.to_nat (ProductDetail.rating (ProductDetail.review st)))
       ++ repeat false
            (5 - Z.to_nat (ProductDetail.rating (ProductDetail.review st)))
  /\ forall ev st' fx pid body,
      ProductDetail.step props st ev = Some (st', fx) ->
      In (Send (ProductDetail.PostReview pid body)) fx ->
      ProductDetail.user props <> None
      /\ pid = ProductDetail.id props
      /\ (1 <= ProductDetail.rating body <= 5)%Z
      /\ ProductDetail.comment body <> ""%string.
Proof.
  intros Hrun.
  assert (Hr : (1 <= ProductDetail.rating (ProductDetail.review st) <= 5)%Z).
  { apply (draft_rating_run props evs ProductDetail.initial st);
      [simpl; lia | exact Hrun]. }
  split; [exact Hr|]. split.
  - unfold ProductDetail.draft_stars.
    assert (Hc : ProductDetail.rating (ProductDetail.review st) = 1%Z
                 \/ ProductDetail.rating (ProductDetail.review st) = 2%Z
                 \/ ProductDetail.rating (ProductDetail.review st) = 3%Z
                 \/ ProductDetail.rating (ProductDetail.review st) = 4%Z
                 \/ ProductDetail.rating (ProductDetail.review st) = 5%Z)
      by lia.
    destruct Hc as [-> | [-> | [-> | [-> | ->]]]]; reflexivity.
  - intros ev st' fx pid body Hstep Hin. destruct ev; simpl in Hstep.
    + destruct res; injection Hstep as _ <-;
        repeat (destruct Hin as [Hin|Hin]; [discriminate Hin|]); destruct Hin.
    + destruct res; injection Hstep as _ <-; destruct Hin.
    + destruct (ProductDetail.buyable props st); [|discriminate].
      injection Hstep as _ <-; destruct Hin.
    + destruct (ProductDetail.buyable props st); [|discriminate].
      injection Hstep as _ <-; destruct Hin.
    + destruct (ProductDetail.buyable props st); [|discriminate].
      unfold ProductDetail.addToCart in Hstep.
      destruct (ProductDetail.user props); [destruct res|];
        injection Hstep as _ <-;
        repeat (destruct Hin as [Hin|Hin]; [discriminate Hin|]); destruct Hin.
    + destruct (ProductDetail.buyable props st); [|discriminate].
      unfold ProductDetail.addToWishlist in Hstep.
      destruct (ProductDetail.user props); [destruct res|];
        injection Hstep as _ <-;
        repeat (destruct Hin as [Hin|Hin]; [discriminate Hin|]); destruct Hin.
    + destruct (_ && _); [|discriminate].
      injection Hstep as _ <-; destruct Hin.
    + destruct (ProductDetail.review_form_shown props st); [|discriminate].
      injection Hstep as _ <-; destruct Hin.
    + destruct (ProductDetail.review_form_shown props st); [|discriminate].
      cbn [andb] in Hstep.
      destruct (truthy_text (ProductDetail.comment (ProductDetail.review st)))
        eqn:Hc; [|discriminate].
      assert (Hne : ProductDetail.comment (ProductDetail.review st)
                    <> ""%string).
      { unfold truthy_text in Hc. apply negb_true_iff in Hc.
        apply String.eqb_neq, Hc. }
      unfold ProductDetail.submitReview in Hstep.
      destruct (ProductDetail.user props) as [u|] eqn:Hu.
      * destruct res; injection Hstep as _ <-;
          repeat (destruct Hin as [Hin|Hin];
                  [try discriminate Hin; injection Hin as <- <-;
                   repeat split; solve [discriminate | lia | exact Hne]|]);
          destruct Hin.
      * injection Hstep as _ <-.
        repeat (destruct Hin as [Hin|Hin]; [discriminate Hin|]); destruct Hin.
Qed.

Lemma review_rating_one_to_five_witness :
  (1 <= 2 <= 5)%Z.
Proof.
  apply (review_rating_one_to_five
           (bulb_page (Some shopper))
           [ProductDetail.ProductFetched (Resolved bulb);
            ProductDetail.ClickStar 2]
           (ProductDetail.setReview
              {| ProductDetail.rating := 2; ProductDetail.comment := "" |}
              (ProductDetail.setLoading
                 false
                 (ProductDetail.setProduct (Some bulb) ProductDetail.initial)))).
  reflexivity.
Defined.

(** X19. The stars beside a product's rating: the filled ones come
    first, and their number is the rating rounded down, but no fewer than
    none and no more than five. *)
Theorem rating_stars_prefix (r : Q) :
  Catalog.rating_stars r
  = repeat true (Z.to_nat (Z.min 5 (Z.max 0 (Qfloor r))))
    ++ repeat false (5 - Z.to_nat (Z.min 5 (Z.max 0 (Qfloor r)))).
Proof.
  unfold Catalog.rating_stars, Math_floor. simpl map.
  assert (Hc : (Qfloor r <= 0 \/ Qfloor r = 1 \/ Qfloor r = 2 \/ Qfloor r = 3
                \/ Qfloor r = 4 \/ 5 <= Qfloor r)%Z) by lia.
  destruct Hc as [H | [-> | [-> | [-> | [-> | H]]]]]; try reflexivity.
  - replace (Z.to_nat (Z.min 5 (Z.max 0 (Qfloor r)))) with 0%nat by lia.
    repeat match goal with
           | |- context [(?a <? ?b)%Z] =>
               destruct (Z.ltb_spec a b); try lia
           end.
    reflexivity.
  - replace (Z.to_nat (Z.min 5 (Z.max 0 (Qfloor r)))) with 5%nat by lia.
    repeat match goal with
           | |- context [(?a <? ?b)%Z] =>
               destruct (Z.ltb_spec a b); try lia
           end.
    reflexivity.
Qed.

(** ** Catalogue cards *)

Lemma truthy_number_iff (x : Q) : truthy_number x = true <-> ~ x == 0.
Proof.
  unfold truthy_number. rewrite negb_true_iff. split.
  - intros H. apply Qeq_bool_neq, H.
  - intros H. destruct (Qeq_bool x 0) eqn:E; [|reflexivity].
    apply Qeq_bool_iff in E. contradiction.
Qed.

Lemma truthy_number_false_iff (x : Q) : truthy_number x = false <-> x == 0.
Proof.
  unfold truthy_number. rewrite negb_false_iff. apply Qeq_bool_iff.
Qed.

Lemma truthy_text_iff (s : string) : truthy_text s = true <-> s <> ""%string.
Proof.
  unfold truthy_text. rewrite negb_true_iff. apply String.eqb_neq.
Qed.

Lemma share_saved_bounds (o p : Q) :
  0 < o -> 0 <= p -> p <= o ->
  0 <= ((o - p) / o) * 100 /\ ((o - p) / o) * 100 <= 100.
Proof.
  intros Ho Hp Hpo.
  assert (Hne : ~ o == 0) by lra.
  assert (Hd : ((o - p) / o) * o == o - p).
  { unfold Qdiv. rewrite <- Qmult_assoc, (Qmult_comm (/ o)), Qmult_inv_r by exact Hne.
    lra. }
  assert (Hlo : 0 <= (o - p) / o).
  { apply Qle_shift_div_l; [exact Ho | lra]. }
  assert (Hhi : (o - p) / o <= 1).
  { apply Qle_shift_div_r; [exact Ho | lra]. }
  split; lra.
Qed.

(** X20. After the price of a product, the card and the product page
    show nothing when the product has no original price, the bare number
    0 when its original price is 0, and otherwise the original price with
    a percentage.  That percentage lies between 0 and 100 whenever the
    price is between 0 and the original price; it is 0 when the two
    prices are equal and 100 when the price is 0. *)
Theorem price_cut_rule (product : Catalog.Product) :
  (Catalog.price_cut product = Catalog.NoCut
   <-> Catalog.original_price product = None)
  /\ (Catalog.price_cut product = Catalog.StrayZero
      <-> exists o, Catalog.original_price product = Some o /\ o == 0)
  /\ (forall o pct,
         Catalog.price_cut product = Catalog.Cut o pct ->
         Catalog.original_price product = Some o /\ ~ o == 0
         /\ (0 < o -> 0 <= Catalog.price product ->
             Catalog.price product <= o -> (0 <= pct <= 100)%Z)
         /\ (Catalog.price product == o -> pct = 0%Z)
         /\ (Catalog.price product == 0 -> pct = 100%Z)).
Proof.
  unfold Catalog.price_cut.
  destruct (Catalog.original_price product) as [o|].
  - destruct (truthy_number o) eqn:E.
    + apply truthy_number_iff in E. split; [|split].
      * split; discriminate.
      * split; [discriminate|]. intros (o' & H & Hz).
        injection H as <-. contradiction.
      * intros o' pct H. injection H as <- <-.
        split; [reflexivity|]. split; [exact E|]. split; [|split].
        -- intros Ho Hp Hpo. unfold Math_round.
           destruct (share_saved_bounds o (Catalog.price product) Ho Hp Hpo)
             as [Hlo Hhi].
           split.
           ++ apply (Z.le_trans _ (Qfloor (1 # 2))); [discriminate|].
              apply Qfloor_resp_le. lra.
           ++ apply (Z.le_trans _ (Qfloor (100 + (1 # 2)))); [|discriminate].
              apply Qfloor_resp_le. lra.
        -- intros Heq. unfold Math_round.
           assert (Hv : ((o - Catalog.price product) / o) * 100 + (1 # 2)
                        == 1 # 2).
           { rewrite Heq. unfold Qdiv. lra. }
           rewrite Hv. reflexivity.
        -- intros Heq. unfold Math_round.
           assert (Hv : ((o - Catalog.price product) / o) * 100 + (1 # 2)
                        == 100 + (1 # 2)).
           { rewrite Heq. unfold Qdiv.
             assert (H1 : (o - 0) * / o == 1).
             { rewrite <- (Qmult_inv_r o E). lra. }
             rewrite H1. lra. }
           rewrite Hv. reflexivity.
    + apply truthy_number_false_iff in E. split; [|split].
      * split; discriminate.
      * split; [|reflexivity]. intros _. exists o. split; [reflexivity|exact E].
      * intros o' pct H. discriminate H.
  - split; [|split].
    + split; reflexivity.
    + split; [discriminate|]. intros (o & H & _). discriminate H.
    + intros o pct H. discriminate H.
Qed.

Lemma price_cut_rule_witness :
  (0 <= Math_round (((100 - 80) / 100) * 100) <= 100)%Z.
Proof.
  apply (proj2 (proj2 (price_cut_rule bulb)) 100
               (Math_round (((100 - 80) / 100) * 100)) eq_refl).
  - reflexivity.
  - intros H. discriminate H.
  - intros H. discriminate H.
Defined.

(** X21. A card never shows both stock notes.  "Only n left!" appears
    exactly for a stock above 0 and below 10, "Out of Stock" exactly for
    a stock of 0.  For a stock that is not negative the card says Out of
    Stock exactly when the product page withholds its buying controls. *)
Theorem stock_notes_rule (product : Catalog.Product) :
  let c := ProductList.card product in
  (ProductList.out_of_stock c = true -> ProductList.only_left c = None)
  /\ (ProductList.only_left c <> None
      <-> 0 < Catalog.stock product /\ Catalog.stock product < 10)
  /\ (ProductList.out_of_stock c = true <-> Catalog.stock product == 0)
  /\ (0 <= Catalog.stock product ->
      forall props st d,
        ProductDetail.render props st = ProductDetail.Page product d ->
        (ProductList.out_of_stock c = true
         <-> ProductDetail.buy_controls d = false)).
Proof.
  simpl.
  assert (Hout : Qeq_bool (Catalog.stock product) 0 = true
                 <-> Catalog.stock product == 0) by apply Qeq_bool_iff.
  assert (Hleft :
            (if negb (Qle_bool 10 (Catalog.stock product))
                && gt (Catalog.stock product) 0
             then Some (Catalog.stock product) else None) <> None
            <-> 0 < Catalog.stock product /\ Catalog.stock product < 10).
  { destruct (Qle_bool 10 (Catalog.stock product)) eqn:E10;
      destruct (gt (Catalog.stock product) 0) eqn:E0; simpl;
      try apply Qle_bool_iff in E10; try apply gt_true_iff in E0;
      try apply gt_false_iff in E0.
    - split; [congruence | intros; exfalso; lra].
    - split; [congruence | intros; exfalso; lra].
    - assert (~ 10 <= Catalog.stock product).
      { intros H. apply Qle_bool_iff in H. congruence. }
      split; [intros; lra | discriminate].
    - split; [congruence | intros; exfalso; lra]. }
  split; [|split; [|split]].
  - intros H. apply Hout in H.
    destruct (negb _ && gt (Catalog.stock product) 0) eqn:E; [|reflexivity].
    exfalso. assert (Hx : Some (Catalog.stock product) <> None) by discriminate.
    rewrite andb_true_iff in E. destruct E as [_ E].
    apply gt_true_iff in E. lra.
  - exact Hleft.
  - exact Hout.
  - intros Hpos props st d Hr. unfold ProductDetail.render in Hr.
    destruct (ProductDetail.loading st); [discriminate|].
    destruct (ProductDetail.product st) as [p|]; [|discriminate].
    injection Hr as -> <-. simpl. rewrite Hout.
    destruct (gt (Catalog.stock product) 0) eqn:E.
    + apply gt_true_iff in E. split; [intros; exfalso; lra | discriminate].
    + apply gt_false_iff in E. split; [reflexivity | intros; lra].
Qed.

Lemma stock_notes_rule_witness :
  ProductList.only_left (ProductList.card bulb) <> None.
Proof.
  apply (proj1 (proj2 (stock_notes_rule bulb))).
  split; reflexivity.
Defined.

(** ** Product list *)

Ltac split_filters f :=
  destruct (truthy_text (ProductList.category f)) eqn:Ecategory;
  destruct (truthy_text (ProductList.brand f)) eqn:Ebrand;
  destruct (truthy_number (ProductList.min_price f)) eqn:Emin;
  destruct (truthy_number (ProductList.max_price f)) eqn:Emax;
  destruct (truthy_text (ProductList.sort f)) eqn:Esort;
  destruct (truthy_text (ProductList.search f)) eqn:Esearch.

Lemma query_get_text (f : ProductList.Filters) :
  ProductList.get "category" (ProductList.query_of f)
  = (if truthy_text (ProductList.category f)
     then Some (ProductList.Text (ProductList.category f)) else None)
  /\ ProductList.get "brand" (ProductList.query_of f)
     = (if truthy_text (ProductList.brand f)
        then Some (ProductList.Text (ProductList.brand f)) else None)
  /\ ProductList.get "sort" (ProductList.query_of f)
     = (if truthy_text (ProductList.sort f)
        then Some (ProductList.Text (ProductList.sort f)) else None)
  /\ ProductList.get "search" (ProductList.query_of f)
     = (if truthy_text (ProductList.search f)
        then Some (ProductList.Text (ProductList.search f)) else None).
Proof.
  unfold ProductList.query_of. split_filters f; repeat split.
Qed.

Lemma query_get_number (f : ProductList.Filters) :
  ProductList.get "min_price" (ProductList.query_of f)
  = (if truthy_number (ProductList.min_price f)
     then Some (ProductList.Number (ProductList.min_price f)) else None)
  /\ ProductList.get "max_price" (ProductList.query_of f)
     = (if truthy_number (ProductList.max_price f)
        then Some (ProductList.Number (ProductList.max_price f)) else None).
Proof.
  unfold ProductList.query_of. split_filters f; repeat split.
Qed.

Lemma query_keys_distinct (f : ProductList.Filters) :
  NoDup (map fst (ProductList.query_of f)).
Proof.
  unfold ProductList.query_of.
  split_filters f; simpl; repeat constructor; simpl; intuition discriminate.
Qed.

Lemma text_filter_agrees (a b : string) :
  (if truthy_text a then Some (ProductList.Text a) else None)
  = (if truthy_text b then Some (ProductList.Text b) else None) ->
  a = b.
Proof.
  destruct (truthy_text a) eqn:Ea; destruct (truthy_text b) eqn:Eb;
    intros H; try discriminate H.
  - injection H as ->. reflexivity.
  - unfold truthy_text in *. apply negb_false_iff, String.eqb_eq in Ea, Eb.
    congruence.
Qed.

Lemma number_filter_agrees (a b : Q) :
  (if truthy_number a then Some (ProductList.Number a) else None)
  = (if truthy_number b then Some (ProductList.Number b) else None) ->
  a == b.
Proof.
  destruct (truthy_number a) eqn:Ea; destruct (truthy_number b) eqn:Eb;
    intros H; try discriminate H.
  - injection H as ->. reflexivity.
  - apply truthy_number_false_iff in Ea, Eb. rewrite Ea, Eb. reflexivity.
Qed.

(** X22. The query of a products request names a filter exactly when
    that filter is set: a text filter when it is not empty, a price bound
    when it is not 0, each with its current value and at most once; so a
    price bound of 0 is not sent at all.  The query tells the filters
    apart: two filter settings that produce the same query are the same
    setting. *)
Theorem products_query_rule (f : ProductList.Filters) :
  (forall v,
      ProductList.get "category" (ProductList.query_of f) = Some v
      <-> ProductList.category f <> ""%string
          /\ v = ProductList.Text (ProductList.category f))
  /\ (forall v,
         ProductList.get "brand" (ProductList.query_of f) = Some v
         <-> ProductList.brand f <> ""%string
             /\ v = ProductList.Text (ProductList.brand f))
  /\ (forall v,
         ProductList.get "sort" (ProductList.query_of f) = Some v
         <-> ProductList.sort f <> ""%string
             /\ v = ProductList.Text (ProductList.sort f))
  /\ (forall v,
         ProductList.get "search" (ProductList.query_of f) = Some v
         <-> ProductList.search f <> ""%string
             /\ v = ProductList.Text (ProductList.search f))
  /\ (forall v,
         ProductList.get "min_price" (ProductList.query_of f) = Some v
         <-> ~ ProductList.min_price f == 0
             /\ v = ProductList.Number (ProductList.min_price f))
  /\ (forall v,
         ProductList.get "max_price" (ProductList.query_of f) = Some v
         <-> ~ ProductList.max_price f == 0
             /\ v = ProductList.Number (ProductList.max_price f))
  /\ NoDup (map fst (ProductList.query_of f))
  /\ (forall g,
         ProductList.query_of f = ProductList.query_of g ->
         ProductList.category f = ProductList.category g
         /\ ProductList.brand f = ProductList.brand g
         /\ ProductList.min_price f == ProductList.min_price g
         /\ ProductList.max_price f == ProductList.max_price g
         /\ ProductList.sort f = ProductList.sort g
         /\ ProductList.search f = ProductList.search g).
Proof.
  destruct (query_get_text f) as (Hc & Hb & Hs & Hq).
  destruct (query_get_number f) as (Hmin & Hmax).
  assert (Htext : forall a v,
             (if truthy_text a then Some (ProductList.Text a) else None) = Some v
             <-> a <> ""%string /\ v = ProductList.Text a).
  { intros a v. destruct (truthy_text a) eqn:E.
    - apply truthy_text_iff in E. split.
      + intros H. injection H as <-. split; [exact E | reflexivity].
      + intros [_ ->]. reflexivity.
    - unfold truthy_text in E. apply negb_false_iff, String.eqb_eq in E.
      split; [discriminate | intros [H _]; contradiction]. }
  assert (Hnum : forall a v,
             (if truthy_number a then Some (ProductList.Number a) else None)
             = Some v
             <-> ~ a == 0 /\ v = ProductList.Number a).
  { intros a v. destruct (truthy_number a) eqn:E.
    - apply truthy_number_iff in E. split.
      + intros H. injection H as <-. split; [exact E | reflexivity].
      + intros [_ ->]. reflexivity.
    - apply truthy_number_false_iff in E.
      split; [discriminate | intros [H _]; contradiction]. }
  rewrite Hc, Hb, Hs, Hq, Hmin, Hmax.
  repeat (split; [intros v; first [apply Htext | apply Hnum]|]).
  split; [apply query_keys_distinct|].
  intros g Heq.
  destruct (query_get_text g) as (Hc' & Hb' & Hs' & Hq').
  destruct (query_get_number g) as (Hmin' & Hmax').
  rewrite <- Heq in Hc', Hb', Hs', Hq', Hmin', Hmax'.
  repeat split;
    first [apply text_filter_agrees | apply number_filter_agrees]; congruence.
Qed.

Lemma products_query_rule_witness :
  ProductList.get "max_price"
                  (ProductList.query_of
                     (ProductList.filters (ProductList.initial everything)))
  = Some (ProductList.Number 10000).
Proof.
  destruct (products_query_rule
              (ProductList.filters (ProductList.initial everything)))
    as (_ & _ & _ & _ & _ & Hmax & _).
  apply (Hmax (ProductList.Number 10000)).
  split; [intros H; discriminate H | reflexivity].
Defined.

Lemma on_slider_range (q : Q) :
  ProductList.on_slider q = true -> 0 <= q /\ q <= 10000.
Proof.
  unfold ProductList.on_slider. rewrite !andb_true_iff.
  intros [[H1 H2] _]. split; apply Qle_bool_iff; assumption.
Qed.

Lemma price_range_step (st st' : ProductList.State) ev fx :
  price_range_kept st ->
  ProductList.step st ev = Some (st', fx) ->
  price_range_kept st'
  /\ forall q, In (Send (ProductList.GetProducts q)) fx ->
               q = ProductList.query_of (ProductList.filters st').
Proof.
  intros (H0 & H1 & H2) Hstep. destruct ev; simpl in Hstep.
  - destruct res; injection Hstep as <- <-; (split; [repeat split; assumption|]);
      intros q [].
  - destruct res; injection Hstep as <- <-; (split; [repeat split; assumption|]);
      intros q Hin; repeat (destruct Hin as [Hin|Hin]; [discriminate Hin|]);
      destruct Hin.
  - destruct (_ || _); [|discriminate].
    injection Hstep as <- <-. split; [repeat split; assumption|].
    intros q [Hin|[]]. injection Hin as <-. reflexivity.
  - destruct (_ || _); [|discriminate].
    injection Hstep as <- <-. split; [repeat split; assumption|].
    intros q [Hin|[]]. injection Hin as <-. reflexivity.
  - destruct (ProductList.on_slider lo) eqn:Elo; [|discriminate].
    destruct (ProductList.on_slider hi) eqn:Ehi; [|discriminate].
    destruct (Qle_bool lo hi) eqn:Ele; [|discriminate].
    injection Hstep as <- <-.
    apply on_slider_range in Elo, Ehi. apply Qle_bool_iff in Ele.
    split; [repeat split; simpl; tauto|].
    intros q [Hin|[]]. injection Hin as <-. reflexivity.
  - injection Hstep as <- <-. split.
    + repeat split; simpl; intros H; discriminate H.
    + intros q [Hin|[Hin|[]]]; [discriminate Hin|].
      injection Hin as <-. reflexivity.
Qed.

Lemma price_range_run (evs : list ProductList.Event) :
  forall st st',
    price_range_kept st ->
    ProductList.run st evs = Some st' ->
    price_range_kept st'.
Proof.
  induction evs as [|ev evs IH]; intros st st' Hk Hrun; simpl in Hrun.
  - injection Hrun as <-. exact Hk.
  - destruct (ProductList.step st ev) as [[st1 fx]|] eqn:Hstep; [|discriminate].
    apply (IH st1 st'); [|exact Hrun].
    apply (price_range_step st st1 ev fx Hk Hstep).
Qed.

(** X23. On the product list the price bounds never leave the slider:
    through every session the lower bound is at least 0, at most the
    upper bound, and the upper bound is at most 10000.  Every products
    request is built from the filters the page then holds, so an upper
    price bound, when one is sent, is above 0 and at most 10000; products
    dearer than that are only asked for while the upper bound is 0. *)
Theorem price_bounds_on_slider
        (searchParams : ProductList.SearchParams)
        (evs : list ProductList.Event) (st : ProductList.State) :
  ProductList.run (fst (ProductList.mount searchParams)) evs = Some st ->
  price_range_kept st
  /\ forall ev st' fx q,
      ProductList.step st ev = Some (st', fx) ->
      In (Send (ProductList.GetProducts q)) fx ->
      q = ProductList.query_of (ProductList.filters st')
      /\ forall v, ProductList.get "max_price" q = Some v ->
                   exists m, v = ProductList.Number m /\ 0 < m /\ m <= 10000.
Proof.
  intros Hrun.
  assert (Hk : price_range_kept st).
  { apply (price_range_run evs (fst (ProductList.mount searchParams)) st);
      [|exact Hrun].
    repeat split; simpl; intros H; discriminate H. }
  split; [exact Hk|].
  intros ev st' fx q Hstep Hin.
  destruct (price_range_step st st' ev fx Hk Hstep) as [(H0 & H1 & H2) Hq].
  specialize (Hq q Hin). subst q. split; [reflexivity|].
  intros v Hv.
  destruct (query_get_number (ProductList.filters st')) as [_ Hmax].
  rewrite Hmax in Hv.
  destruct (truthy_number (ProductList.max_price (ProductList.filters st')))
    eqn:E; [|discriminate].
  injection Hv as <-. apply truthy_number_iff in E.
  eexists. split; [reflexivity|]. split; [|exact H2].
  assert (0 <= ProductList.max_price (ProductList.filters st')) by lra.
  apply Qle_lteq in H. destruct H as [H|H]; [exact H|].
  exfalso. apply E. symmetry. exact H.
Qed.

Lemma price_bounds_on_slider_witness :
  price_range_kept
    (fst (ProductList.slidePrice 100 900
                                 (fst (ProductList.mount everything)))).
Proof.
  apply (price_bounds_on_slider everything [ProductList.SlidePrice 100 900]).
  reflexivity.
Defined.

(** ** Navigation bar *)

Lemma count_loop (l : list CartItem) (acc : Q) :
  fold_left (fun sum item => sum + quantity item) l acc == acc + pieces l.
Proof.
  revert acc. induction l as [|item l IH]; intros acc; simpl.
  - lra.
  - rewrite IH. lra.
Qed.

Lemma pieces_at_least_length (l : list CartItem) :
  Forall (fun item => 1 <= quantity item) l ->
  inject_Z (Z.of_nat (List.length l)) <= pieces l.
Proof.
  induction 1 as [|item l Hq _ IH].
  - apply Qle_refl.
  - cbn [List.length pieces]. rewrite Nat2Z.inj_succ. unfold Z.succ.
    rewrite inject_Z_plus. change (inject_Z 1) with 1. lra.
Qed.

(** X24. The number on the cart icon is the sum of the quantities in
    the cart, and 0 for a cart without an item list; a failed request
    leaves the number as it was.  The red badge is shown only to a
    signed-in user and only for a number above 0.  When every quantity is
    at least 1, the number is at least the number of lines, so the badge
    is there for every non-empty cart. *)
Theorem cart_count_rule (l : list CartItem) (st : Navbar.State) :
  Navbar.count_of (Some l) == pieces l
  /\ Navbar.count_of None = 0
  /\ (forall d, Navbar.fetchCartCount_settled (Rejected d) st = st)
  /\ (forall cart_items,
         Navbar.badge None
                      (Navbar.fetchCartCount_settled (Resolved cart_items) st)
         = None)
  /\ (forall u b,
         Navbar.badge (Some u)
                      (Navbar.fetchCartCount_settled (Resolved (Some l)) st)
         = Some b -> 0 < b /\ b == pieces l)
  /\ (Forall (fun item => 1 <= quantity item) l ->
      inject_Z (Z.of_nat (List.length l)) <= Navbar.count_of (Some l)
      /\ (l <> [] ->
          forall u,
            Navbar.badge (Some u)
                         (Navbar.fetchCartCount_settled (Resolved (Some l)) st)
            <> None)).
Proof.
  assert (Hcount : Navbar.count_of (Some l) == pieces l).
  { unfold Navbar.count_of.
    destruct (truthy_number _) eqn:E.
    - rewrite count_loop. lra.
    - apply truthy_number_false_iff in E. rewrite count_loop in E.
      rewrite <- E. lra. }
  split; [exact Hcount|]. split; [reflexivity|]. split; [reflexivity|].
  split; [reflexivity|]. split.
  - intros u b. unfold Navbar.badge. cbn [Navbar.fetchCartCount_settled
                                            Navbar.cartCount].
    destruct (gt (Navbar.count_of (Some l)) 0) eqn:E; [|discriminate].
    intros H. injection H as <-. apply gt_true_iff in E.
    split; [exact E | exact Hcount].
  - intros Hq. pose proof (pieces_at_least_length l Hq) as Hlen.
    split; [rewrite Hcount; exact Hlen|].
    intros Hne u. unfold Navbar.badge.
    cbn [Navbar.fetchCartCount_settled Navbar.cartCount].
    destruct (gt (Navbar.count_of (Some l)) 0) eqn:E; [discriminate|].
    apply gt_false_iff in E. exfalso.
    destruct l as [|item l']; [contradiction|].
    cbn [List.length] in Hlen. rewrite Nat2Z.inj_succ in Hlen.
    unfold Z.succ in Hlen. rewrite inject_Z_plus in Hlen.
    assert (0 <= inject_Z (Z.of_nat (List.length l'))).
    { change 0 with (inject_Z 0). rewrite <- Zle_Qle. lia. }
    change (inject_Z 1) with 1 in Hlen. lra.
Qed.

Lemma cart_count_rule_witness :
  inject_Z (Z.of_nat (List.length [lamps 300 2]))
  <= Navbar.count_of (Some [lamps 300 2]).
Proof.
  apply (proj2 (proj2 (proj2 (proj2 (proj2
           (cart_count_rule [lamps 300 2] Navbar.initial)))))).
  repeat constructor. intros H. discriminate H.
Defined.

(** ** Admin dashboard *)

Lemma dialog_at_rest_step (st st' : AdminDashboard.State) ev fx :
  dialog_at_rest st ->
  AdminDashboard.step st ev = Some (st', fx) ->
  dialog_at_rest st'.
Proof.
  unfold dialog_at_rest. intros Hrest Hstep. destruct ev; simpl in Hstep.
  - destruct res; injection Hstep as <- _; exact Hrest.
  - destruct res; injection Hstep as <- _; exact Hrest.
  - destruct res; injection Hstep as <- _; exact Hrest.
  - injection Hstep as <- _. destruct open; simpl.
    + discriminate.
    + intros _. split; reflexivity.
  - destruct (AdminDashboard.showProductDialog st) eqn:E; [|discriminate].
    injection Hstep as <- _. simpl. rewrite E. discriminate.
  - destruct (_ && _); [|discriminate].
    destruct res; injection Hstep as <- _; simpl.
    + intros _. split; reflexivity.
    + exact Hrest.
  - destruct (nth_error _ _); [|discriminate].
    injection Hstep as <- _. simpl. discriminate.
  - destruct (nth_error _ _); [|discriminate].
    unfold AdminDashboard.deleteProduct in Hstep.
    destruct (negb confirmed); [|destruct res];
      injection Hstep as <- _; exact Hrest.
  - destruct (nth_error _ _); [|discriminate].
    destruct (_ && _); [|discriminate].
    destruct res; injection Hstep as <- _; exact Hrest.
Qed.

Lemma dialog_at_rest_run (evs : list AdminDashboard.Event) :
  forall st st',
    dialog_at_rest st ->
    AdminDashboard.run st evs = Some st' ->
    dialog_at_rest st'.
Proof.
  induction evs as [|ev evs IH]; intros st st' Hrest Hrun; simpl in Hrun.
  - injection Hrun as <-. exact Hrest.
  - destruct (AdminDashboard.step st ev) as [[st1 fx]|] eqn:Hstep;
      [|discriminate].
    apply (IH st1 st'); [|exact Hrun].
    apply (dialog_at_rest_step st st1 ev fx Hrest Hstep).
Qed.

Lemma edits_keep_mode (edits : list AdminDashboard.Event) :
  forall st st',
    forallb AdminDashboard.is_edit edits = true ->
    AdminDashboard.run st edits = Some st' ->
    AdminDashboard.editingProduct st' = AdminDashboard.editingProduct st.
Proof.
  induction edits as [|ev edits IH]; intros st st' Hall Hrun; simpl in *.
  - injection Hrun as <-. reflexivity.
  - apply andb_true_iff in Hall. destruct Hall as [Hev Hall].
    destruct ev; try discriminate Hev. simpl in Hrun.
    destruct (AdminDashboard.showProductDialog st); [|discriminate].
    rewrite (IH _ _ Hall Hrun). reflexivity.
Qed.

(** X25. Whenever the product dialog of the dashboard is closed, no
    product is being edited and the form is blank, whatever was done
    before (an edit left open, a save, a failed save followed by
    closing).  So Add Product always starts from the blank form, and the
    product typed in there is created with a POST, never written over an
    existing product. *)
Theorem add_product_starts_blank
        (evs : list AdminDashboard.Event) (st : AdminDashboard.State) :
  AdminDashboard.run AdminDashboard.initial evs = Some st ->
  AdminDashboard.showProductDialog st = false ->
  AdminDashboard.editingProduct st = None
  /\ AdminDashboard.productForm st = AdminDashboard.blank_form
  /\ forall edits st1 res st2 fx,
      forallb AdminDashboard.is_edit edits = true ->
      AdminDashboard.run st (AdminDashboard.DialogOpenChange true :: edits)
      = Some st1 ->
      AdminDashboard.step st1 (AdminDashboard.SubmitProduct res)
      = Some (st2, fx) ->
      exists rest,
        fx = Send (AdminDashboard.PostProduct (AdminDashboard.productForm st1))
             :: rest
        /\ existsb sends rest = match res with
                                | Resolved _ => true
                                | Rejected _ => false
                                end
        /\ forall pid body,
            ~ In (Send (AdminDashboard.PutProduct pid body)) fx.
Proof.
  intros Hrun Hclosed.
  assert (Hrest : dialog_at_rest st).
  { apply (dialog_at_rest_run evs AdminDashboard.initial st); [|exact Hrun].
    intros _. split; reflexivity. }
  destruct (Hrest Hclosed) as [Hed Hform].
  split; [exact Hed|]. split; [exact Hform|].
  intros edits st1 res st2 fx Hall Hrun1 Hsub.
  simpl in Hrun1.
  pose proof (edits_keep_mode edits _ _ Hall Hrun1) as Hmode.
  simpl in Hmode. rewrite Hed in Hmode.
  simpl in Hsub. destruct (_ && _); [|discriminate].
  unfold AdminDashboard.saveProduct, AdminDashboard.editing in Hsub.
  rewrite Hmode in Hsub.
  destruct res; injection Hsub as _ <-; eexists;
    (split; [reflexivity|]); (split; [reflexivity|]);
    intros pid body Hin;
    repeat (destruct Hin as [Hin|Hin]; [discriminate Hin|]); destruct Hin.
Qed.

Lemma add_product_starts_blank_witness :
  AdminDashboard.productForm
    (AdminDashboard.dialogOpenChange
       false (AdminDashboard.openEditDialog bulb (shelf [bulb])))
  = AdminDashboard.blank_form.
Proof.
  apply (add_product_starts_blank
           [AdminDashboard.ProductsFetched (Resolved [bulb]);
            AdminDashboard.ClickEdit 0;
            AdminDashboard.DialogOpenChange false]).
  - reflexivity.
  - reflexivity.
Defined.

(** X26. Pressing Edit on a product row and saving without touching
    the form sends the product's own name, description, price, category,
    brand, images and stock back under its id; the original price is
    sent as it was, except that a product without one is written back
    with original price 0.  (Should a product carry an empty id, the save
    creates a new product instead.) *)
Theorem edit_then_save_round_trip
        (st : AdminDashboard.State) (row : nat) (product : Catalog.Product) :
  nth_error (AdminDashboard.products st) row = Some product ->
  exists st1,
    AdminDashboard.step st (AdminDashboard.ClickEdit row) = Some (st1, [])
    /\ AdminDashboard.showProductDialog st1 = true
    /\ forall res st2 fx,
        AdminDashboard.step st1 (AdminDashboard.SubmitProduct res)
        = Some (st2, fx) ->
        exists body rest,
          (Catalog.id product <> ""%string ->
           fx = Send (AdminDashboard.PutProduct (Catalog.id product) body)
                :: rest)
          /\ (Catalog.id product = ""%string ->
              fx = Send (AdminDashboard.PostProduct body) :: rest)
          /\ AdminDashboard.name body = Catalog.name product
          /\ AdminDashboard.description body = Catalog.description product
          /\ AdminDashboard.price body = Catalog.price product
          /\ AdminDashboard.category body = Catalog.category product
          /\ AdminDashboard.brand body = Catalog.brand product
          /\ AdminDashboard.images body = Catalog.images product
          /\ AdminDashboard.stock body = Catalog.stock product
          /\ (Catalog.original_price product = None ->
              AdminDashboard.original_price body = 0)
          /\ (forall o, Catalog.original_price product = Some o ->
                        AdminDashboard.original_price body == o).
Proof.
  intros Hrow. eexists. simpl. rewrite Hrow.
  split; [reflexivity|]. split; [reflexivity|].
  intros res st2 fx Hsub.
  destruct (AdminDashboard.form_complete _); [|discriminate].
  unfold AdminDashboard.saveProduct, AdminDashboard.editing in Hsub.
  simpl in Hsub.
  assert (Hop : (Catalog.original_price product = None ->
                 AdminDashboard.or_zero (Catalog.original_price product) = 0)
                /\ (forall o, Catalog.original_price product = Some o ->
                              AdminDashboard.or_zero
                                (Catalog.original_price product) == o)).
  { split.
    - intros ->. reflexivity.
    - intros o ->. simpl. destruct (truthy_number o) eqn:E; [reflexivity|].
      apply truthy_number_false_iff in E. symmetry. exact E. }
  destruct Hop as [Hnone Hsome].
  destruct (truthy_text (Catalog.id product)) eqn:Eid.
  - apply truthy_text_iff in Eid.
    destruct res; injection Hsub as _ <-; eexists; eexists;
      (split; [intros _; reflexivity|]);
      (split; [intros H; contradiction|]);
      repeat split; solve [exact Hnone | exact Hsome].
  - unfold truthy_text in Eid. apply negb_false_iff, String.eqb_eq in Eid.
    destruct res; injection Hsub as _ <-; eexists; eexists;
      (split; [intros H; contradiction|]);
      (split; [intros _; reflexivity|]);
      repeat split; solve [exact Hnone | exact Hsome].
Qed.

Lemma edit_then_save_round_trip_witness :
  exists st1,
    AdminDashboard.step (shelf [bulb]) (AdminDashboard.ClickEdit 0)
    = Some (st1, [])
    /\ AdminDashboard.showProductDialog st1 = true.
Proof.
  destruct (edit_then_save_round_trip (shelf [bulb]) 0 bulb eq_refl)
    as (st1 & H1 & H2 & _).
  exists st1. split; [exact H1 | exact H2].
Defined.

(** X27. The status menu of an order row can send any of its six
    entries other than the status shown, whatever that status is; there
    is no check that the order only moves forward.  It never sends
    return_requested, and a status update always names an order of the
    list. *)
Theorem status_menu_is_free
        (st : AdminDashboard.State) (row : nat) (o : AdminDashboard.OrderRow) :
  nth_error (AdminDashboard.orders st) row = Some o ->
  (forall new_status res,
      In new_status AdminDashboard.status_options ->
      new_status <> AdminDashboard.status o ->
      exists st' fx,
        AdminDashboard.step st (AdminDashboard.PickStatus row new_status res)
        = Some (st', fx)
        /\ In (Send (AdminDashboard.PutOrderStatus
                       (AdminDashboard.order_id o) new_status)) fx)
  /\ (forall ev st' fx oid new_status,
         AdminDashboard.step st ev = Some (st', fx) ->
         In (Send (AdminDashboard.PutOrderStatus oid new_status)) fx ->
         In new_status AdminDashboard.status_options
         /\ new_status <> "return_requested"%string
         /\ exists row' o', nth_error (AdminDashboard.orders st) row' = Some o'
                            /\ AdminDashboard.order_id o' = oid).
Proof.
  intros Hrow. split.
  - intros new_status res Hin Hne. cbn [AdminDashboard.step]. rewrite Hrow.
    assert (H1 : existsb (String.eqb new_status) AdminDashboard.status_options
                 = true).
    { apply existsb_exists. exists new_status.
      split; [exact Hin | apply String.eqb_refl]. }
    rewrite H1.
    destruct (String.eqb_spec new_status (AdminDashboard.status o));
      [contradiction|].
    cbn [andb negb]. destruct res; eexists; eexists; (split; [reflexivity|]);
      left; reflexivity.
  - intros ev st' fx oid new_status Hstep Hin.
    destruct ev; cbn [AdminDashboard.step] in Hstep.
    + destruct res; simpl in Hstep; injection Hstep as _ <-; destruct Hin.
    + destruct res; simpl in Hstep; injection Hstep as _ <-; destruct Hin.
    + destruct res; simpl in Hstep; injection Hstep as _ <-; destruct Hin.
    + simpl in Hstep; injection Hstep as _ <-; destruct Hin.
    + destruct (AdminDashboard.showProductDialog st); [|discriminate].
      simpl in Hstep; injection Hstep as _ <-; destruct Hin.
    + destruct (_ && _); [|discriminate].
      unfold AdminDashboard.saveProduct in Hstep.
      destruct (AdminDashboard.editing st); destruct res;
        simpl in Hstep; injection Hstep as _ <-;
        repeat (destruct Hin as [Hin|Hin]; [discriminate Hin|]); destruct Hin.
    + destruct (nth_error (AdminDashboard.products st) row0); [|discriminate].
      simpl in Hstep; injection Hstep as _ <-; destruct Hin.
    + destruct (nth_error (AdminDashboard.products st) row0); [|discriminate].
      unfold AdminDashboard.deleteProduct in Hstep.
      destruct (negb confirmed); [|destruct res];
        simpl in Hstep; injection Hstep as _ <-;
        repeat (destruct Hin as [Hin|Hin]; [discriminate Hin|]); destruct Hin.
    + destruct (nth_error (AdminDashboard.orders st) row0) as [o0|] eqn:Hrow0;
        [|discriminate].
      destruct (existsb (String.eqb new_status0) AdminDashboard.status_options)
        eqn:Hopt; [|discriminate].
      destruct (String.eqb_spec new_status0 (AdminDashboard.status o0))
        as [|Hdiff]; [discriminate|].
      cbn [andb negb] in Hstep.
      assert (Heq : oid = AdminDashboard.order_id o0
                    /\ new_status = new_status0).
      { destruct res; simpl in Hstep; injection Hstep as _ <-;
          repeat (destruct Hin as [Hin|Hin];
                  [try discriminate Hin; injection Hin as <- <-;
                   split; reflexivity|]);
          destruct Hin. }
      destruct Heq as [-> ->].
      apply existsb_exists in Hopt. destruct Hopt as (x & Hx & Hxe).
      apply String.eqb_eq in Hxe. subst x.
      split; [exact Hx|]. split.
      * intros ->. simpl in Hx. intuition discriminate.
      * exists row0, o0. split; [exact Hrow0 | reflexivity].
Qed.

Lemma status_menu_is_free_witness :
  exists st' fx,
    AdminDashboard.step (order_desk [delivered_row])
                        (AdminDashboard.PickStatus 0 "ordered" (Resolved tt))
    = Some (st', fx)
    /\ In (Send (AdminDashboard.PutOrderStatus "o-17" "ordered")) fx.
Proof.
  apply (proj1 (status_menu_is_free (order_desk [delivered_row]) 0
                                    delivered_row eq_refl)
               "ordered"%string (Resolved tt)).
  - left. reflexivity.
  - discriminate.
Defined.

(** ** Application shell *)






(** X29. The router shows a personal page (cart, checkout, orders,
    order tracking, profile, admin dashboard) only to a signed-in user,
    the admin dashboard only to an admin, and the sign-in page only while
    nobody is signed in; nothing is shown while the profile is being
    fetched.  A visitor who is not signed in is sent to the sign-in route
    from every personal page except the admin route, which sends everyone
    but admins to the home route. *)
Theorem routes_are_guarded (st : App.State) (r : App.Route) :
  (forall page,
      App.element st r = App.Show page ->
      App.loading st = false
      /\ (App.personal page = true -> App.user st <> None)
      /\ (page = App.AdminDashboardPage ->
          exists u, App.user st = Some u /\ Account.is_admin u = true)
      /\ (page = App.AuthPage -> App.user st = None))
  /\ (App.loading st = false -> App.user st = None ->
      match r with
      | App.RCart | App.RCheckout | App.ROrders | App.ROrder _
      | App.RProfile => App.element st r = App.NavigateTo "/auth"
      | App.RAdmin => App.element st r = App.NavigateTo "/"
      | App.RAuth => App.element st r = App.Show App.AuthPage
      | _ => exists page, App.element st r = App.Show page
                          /\ App.personal page = false
      end)
  /\ (forall u, App.loading st = false -> App.user st = Some u ->
                Account.is_admin u = false ->
                App.element st App.RAdmin = App.NavigateTo "/"
                /\ App.element st App.RAuth = App.NavigateTo "/").
Proof.
  split; [|split].
  - intros page. unfold App.element, App.guarded.
    destruct (App.loading st); [discriminate|].
    destruct r; destruct (App.user st) as [u|] eqn:Eu;
      try destruct (Account.is_admin u) eqn:Ea;
      intros H; try discriminate H; injection H as <-;
      (split; [reflexivity|]);
      repeat split; try discriminate; try reflexivity.
    all: intros _; exists u; split; [reflexivity | exact Ea].
  - intros Hl Hu. unfold App.element, App.guarded. rewrite Hl, Hu.
    destruct r; try reflexivity; eexists; split; reflexivity.
  - intros u Hl Hu Ha. unfold App.element. rewrite Hl, Hu, Ha.
    split; reflexivity.
Qed.

Lemma routes_are_guarded_witness :
  App.user {| App.user := Some keeper; App.loading := false;
              App.token := Some "tok-2"%string |} <> None.
Proof.
  apply (proj1 (routes_are_guarded
                  {| App.user := Some keeper; App.loading := false;
                     App.token := Some "tok-2"%string |}
                  App.RAdmin)
               App.AdminDashboardPage eq_refl).
  reflexivity.
Defined.
